(** * garm-provider-cloudstack: specification resolution and instance lifecycle

    A shallow embedding of the Go packages [config], [internal/spec],
    [internal/util], [internal/client] and [provider], followed by the
    properties of the specification proved (or refuted) over it.

    Conventions of the embedding:
    - a Go [string] is a [string] (a sequence of 8-bit characters, as in Go);
      a [[]byte] is a [list byte];
    - a Go [error] is a value of [error] below, [nil] is [None] of
      [option error]; a function returning [(T, error)] returns [result T];
    - a pointer field that may be [nil] is an [option];
    - everything that lives outside the repository (the Unicode tables of the
      Go runtime, the CloudStack SDK, the garm-provider-common helpers, the
      gzip and zip writers) is a field of a record passed to the code. *)

From Stdlib Require Import ZArith List String Ascii Strings.Byte Bool Lia Arith.
Import ListNotations.

Local Open Scope string_scope.
Local Open Scope list_scope.

(** ** Fragments of the Go runtime used by the repository *)

Module gostd.

(** What the embedding takes from outside the repository without looking
    inside: the Unicode slow paths of package [strings], [strconv.Quote]
    (the [%q] verb), and the texts of the two sentinel errors. *)
Record Runtime : Type := {
  (** [strings.Map(unicode.ToLower, s)], reached by [strings.ToLower] only
      when [s] holds a byte [>= 0x80] *)
  MapToLower : string -> string;
  (** [strings.TrimFunc(s, unicode.IsSpace)], reached by [strings.TrimSpace]
      only when [s] holds a byte [>= 0x80] *)
  TrimFuncIsSpace : string -> string;
  (** [strconv.Quote], the rendering of the [%q] verb *)
  Quote : string -> string;
  (** [garmErrors.ErrNotFound.Error()] *)
  ErrNotFoundText : string;
  (** [cs.AsyncTimeoutErr.Error()] *)
  AsyncTimeoutErrText : string
}.

(** [utf8.RuneSelf = 0x80]: a string is ASCII when every byte is below it. *)
Definition isASCII (s : string) : bool :=
  forallb (fun c => (N_of_ascii c <? 128)%N) (list_ascii_of_string s).

(** The ASCII branch of [strings.ToLower]: [c += 'a' - 'A'] for
    ['A' <= c <= 'Z']. *)
Definition lowerByte (c : ascii) : ascii :=
  if (("A" <=? c)%char && (c <=? "Z")%char)%bool
  then ascii_of_N (N_of_ascii c + 32)
  else c.

Fixpoint mapBytes (f : ascii -> ascii) (s : string) : string :=
  match s with
  | EmptyString => EmptyString
  | String c rest => String (f c) (mapBytes f rest)
  end.

(** [strings.ToLower]. *)
Definition ToLower (R : Runtime) (s : string) : string :=
  if isASCII s then mapBytes lowerByte s else MapToLower R s.

(** The [asciiSpace] table of package [strings]: tab, newline, vertical tab,
    form feed, carriage return, space. *)
Definition asciiSpace (c : ascii) : bool :=
  let n := N_of_ascii c in
  ((n =? 9) || (n =? 10) || (n =? 11) || (n =? 12) || (n =? 13) || (n =? 32))%N%bool.

Fixpoint trimLeft (s : string) : string :=
  match s with
  | EmptyString => EmptyString
  | String c rest => if asciiSpace c then trimLeft rest else s
  end.

(** Drops the trailing run of ASCII spaces. *)
Fixpoint trimRight (s : string) : string :=
  match s with
  | EmptyString => EmptyString
  | String c rest =>
      match trimRight rest with
      | EmptyString => if asciiSpace c then EmptyString else String c EmptyString
      | t => String c t
      end
  end.

(** [strings.TrimSpace]. *)
Definition TrimSpace (R : Runtime) (s : string) : string :=
  if isASCII s then trimRight (trimLeft s) else TrimFuncIsSpace R s.

(** [strings.Contains(s, substr)]. *)
Fixpoint Contains (s substr : string) : bool :=
  (String.prefix substr s ||
   match s with
   | EmptyString => false
   | String _ rest => Contains rest substr
   end)%bool.

(** Go errors.  The two sentinels are the package-level variables
    [garmErrors.ErrNotFound] and [cs.AsyncTimeoutErr]; [errorString] is any
    error without a wrapped cause ([errors.New], [fmt.Errorf] without [%w],
    whatever the SDK reports); [wrapError] is [fmt.Errorf] with one [%w]:
    it carries its formatted text and the error it wraps. *)
Inductive error : Type :=
| ErrNotFound
| AsyncTimeoutErr
| errorString (msg : string)
| wrapError (msg : string) (err : error).

(** The [Error()] method. *)
Definition Error (R : Runtime) (e : error) : string :=
  match e with
  | ErrNotFound => ErrNotFoundText R
  | AsyncTimeoutErr => AsyncTimeoutErrText R
  | errorString msg => msg
  | wrapError msg _ => msg
  end.

(** [fmt.Errorf(prefix + "%w", err)]: every use of [%w] in the repository has
    the verb last. *)
Definition Errorf_w (R : Runtime) (prefix : string) (err : error) : error :=
  wrapError (prefix ++ Error R err) err.

(** Which sentinel a target of [errors.Is] is. *)
Inductive sentinel : Type := IsErrNotFound | IsAsyncTimeoutErr.

(** [errors.Is(err, target)] for a sentinel target: walk the [Unwrap] chain
    and compare by identity. *)
Fixpoint errors_Is (err : error) (target : sentinel) : bool :=
  match err, target with
  | ErrNotFound, IsErrNotFound => true
  | AsyncTimeoutErr, IsAsyncTimeoutErr => true
  | wrapError _ inner, _ => errors_Is inner target
  | _, _ => false
  end.

(** The outcome of a Go function returning [(T, error)]: the value, the
    error, or a run-time panic (an index out of range). *)
Inductive result (T : Type) : Type :=
| Ok (v : T)
| Err (e : error)
| Panic.

Arguments Ok {T} v.
Arguments Err {T} e.
Arguments Panic {T}.

(** [v, err := f(); if err != nil { return ..., err }; k(v)] *)
Definition bind {A B : Type} (r : result A) (k : A -> result B) : result B :=
  match r with
  | Ok v => k v
  | Err e => Err e
  | Panic => Panic
  end.

(** [if err != nil { return ..., wrap(err) }] *)
Definition onError {A : Type} (wrap : error -> error) (r : result A) : result A :=
  match r with
  | Ok v => Ok v
  | Err e => Err (wrap e)
  | Panic => Panic
  end.

(** [xs[0]]: a run-time panic on an empty slice. *)
Definition first {A : Type} (xs : list A) : result A :=
  match xs with
  | x :: _ => Ok x
  | [] => Panic
  end.

Declare Scope result_scope.
Delimit Scope result_scope with result.

Notation "x <- e ;; k" := (bind e (fun x => k))
  (at level 61, e at next level, right associativity) : result_scope.

End gostd.

(** ** [encoding/base64]: the standard encoding, with padding *)

Module base64.

(** [encodeStd], the alphabet of [base64.StdEncoding]. *)
Definition encodeStd : string :=
  "ABCDEFGHIJKLMNOPQRSTUVWXYZabcdefghijklmnopqrstuvwxyz0123456789+/".

(** [base64.StdPadding]. *)
Definition StdPadding : ascii := "="%char.

(** A byte as the unsigned integer Go computes with. *)
Definition byteZ (b : byte) : Z := Z.of_N (Byte.to_N b).

(** The conversion [byte(v)]: the low eight bits of [v]. *)
Definition toByte (v : Z) : byte :=
  match Byte.of_N (Z.to_N (Z.land v 255)) with
  | Some b => b
  | None => x00
  end.

(** [enc.encode[v]] for a six-bit [v]. *)
Definition encode (v : Z) : ascii :=
  match String.get (Z.to_nat v) encodeStd with
  | Some c => c
  | None => StdPadding
  end.

(** [v >> k & 0x3F]. *)
Definition sextet (v k : Z) : Z := Z.land (Z.shiftr v k) 63.

(** [Encoding.EncodeToString] of [StdEncoding]: three bytes make one
    24-bit [val] and four characters; a remainder of one or two bytes is
    padded with [=]. *)
Fixpoint EncodeToString (src : list byte) : string :=
  match src with
  | a :: b :: c :: rest =>
      let val := Z.lor (Z.lor (Z.shiftl (byteZ a) 16) (Z.shiftl (byteZ b) 8)) (byteZ c) in
      String (encode (sextet val 18))
        (String (encode (sextet val 12))
           (String (encode (sextet val 6))
              (String (encode (Z.land val 63)) (EncodeToString rest))))
  | [a; b] =>
      let val := Z.lor (Z.shiftl (byteZ a) 16) (Z.shiftl (byteZ b) 8) in
      String (encode (sextet val 18))
        (String (encode (sextet val 12))
           (String (encode (sextet val 6))
              (String StdPadding EmptyString)))
  | [a] =>
      let val := Z.shiftl (byteZ a) 16 in
      String (encode (sextet val 18))
        (String (encode (sextet val 12))
           (String StdPadding (String StdPadding EmptyString)))
  | [] => EmptyString
  end.

Fixpoint indexFrom (i : Z) (c : ascii) (alphabet : string) : option Z :=
  match alphabet with
  | EmptyString => None
  | String d rest => if (c =? d)%char then Some i else indexFrom (i + 1) c rest
  end.

(** [enc.decodeMap[c]], with [None] for the bytes that are not in the
    alphabet (0xFF in Go). *)
Definition decodeMap (c : ascii) : option Z := indexFrom 0 c encodeStd.

(** The 24-bit value four six-bit digits stand for. *)
Definition quantum (s0 s1 s2 s3 : Z) : Z :=
  Z.lor (Z.lor (Z.lor (Z.shiftl s0 18) (Z.shiftl s1 12)) (Z.shiftl s2 6)) s3.

(** The decoder the round-trip property is stated with: RFC 4648 decoding of
    the padded standard alphabet, quantum by quantum; padding is accepted in
    the last quantum only.  (The repository only encodes; the instance that
    boots decodes.) *)
Fixpoint DecodeString (s : string) : option (list byte) :=
  match s with
  | EmptyString => Some []
  | String c0 (String c1 (String c2 (String c3 rest))) =>
      match decodeMap c0, decodeMap c1 with
      | Some s0, Some s1 =>
          if (c2 =? StdPadding)%char then
            match (c3 =? StdPadding)%char, rest with
            | true, EmptyString => Some [toByte (Z.shiftr (quantum s0 s1 0 0) 16)]
            | _, _ => None
            end
          else
            match decodeMap c2 with
            | Some s2 =>
                if (c3 =? StdPadding)%char then
                  match rest with
                  | EmptyString =>
                      let val := quantum s0 s1 s2 0 in
                      Some [toByte (Z.shiftr val 16); toByte (Z.shiftr val 8)]
                  | _ => None
                  end
                else
                  match decodeMap c3, DecodeString rest with
                  | Some s3, Some tail =>
                      let val := quantum s0 s1 s2 s3 in
                      Some (toByte (Z.shiftr val 16) :: toByte (Z.shiftr val 8)
                              :: toByte val :: tail)
                  | _, _ => None
                  end
            | None => None
            end
      | _, _ => None
      end
  | _ => None
  end.

End base64.

(** ** [compress/gzip] and [archive/zip], as the repository drives them *)

Module compress.

Import gostd.

(** The two writers, each over an in-memory [bytes.Buffer], and the readers
    that undo them.  [Close] hands back the bytes the buffer holds once the
    stream is finished. *)
Record Library : Type := {
  gzipWriter : Type;
  (** [gzip.NewWriter(&b)] *)
  gzip_NewWriter : gzipWriter;
  gzip_Write : gzipWriter -> list byte -> result gzipWriter;
  gzip_Close : gzipWriter -> result (list byte);
  (** reading a gzip stream to its end *)
  gunzip : list byte -> option (list byte);
  zipWriter : Type;
  (** [zip.NewWriter(&b)] *)
  zip_NewWriter : zipWriter;
  (** [(zipped).Create(name)]: opens an entry; the returned [fd] writes to it *)
  zip_Create : zipWriter -> string -> result zipWriter;
  zip_Write : zipWriter -> list byte -> result zipWriter;
  zip_Close : zipWriter -> result (list byte);
  (** reading an archive: its entries, in order, with their contents *)
  unzip : list byte -> option (list (string * list byte))
}.

(** The contract of the two packages that the round trip rests on: writing
    into memory succeeds, and what was written reads back. *)
Record Lawful (L : Library) : Prop := {
  gzip_roundtrip : forall p : list byte,
    exists w z,
      gzip_Write L (gzip_NewWriter L) p = Ok w /\
      gzip_Close L w = Ok z /\
      gunzip L z = Some p;
  zip_roundtrip : forall (name : string) (p : list byte),
    (Z.of_nat (String.length name) < 65536)%Z ->
    exists w1 w2 z,
      zip_Create L (zip_NewWriter L) name = Ok w1 /\
      zip_Write L w1 p = Ok w2 /\
      zip_Close L w2 = Ok z /\
      unzip L z = Some [(name, p)]
}.

End compress.

(** ** [garm-provider-common/params]: the types the provider exchanges with garm *)

Module params.

(** [params.OSType] and its constants. *)
Definition OSType : Type := string.
Definition Linux : OSType := "linux".
Definition Windows : OSType := "windows".

Definition OSArch : Type := string.

(** [params.InstanceStatus] and the constants the provider assigns. *)
Definition InstanceStatus : Type := string.
Definition InstanceRunning : InstanceStatus := "running".
Definition InstanceStopped : InstanceStatus := "stopped".
Definition InstanceStatusUnknown : InstanceStatus := "unknown".

(** [params.RunnerApplicationDownload]: the repository only passes it on. *)
Definition RunnerApplicationDownload : Type := string.

Record UserDataOptions : Type := {
  DisableUpdatesOnBoot : bool;
  UDExtraPackages : list string;
  UDEnableBootDebug : bool
}.

(** [params.BootstrapInstance], the fields the provider reads or writes. *)
Record BootstrapInstance : Type := {
  Name : string;
  Tools : list RunnerApplicationDownload;
  BOSType : OSType;
  BOSArch : OSArch;
  PoolID : string;
  (** [json.RawMessage] *)
  ExtraSpecs : list byte;
  UserDataOpts : UserDataOptions
}.

(** [params.ProviderInstance]; [emptyInstance] is [params.ProviderInstance{}]. *)
Record ProviderInstance : Type := {
  ProviderID : string;
  IName : string;
  IOSType : OSType;
  IOSArch : OSArch;
  Status : InstanceStatus
}.

Definition emptyInstance : ProviderInstance :=
  {| ProviderID := ""; IName := ""; IOSType := ""; IOSArch := ""; Status := "" |}.

(** Assignments to one field. *)
Definition setName (i : ProviderInstance) (v : string) : ProviderInstance :=
  {| ProviderID := ProviderID i; IName := v; IOSType := IOSType i;
     IOSArch := IOSArch i; Status := Status i |}.

Definition setOSType (i : ProviderInstance) (v : OSType) : ProviderInstance :=
  {| ProviderID := ProviderID i; IName := IName i; IOSType := v;
     IOSArch := IOSArch i; Status := Status i |}.

Definition setOSArch (i : ProviderInstance) (v : OSArch) : ProviderInstance :=
  {| ProviderID := ProviderID i; IName := IName i; IOSType := IOSType i;
     IOSArch := v; Status := Status i |}.

Definition setStatus (i : ProviderInstance) (v : InstanceStatus) : ProviderInstance :=
  {| ProviderID := ProviderID i; IName := IName i; IOSType := IOSType i;
     IOSArch := IOSArch i; Status := v |}.

End params.

(** ** Package [config] *)

Module config.

Import gostd.
Local Open Scope result_scope.

(** *** The pattern behind [isUUID]

    [uuidRegex] only uses an anchored sequence of counted single-character
    items, so that is the fragment of [regexp] embedded here. *)
Inductive item : Type :=
| Class (ranges : list (ascii * ascii))
| Literal (c : ascii).

(** [^ item{n} item{n} ... $] *)
Definition Regexp : Type := list (item * nat).

Definition matchItem (it : item) (c : ascii) : bool :=
  match it with
  | Class ranges =>
      existsb (fun r => ((fst r <=? c)%char && (c <=? snd r)%char)%bool) ranges
  | Literal d => (c =? d)%char
  end.

(** Consumes exactly [n] characters matching [it]. *)
Fixpoint matchCount (it : item) (n : nat) (s : string) : option string :=
  match n with
  | O => Some s
  | S n' =>
      match s with
      | EmptyString => None
      | String c rest => if matchItem it c then matchCount it n' rest else None
      end
  end.

(** [(re).MatchString(s)] for a pattern anchored at both ends. *)
Fixpoint MatchString (re : Regexp) (s : string) : bool :=
  match re with
  | [] => match s with EmptyString => true | _ => false end
  | (it, n) :: re' =>
      match matchCount it n s with
      | Some rest => MatchString re' rest
      | None => false
      end
  end.

(** [[0-9a-fA-F]] *)
Definition hex : item :=
  Class [("0"%char, "9"%char); ("a"%char, "f"%char); ("A"%char, "F"%char)].

(** [^[0-9a-fA-F]{8}-[0-9a-fA-F]{4}-[0-9a-fA-F]{4}-[0-9a-fA-F]{4}-[0-9a-fA-F]{12}$] *)
Definition uuidRegex : Regexp :=
  [(hex, 8); (Literal "-", 1); (hex, 4); (Literal "-", 1); (hex, 4);
   (Literal "-", 1); (hex, 4); (Literal "-", 1); (hex, 12)].

Definition isUUID (s : string) : bool := MatchString uuidRegex s.

(** *** The configuration *)

Record resolvedIDs : Type := {
  rZoneID : string;
  rServiceOfferingID : string;
  rTemplateID : string;
  rProjectID : string
}.

Record Config : Type := {
  APIURL : string;
  APIKey : string;
  Secret : string;
  VerifySSL : bool;
  Zone : string;
  ServiceOffering : string;
  Template : string;
  Project : string;
  SSHKeyName : string;
  Expunge : bool;
  resolved : resolvedIDs
}.

Definition ZoneID (c : Config) : string := rZoneID (resolved c).
Definition ServiceOfferingID (c : Config) : string := rServiceOfferingID (resolved c).
Definition TemplateID (c : Config) : string := rTemplateID (resolved c).
Definition ProjectID (c : Config) : string := rProjectID (resolved c).

Definition setResolved (c : Config) (r : resolvedIDs) : Config :=
  {| APIURL := APIURL c; APIKey := APIKey c; Secret := Secret c;
     VerifySSL := VerifySSL c; Zone := Zone c;
     ServiceOffering := ServiceOffering c; Template := Template c;
     Project := Project c; SSHKeyName := SSHKeyName c; Expunge := Expunge c;
     resolved := r |}.

Definition SetResolvedIDs (c : Config)
  (zoneID serviceOfferingID templateID projectID : string) : Config :=
  setResolved c {| rZoneID := zoneID; rServiceOfferingID := serviceOfferingID;
                   rTemplateID := templateID; rProjectID := projectID |}.

(** [Validate]: the first empty required field is reported. *)
Definition Validate (c : Config) : option error :=
  if (APIURL c =? "")%string then Some (errorString "missing api_url")
  else if (APIKey c =? "")%string then Some (errorString "missing api_key")
  else if (Secret c =? "")%string then Some (errorString "missing secret")
  else if (Zone c =? "")%string then Some (errorString "missing zone")
  else if (ServiceOffering c =? "")%string then Some (errorString "missing service_offering")
  else if (Template c =? "")%string then Some (errorString "missing template")
  else None.

(** *** The by-name lookups of the CloudStack SDK used at start-up *)

Record ListProjectsParams : Type := {
  lpName : option string;
  lpListall : option bool
}.

Record ListProjectsResponse : Type := {
  pCount : Z;
  (** the [Id] of each project, in the order of the response *)
  Projects : list string
}.

Record ListTemplatesParams : Type := {
  ltTemplatefilter : string;
  ltName : option string;
  ltZoneid : option string;
  ltProjectid : option string
}.

Record ListTemplatesResponse : Type := {
  tCount : Z;
  (** the [Id] of each template, in the order of the response *)
  Templates : list string
}.

(** The client [cs.NewAsyncClient] builds from the credentials; each field
    is the answer of the platform to one request. *)
Record Client : Type := {
  (** [Zone.GetZoneByName]: the [Id] of the zone found *)
  GetZoneByName : string -> result string;
  (** [ServiceOffering.GetServiceOfferingByName]: the [Id] of the offering *)
  GetServiceOfferingByName : string -> result string;
  ListProjects : ListProjectsParams -> result ListProjectsResponse;
  ListTemplates : ListTemplatesParams -> result ListTemplatesResponse
}.

Section Resolve.

Variable R : Runtime.
Variable client : Client.

Definition resolveZone (c : Config) : result string :=
  if isUUID (Zone c) then Ok (Zone c)
  else
    onError (Errorf_w R ("failed to resolve zone " ++ Quote R (Zone c) ++ ": "))
      (GetZoneByName client (Zone c)).

Definition resolveServiceOffering (c : Config) : result string :=
  if isUUID (ServiceOffering c) then Ok (ServiceOffering c)
  else
    onError (Errorf_w R ("failed to resolve service_offering "
                           ++ Quote R (ServiceOffering c) ++ ": "))
      (GetServiceOfferingByName client (ServiceOffering c)).

(** The project block; [current] is [c.resolved.ProjectID] before it. *)
Definition resolveProject (c : Config) (current : string) : result string :=
  if (Project c =? "")%string then Ok current
  else if isUUID (Project c) then Ok (Project c)
  else
    let p := {| lpName := Some (Project c); lpListall := Some true |} in
    resp <- onError (Errorf_w R ("failed to resolve project "
                                   ++ Quote R (Project c) ++ ": "))
              (ListProjects client p) ;;
    if (pCount resp =? 0)%Z then
      Err (errorString ("project " ++ Quote R (Project c) ++ " not found"))
    else if (pCount resp >? 1)%Z then
      Err (errorString ("multiple projects found matching " ++ Quote R (Project c)))
    else first (Projects resp).

(** The template block, scoped by the zone and project resolved before it. *)
Definition resolveTemplate (c : Config) (zoneID projectID : string) : result string :=
  if isUUID (Template c) then Ok (Template c)
  else
    let p := {| ltTemplatefilter := "executable";
                ltName := Some (Template c);
                ltZoneid := Some zoneID;
                ltProjectid :=
                  if (projectID =? "")%string then None else Some projectID |} in
    resp <- onError (Errorf_w R ("failed to resolve template "
                                   ++ Quote R (Template c) ++ ": "))
              (ListTemplates client p) ;;
    if (tCount resp =? 0)%Z then
      Err (errorString ("template " ++ Quote R (Template c) ++ " not found"))
    else first (Templates resp).

(** [resolveNames]: zone, service offering, project, template, in this
    order; the first failure ends it.  The receiver is returned with its
    [resolved] bundle filled in; on failure the caller ([NewConfig]) drops
    the receiver, so no partial bundle is returned. *)
Definition resolveNames (c : Config) : result Config :=
  zoneID <- resolveZone c ;;
  offeringID <- resolveServiceOffering c ;;
  projectID <- resolveProject c (ProjectID c) ;;
  templateID <- resolveTemplate c zoneID projectID ;;
  Ok (SetResolvedIDs c zoneID offeringID templateID projectID).

End Resolve.

Section Load.

Variable R : Runtime.

(** [toml.DecodeFile(path, &cfg)]: the configuration read from the file. *)
Variable DecodeFile : string -> result Config.

(** [cs.NewAsyncClient(apiURL, apiKey, secret, verifySSL)] *)
Variable NewAsyncClient : string -> string -> string -> bool -> Client.

(** [NewConfig]: decode, validate, resolve. *)
Definition NewConfig (path : string) : result Config :=
  cfg <- onError (Errorf_w R "error decoding config: ") (DecodeFile path) ;;
  match Validate cfg with
  | Some err => Err (Errorf_w R "error validating config: " err)
  | None =>
      onError (Errorf_w R "error resolving names: ")
        (resolveNames R
           (NewAsyncClient (APIURL cfg) (APIKey cfg) (Secret cfg) (VerifySSL cfg))
           cfg)
  end.

End Load.

End config.

(** ** Package [internal/spec] *)

Module spec.

Import gostd.
Local Open Scope result_scope.

(** [extraSpecs]: the per-request overrides.  A [*string] or [*bool] field
    is absent ([None]) or present with a value. *)
Record extraSpecs : Type := {
  eZoneID : option string;
  eServiceOfferingID : option string;
  eTemplateID : option string;
  eNetworkIDs : list string;
  eSSHKeyName : option string;
  eProjectID : option string;
  eDisableUpdates : option bool;
  eEnableBootDebug : option bool;
  eExtraPackages : list string;
  (** the embedded [cloudconfig.CloudConfigSpec], passed on as it is *)
  eCloudConfigSpec : list byte
}.

(** [&extraSpecs{}] *)
Definition emptyExtraSpecs : extraSpecs :=
  {| eZoneID := None; eServiceOfferingID := None; eTemplateID := None;
     eNetworkIDs := []; eSSHKeyName := None; eProjectID := None;
     eDisableUpdates := None; eEnableBootDebug := None;
     eExtraPackages := []; eCloudConfigSpec := [] |}.

(** [RunnerSpec]: the fully resolved specification of one VM. *)
Record RunnerSpec : Type := {
  ZoneID : string;
  ServiceOfferingID : string;
  TemplateID : string;
  NetworkIDs : list string;
  SSHKeyName : string;
  ProjectID : string;
  DisableUpdates : bool;
  EnableBootDebug : bool;
  ExtraPackages : list string;
  Tools : params.RunnerApplicationDownload;
  BootstrapParams : params.BootstrapInstance;
  ControllerID : string
}.

(** [if p != nil && *p != "" { field = *p }] *)
Definition overrideString (base : string) (p : option string) : string :=
  match p with
  | Some v => if (v =? "")%string then base else v
  | None => base
  end.

(** [if p != nil { field = *p }] *)
Definition overrideBool (base : bool) (p : option bool) : bool :=
  match p with
  | Some v => v
  | None => base
  end.

(** [MergeExtraSpecs]; [extra] is [None] for a nil pointer. *)
Definition MergeExtraSpecs (r : RunnerSpec) (extra : option extraSpecs) : RunnerSpec :=
  match extra with
  | None => r
  | Some extra =>
      {| ZoneID := overrideString (ZoneID r) (eZoneID extra);
         ServiceOfferingID :=
           overrideString (ServiceOfferingID r) (eServiceOfferingID extra);
         TemplateID := overrideString (TemplateID r) (eTemplateID extra);
         NetworkIDs :=
           match eNetworkIDs extra with
           | [] => NetworkIDs r
           | ids => ids
           end;
         SSHKeyName := overrideString (SSHKeyName r) (eSSHKeyName extra);
         ProjectID := overrideString (ProjectID r) (eProjectID extra);
         DisableUpdates := overrideBool (DisableUpdates r) (eDisableUpdates extra);
         EnableBootDebug := overrideBool (EnableBootDebug r) (eEnableBootDebug extra);
         ExtraPackages := ExtraPackages r;
         Tools := Tools r;
         BootstrapParams := BootstrapParams r;
         ControllerID := ControllerID r |}
  end.

(** [Validate] of a runner spec. *)
Definition Validate (r : RunnerSpec) : option error :=
  if (ZoneID r =? "")%string then Some (errorString "missing zone_id")
  else if (ServiceOfferingID r =? "")%string
       then Some (errorString "missing service_offering_id")
  else if (TemplateID r =? "")%string then Some (errorString "missing template_id")
  else if (params.Name (BootstrapParams r) =? "")%string
       then Some (errorString "missing bootstrap params")
  else None.

(** What the package takes from outside the repository. *)
Record Deps : Type := {
  runtime : Runtime;
  zlib : compress.Library;
  (** [DefaultToolFetch], by default [util.GetTools] *)
  DefaultToolFetch :
    params.OSType -> params.OSArch -> list params.RunnerApplicationDownload ->
    result params.RunnerApplicationDownload;
  (** [gojsonschema.Validate] of a document against the schema reflected
      from [extraSpecs]: whether it is valid, and the text of its errors *)
  gojsonschema_Validate : list byte -> result (bool * string);
  (** [json.Unmarshal] into a fresh [extraSpecs] *)
  json_Unmarshal : list byte -> result extraSpecs;
  (** [cloudconfig.GetCloudConfig] *)
  GetCloudConfig :
    params.BootstrapInstance -> params.RunnerApplicationDownload -> string ->
    result string
}.

Section WithDeps.

Variable D : Deps.

Definition jsonSchemaValidation (schema : list byte) : result unit :=
  r <- onError (Errorf_w (runtime D) "failed to validate schema: ")
         (gojsonschema_Validate D schema) ;;
  if fst r then Ok tt
  else Err (errorString ("schema validation failed: " ++ snd r)).

Definition newExtraSpecsFromBootstrapData (data : params.BootstrapInstance)
  : result extraSpecs :=
  match params.ExtraSpecs data with
  | [] => Ok emptyExtraSpecs
  | _ =>
      _ <- onError (Errorf_w (runtime D) "failed to validate extra specs: ")
             (jsonSchemaValidation (params.ExtraSpecs data)) ;;
      onError (Errorf_w (runtime D) "failed to unmarshal extra specs: ")
        (json_Unmarshal D (params.ExtraSpecs data))
  end.

(** [GetRunnerSpecFromBootstrapParams]: the base spec comes from the
    provider configuration (its resolved identifiers), then the overrides
    are merged and the result validated. *)
Definition GetRunnerSpecFromBootstrapParams
  (cfg : config.Config) (data : params.BootstrapInstance) (controllerID : string)
  : result RunnerSpec :=
  tools <- onError (fun err => errorString ("failed to get tools: " ++ Error (runtime D) err))
             (DefaultToolFetch D (params.BOSType data) (params.BOSArch data)
                (params.Tools data)) ;;
  extraSpecs <- onError (Errorf_w (runtime D) "error loading extra specs: ")
                  (newExtraSpecsFromBootstrapData data) ;;
  let spec :=
    {| ZoneID := config.ZoneID cfg;
       ServiceOfferingID := config.ServiceOfferingID cfg;
       TemplateID := config.TemplateID cfg;
       NetworkIDs := [];
       SSHKeyName := config.SSHKeyName cfg;
       ProjectID := config.ProjectID cfg;
       DisableUpdates := false;
       EnableBootDebug := false;
       ExtraPackages := eExtraPackages extraSpecs;
       Tools := tools;
       BootstrapParams := data;
       ControllerID := controllerID |} in
  let spec := MergeExtraSpecs spec (Some extraSpecs) in
  match Validate spec with
  | Some err => Err (Errorf_w (runtime D) "error validating spec: " err)
  | None => Ok spec
  end.

(** [1 << 14] *)
Definition compressThreshold : Z := Z.shiftl 1 14.

(** [maybeCompressUserdata] *)
Definition maybeCompressUserdata (udata : list byte) (targetOS : params.OSType)
  : result (list byte) :=
  if (Z.of_nat (List.length udata) <? compressThreshold)%Z then Ok udata
  else if (targetOS =? params.Windows)%string then
    fd <- compress.zip_Create (zlib D) (compress.zip_NewWriter (zlib D)) "udata" ;;
    zipped <- onError (Errorf_w (runtime D) "failed to compress cloud config: ")
                (compress.zip_Write (zlib D) fd udata) ;;
    compress.zip_Close (zlib D) zipped
  else
    gzipped <- onError (Errorf_w (runtime D) "failed to compress cloud config: ")
                 (compress.gzip_Write (zlib D) (compress.gzip_NewWriter (zlib D)) udata) ;;
    compress.gzip_Close (zlib D) gzipped.

(** The [switch] of [ComposeUserData]: the rendered boot payload, before
    compression. *)
Definition renderUserData (r : RunnerSpec) (bootstrapParams : params.BootstrapInstance)
  : result (list byte) :=
  let osType := params.BOSType bootstrapParams in
  if ((osType =? params.Linux)%string || (osType =? params.Windows)%string)%bool then
    cloudCfg <- onError (Errorf_w (runtime D) "failed to generate userdata: ")
                  (GetCloudConfig D bootstrapParams (Tools r)
                     (params.Name bootstrapParams)) ;;
    if (osType =? params.Windows)%string then
      Ok (list_byte_of_string ("<powershell>" ++ cloudCfg ++ "</powershell>"))
    else Ok (list_byte_of_string cloudCfg)
  else
    Err (errorString ("unsupported OS type for cloud config: " ++ osType)).

(** [bootstrapParams := r.BootstrapParams] with the three user-data options
    taken from the spec. *)
Definition userDataParams (r : RunnerSpec) : params.BootstrapInstance :=
  let b := BootstrapParams r in
  {| params.Name := params.Name b;
     params.Tools := params.Tools b;
     params.BOSType := params.BOSType b;
     params.BOSArch := params.BOSArch b;
     params.PoolID := params.PoolID b;
     params.ExtraSpecs := params.ExtraSpecs b;
     params.UserDataOpts :=
       {| params.DisableUpdatesOnBoot := DisableUpdates r;
          params.UDExtraPackages := ExtraPackages r;
          params.UDEnableBootDebug := EnableBootDebug r |} |}.

(** [ComposeUserData] *)
Definition ComposeUserData (r : RunnerSpec) : result string :=
  let bootstrapParams := userDataParams r in
  udata <- renderUserData r bootstrapParams ;;
  udata <- maybeCompressUserdata udata (params.BOSType bootstrapParams) ;;
  Ok (base64.EncodeToString udata).

End WithDeps.

End spec.

(** ** The CloudStack SDK ([cloudstack-go]), as seen from the repository *)

Module cs.

Import gostd.

Record Tags : Type := {
  Key : string;
  Value : string
}.

(** [cs.VirtualMachine], the fields the provider reads. *)
Record VirtualMachine : Type := {
  Id : string;
  Displayname : string;
  State : string;
  VMTags : list Tags
}.

(** [ListVirtualMachinesParams]: every parameter is unset until its setter
    is called.  [lvTags] is the [map[string]string] of tag filters. *)
Record ListVirtualMachinesParams : Type := {
  lvId : option string;
  lvName : option string;
  lvListall : option bool;
  lvProjectid : option string;
  lvTags : option (list (string * string))
}.

Definition NewListVirtualMachinesParams : ListVirtualMachinesParams :=
  {| lvId := None; lvName := None; lvListall := None; lvProjectid := None;
     lvTags := None |}.

Definition SetId (p : ListVirtualMachinesParams) (v : string) :=
  {| lvId := Some v; lvName := lvName p; lvListall := lvListall p;
     lvProjectid := lvProjectid p; lvTags := lvTags p |}.

Definition SetName (p : ListVirtualMachinesParams) (v : string) :=
  {| lvId := lvId p; lvName := Some v; lvListall := lvListall p;
     lvProjectid := lvProjectid p; lvTags := lvTags p |}.

Definition SetListall (p : ListVirtualMachinesParams) (v : bool) :=
  {| lvId := lvId p; lvName := lvName p; lvListall := Some v;
     lvProjectid := lvProjectid p; lvTags := lvTags p |}.

Definition SetProjectid (p : ListVirtualMachinesParams) (v : string) :=
  {| lvId := lvId p; lvName := lvName p; lvListall := lvListall p;
     lvProjectid := Some v; lvTags := lvTags p |}.

Definition SetTags (p : ListVirtualMachinesParams) (v : list (string * string)) :=
  {| lvId := lvId p; lvName := lvName p; lvListall := lvListall p;
     lvProjectid := lvProjectid p; lvTags := Some v |}.

(** [ListVirtualMachinesResponse]; an entry of [VirtualMachines] is a
    pointer and may be nil. *)
Record ListVirtualMachinesResponse : Type := {
  Count : Z;
  VirtualMachines : list (option VirtualMachine)
}.

Record DeployVirtualMachineParams : Type := {
  dServiceofferingid : string;
  dTemplateid : string;
  dZoneid : string;
  dName : option string;
  dDisplayname : option string;
  dUserdata : option string;
  dNetworkids : option (list string);
  dKeypair : option string;
  dProjectid : option string
}.

(** One request to the platform. *)
Inductive request : Type :=
| ReqListVirtualMachines (p : ListVirtualMachinesParams)
| ReqStartVirtualMachine (id : string)
| ReqStopVirtualMachine (id : string) (forced : bool)
| ReqDestroyVirtualMachine (id : string)
| ReqDeployVirtualMachine (p : DeployVirtualMachineParams)
| ReqCreateTags (resourceids : list string) (resourcetype : string)
    (tags : list (string * string)).

(** [cs.CloudStackClient]: what the platform answers to each request.  No
    operation of the provider sends the same kind of request twice, so an
    answer per request describes any behaviour of the platform during one
    operation.  [IsID] is the package function [cs.IsID]. *)
Record CloudStackClient : Type := {
  IsID : string -> bool;
  ListVirtualMachines : ListVirtualMachinesParams -> result ListVirtualMachinesResponse;
  StartVirtualMachine : string -> result unit;
  StopVirtualMachine : string -> bool -> result unit;
  DestroyVirtualMachine : string -> result unit;
  (** the [Id] of the response *)
  DeployVirtualMachine : DeployVirtualMachineParams -> result string;
  CreateTags : list string -> string -> list (string * string) -> result unit
}.

(** A computation that talks to the platform: the requests it sent, in
    order, and its outcome. *)
Definition Call (A : Type) : Type := list request * result A.

Definition ret {A : Type} (r : result A) : Call A := ([], r).

Definition send {A : Type} (rq : request) (answer : result A) : Call A :=
  ([rq], answer).

Definition andThen {A B : Type} (m : Call A) (k : A -> Call B) : Call B :=
  match snd m with
  | Ok v => (fst m ++ fst (k v), snd (k v))
  | Err e => (fst m, Err e)
  | Panic => (fst m, Panic)
  end.

(** [if err != nil { return handler(err) }] around a computation. *)
Definition orElse {A : Type} (m : Call A) (handler : error -> result A) : Call A :=
  match snd m with
  | Err e => (fst m, handler e)
  | _ => m
  end.

Declare Scope call_scope.
Delimit Scope call_scope with call.

Module CallNotations.
Notation "x <- e ;; k" := (andThen e (fun x => k))
  (at level 61, e at next level, right associativity) : call_scope.
End CallNotations.

End cs.

(** ** Package [internal/util] *)

Module util.

Import gostd.

(** The body of the loop over [vm.Tags]. *)
Definition applyTag (inst : params.ProviderInstance) (tag : cs.Tags)
  : params.ProviderInstance :=
  if (cs.Key tag =? "Name")%string then
    if (params.IName inst =? "")%string then params.setName inst (cs.Value tag)
    else inst
  else if (cs.Key tag =? "OSType")%string then params.setOSType inst (cs.Value tag)
  else if (cs.Key tag =? "OSArch")%string then params.setOSArch inst (cs.Value tag)
  else inst.

Definition inCases (s : string) (cases : list string) : bool :=
  existsb (String.eqb s) cases.

(** The [switch s] on the lower-cased state. *)
Definition statusOfLowered (s : string) : params.InstanceStatus :=
  if inCases s ["running"; "starting"; "migrating"; "restoring"; "stopping"]
  then params.InstanceRunning
  else if inCases s ["stopped"; "shutdown"; "destroyed"; "expunging"]
  then params.InstanceStopped
  else params.InstanceStatusUnknown.

Section WithRuntime.

Variable R : Runtime.

(** [CloudStackInstanceToParamsInstance]; [vm] is [None] for a nil pointer. *)
Definition CloudStackInstanceToParamsInstance (vm : option cs.VirtualMachine)
  : result params.ProviderInstance :=
  match vm with
  | None => Err (errorString "nil virtual machine")
  | Some vm =>
      if (cs.Id vm =? "")%string then
        Err (errorString "virtual machine has empty id")
      else
        let inst :=
          {| params.ProviderID := cs.Id vm; params.IName := "";
             params.IOSType := ""; params.IOSArch := ""; params.Status := "" |} in
        let inst :=
          if (cs.Displayname vm =? "")%string then inst
          else params.setName inst (cs.Displayname vm) in
        let inst := fold_left applyTag (cs.VMTags vm) inst in
        let s := ToLower R (cs.State vm) in
        Ok (params.setStatus inst (statusOfLowered s))
  end.

(** [IsCloudStackNotFoundErr]; [err] is [None] for nil. *)
Definition IsCloudStackNotFoundErr (err : option error) : bool :=
  match err with
  | None => false
  | Some err =>
      if errors_Is err IsAsyncTimeoutErr then false
      else
        let errLower := ToLower R (Error R err) in
        (Contains errLower "no match found for" ||
         Contains errLower "entity does not exist")%bool
  end.

End WithRuntime.

End util.

(** ** Package [internal/client] *)

Module client.

Import gostd.
Import cs.CallNotations.
Local Open Scope call_scope.

(** [CloudStackCli] *)
Record CloudStackCli : Type := {
  cfg : config.Config;
  client : cs.CloudStackClient
}.

Definition Config (c : CloudStackCli) : config.Config := cfg c.

(** [vm.Id] through a pointer: a nil pointer panics. *)
Definition vmId (vm : option cs.VirtualMachine) : result string :=
  match vm with
  | Some vm => Ok (cs.Id vm)
  | None => Panic
  end.

(** [if c.cfg.ProjectID() != "" { p.SetProjectid(c.cfg.ProjectID()) }] *)
Definition scopeToProject (c : CloudStackCli) (p : cs.ListVirtualMachinesParams)
  : cs.ListVirtualMachinesParams :=
  if (config.ProjectID (cfg c) =? "")%string then p
  else cs.SetProjectid p (config.ProjectID (cfg c)).

Definition listVirtualMachines (c : CloudStackCli) (p : cs.ListVirtualMachinesParams)
  : cs.Call cs.ListVirtualMachinesResponse :=
  cs.send (cs.ReqListVirtualMachines p) (cs.ListVirtualMachines (client c) p).

Section WithRuntime.

Variable R : Runtime.

(** [FindOneInstance]: by ID when the identifier is one, else by name and,
    when a controller ID is given, by controller tag. *)
Definition FindOneInstance (c : CloudStackCli) (controllerID identifier : string)
  : cs.Call (option cs.VirtualMachine) :=
  if (TrimSpace R identifier =? "")%string then
    cs.ret (Err (errorString "empty identifier"))
  else if cs.IsID (client c) identifier then
    let p := cs.NewListVirtualMachinesParams in
    let p := cs.SetId p identifier in
    let p := cs.SetListall p true in
    let p := scopeToProject c p in
    resp <- cs.orElse (listVirtualMachines c p)
              (fun err => Err (Errorf_w R ("failed to get instance " ++ identifier ++ ": ") err)) ;;
    if (cs.Count resp =? 0)%Z then
      cs.ret (Err (Errorf_w R ("no such instance " ++ identifier ++ ": ") ErrNotFound))
    else cs.ret (first (cs.VirtualMachines resp))
  else
    let p := cs.NewListVirtualMachinesParams in
    let p := cs.SetName p identifier in
    let p := cs.SetListall p true in
    let p := scopeToProject c p in
    let p :=
      if (controllerID =? "")%string then p
      else cs.SetTags p [("GARM_CONTROLLER_ID", controllerID)] in
    resp <- cs.orElse (listVirtualMachines c p)
              (fun err => Err (Errorf_w R "failed to list instances: " err)) ;;
    if (cs.Count resp =? 0)%Z then
      cs.ret (Err (Errorf_w R ("no such instance " ++ identifier ++ ": ") ErrNotFound))
    else if (cs.Count resp >? 1)%Z then
      cs.ret (Err (errorString ("found more than one instance with name " ++ identifier)))
    else cs.ret (first (cs.VirtualMachines resp)).

(** The filter of [ListInstancesByPool]: nil entries and the destroyed or
    expunging machines are skipped. *)
Definition keepListed (vm : option cs.VirtualMachine) : bool :=
  match vm with
  | None => false
  | Some vm =>
      let state := ToLower R (cs.State vm) in
      negb ((state =? "destroyed")%string || (state =? "expunging")%string)
  end.

(** [ListInstancesByPool] *)
Definition ListInstancesByPool (c : CloudStackCli) (controllerID poolID : string)
  : cs.Call (list (option cs.VirtualMachine)) :=
  let p := cs.NewListVirtualMachinesParams in
  let p := cs.SetListall p true in
  let p := cs.SetTags p [("GARM_CONTROLLER_ID", controllerID); ("GARM_POOL_ID", poolID)] in
  let p := scopeToProject c p in
  resp <- cs.orElse (listVirtualMachines c p)
            (fun err => Err (Errorf_w R "failed to list instances: " err)) ;;
  cs.ret (Ok (filter keepListed (cs.VirtualMachines resp))).

(** [StartInstance]; [Ok tt] is the nil error. *)
Definition StartInstance (c : CloudStackCli) (identifier : string) : cs.Call unit :=
  vm <- FindOneInstance c "" identifier ;;
  id <- cs.ret (vmId vm) ;;
  cs.orElse (cs.send (cs.ReqStartVirtualMachine id) (cs.StartVirtualMachine (client c) id))
    (fun err => Err (Errorf_w R "failed to start instance: " err)).

(** [if errors.Is(err, garmErrors.ErrNotFound) { return nil }; return err] *)
Definition absorbNotFound {A : Type} (gone : A) (err : error) : result A :=
  if errors_Is err IsErrNotFound then Ok gone else Err err.

(** [StopInstance].  The lookup either yields the machine to act on
    ([Some vm]) or, when it reports not-found, ends the operation with the
    nil error ([None]). *)
Definition StopInstance (c : CloudStackCli) (identifier : string) (force : bool)
  : cs.Call unit :=
  found <- cs.orElse
             (vm <- FindOneInstance c "" identifier ;; cs.ret (Ok (Some vm)))
             (absorbNotFound None) ;;
  match found with
  | None => cs.ret (Ok tt)
  | Some vm =>
      id <- cs.ret (vmId vm) ;;
      cs.orElse
        (cs.send (cs.ReqStopVirtualMachine id force)
           (cs.StopVirtualMachine (client c) id force))
        (fun err =>
           if util.IsCloudStackNotFoundErr R (Some err) then Ok tt
           else Err (Errorf_w R "failed to stop instance: " err))
  end.

(** [DestroyInstance] *)
Definition DestroyInstance (c : CloudStackCli) (identifier : string) : cs.Call unit :=
  found <- cs.orElse
             (vm <- FindOneInstance c "" identifier ;; cs.ret (Ok (Some vm)))
             (absorbNotFound None) ;;
  match found with
  | None => cs.ret (Ok tt)
  | Some vm =>
      id <- cs.ret (vmId vm) ;;
      cs.orElse
        (cs.send (cs.ReqDestroyVirtualMachine id)
           (cs.DestroyVirtualMachine (client c) id))
        (fun err =>
           if util.IsCloudStackNotFoundErr R (Some err) then Ok tt
           else Err (Errorf_w R "failed to destroy instance: " err))
  end.

End WithRuntime.

Section Create.

Variable D : spec.Deps.

(** [CreateRunningInstance]; [rs] is [None] for a nil spec. *)
Definition CreateRunningInstance (c : CloudStackCli) (rs : option spec.RunnerSpec)
  : cs.Call string :=
  match rs with
  | None => cs.ret (Err (errorString "invalid nil runner spec"))
  | Some rs =>
      udata <- cs.ret (onError (Errorf_w (spec.runtime D) "failed to compose user data: ")
                         (spec.ComposeUserData D rs)) ;;
      let name := params.Name (spec.BootstrapParams rs) in
      let p :=
        {| cs.dServiceofferingid := spec.ServiceOfferingID rs;
           cs.dTemplateid := spec.TemplateID rs;
           cs.dZoneid := spec.ZoneID rs;
           cs.dName := Some name;
           cs.dDisplayname := Some name;
           cs.dUserdata := Some udata;
           cs.dNetworkids :=
             match spec.NetworkIDs rs with
             | [] => None
             | ids => Some ids
             end;
           cs.dKeypair :=
             if (spec.SSHKeyName rs =? "")%string then None
             else Some (spec.SSHKeyName rs);
           cs.dProjectid :=
             if (spec.ProjectID rs =? "")%string then None
             else Some (spec.ProjectID rs) |} in
      respId <- cs.orElse
                  (cs.send (cs.ReqDeployVirtualMachine p)
                     (cs.DeployVirtualMachine (client c) p))
                  (fun err => Err (Errorf_w (spec.runtime D)
                                     "failed to deploy virtual machine: " err)) ;;
      if (respId =? "")%string then
        cs.ret (Err (errorString "empty VM id in deploy response"))
      else
        let tags :=
          [("GARM_CONTROLLER_ID", spec.ControllerID rs);
           ("GARM_POOL_ID", params.PoolID (spec.BootstrapParams rs));
           ("Name", name);
           ("OSType", params.BOSType (spec.BootstrapParams rs));
           ("OSArch", params.BOSArch (spec.BootstrapParams rs))] in
        _ <- cs.orElse
               (cs.send (cs.ReqCreateTags [respId] "UserVm" tags)
                  (cs.CreateTags (client c) [respId] "UserVm" tags))
               (fun err => Err (Errorf_w (spec.runtime D) "failed to tag VM: " err)) ;;
        cs.ret (Ok respId)
  end.

End Create.

End client.

(** ** Package [provider] *)

Module provider.

Import gostd.
Import cs.CallNotations.
Local Open Scope call_scope.

(** [CloudStackProvider] *)
Record CloudStackProvider : Type := {
  controllerID : string;
  cli : client.CloudStackCli
}.

Section WithRuntime.

Variable R : Runtime.

(** [DeleteInstance].  [DestroyInstance] of [internal/client] takes the
    identifier only; the [expunge] setting is not passed on. *)
Definition DeleteInstance (p : CloudStackProvider) (instance : string) : cs.Call unit :=
  cs.orElse (client.DestroyInstance R (cli p) instance)
    (fun err => Err (Errorf_w R "failed to delete instance: " err)).

(** [GetInstance]: a lookup that reports not-found yields the empty
    instance and the nil error. *)
Definition GetInstance (p : CloudStackProvider) (instance : string)
  : cs.Call params.ProviderInstance :=
  found <- cs.orElse
             (vm <- client.FindOneInstance R (cli p) (controllerID p) instance ;;
              cs.ret (Ok (Some vm)))
             (fun err =>
                if errors_Is err IsErrNotFound then Ok None
                else Err (Errorf_w R "failed to get VM details: " err)) ;;
  match found with
  | None => cs.ret (Ok params.emptyInstance)
  | Some vm =>
      cs.ret (onError (Errorf_w R "failed to convert instance: ")
                (util.CloudStackInstanceToParamsInstance R vm))
  end.

(** The loop of [ListInstances]: the first conversion failure ends it. *)
Fixpoint convertAll (vms : list (option cs.VirtualMachine))
  : result (list params.ProviderInstance) :=
  match vms with
  | [] => Ok []
  | vm :: rest =>
      bind (onError (Errorf_w R "failed to convert instance: ")
              (util.CloudStackInstanceToParamsInstance R vm))
        (fun inst => bind (convertAll rest) (fun insts => Ok (inst :: insts)))
  end.

(** [ListInstances] *)
Definition ListInstances (p : CloudStackProvider) (poolID : string)
  : cs.Call (list params.ProviderInstance) :=
  vms <- cs.orElse (client.ListInstancesByPool R (cli p) (controllerID p) poolID)
           (fun err => Err (Errorf_w R "failed to list instances: " err)) ;;
  cs.ret (convertAll vms).

(** [RemoveAllInstances]: a no-op. *)
Definition RemoveAllInstances (p : CloudStackProvider) : cs.Call unit :=
  cs.ret (Ok tt).

(** [Stop] *)
Definition Stop (p : CloudStackProvider) (instance : string) (force : bool)
  : cs.Call unit :=
  cs.orElse (client.StopInstance R (cli p) instance force)
    (fun err => Err (Errorf_w R "failed to stop instance: " err)).

(** [Start] *)
Definition Start (p : CloudStackProvider) (instance : string) : cs.Call unit :=
  cs.orElse (client.StartInstance R (cli p) instance)
    (fun err => Err (Errorf_w R "failed to start instance: " err)).

End WithRuntime.

Section Create.

Variable D : spec.Deps.

(** [CreateInstance] *)
Definition CreateInstance (p : CloudStackProvider)
  (bootstrapParams : params.BootstrapInstance) : cs.Call params.ProviderInstance :=
  rs <- cs.ret (onError (Errorf_w (spec.runtime D) "failed to get runner spec: ")
                  (spec.GetRunnerSpecFromBootstrapParams D
                     (client.Config (cli p)) bootstrapParams (controllerID p))) ;;
  id <- cs.orElse (client.CreateRunningInstance D (cli p) (Some rs))
          (fun err => Err (Errorf_w (spec.runtime D) "failed to create instance: " err)) ;;
  cs.ret (Ok {| params.ProviderID := id;
                params.IName := params.Name (spec.BootstrapParams rs);
                params.IOSType := params.BOSType (spec.BootstrapParams rs);
                params.IOSArch := params.BOSArch (spec.BootstrapParams rs);
                params.Status := params.InstanceRunning |}).

End Create.

End provider.

(** * Vocabulary of the properties

    The definitions the statements below are written with: field selectors,
    the shapes the specification names, and sample data for the examples. *)

Section MergeVocabulary.

Import spec.

(** The string-valued override fields. *)
Inductive stringField : Type :=
| FZoneID | FServiceOfferingID | FTemplateID | FSSHKeyName | FProjectID.

(** The boolean toggles. *)
Inductive boolField : Type := FDisableUpdates | FEnableBootDebug.

Definition specString (f : stringField) (r : RunnerSpec) : string :=
  match f with
  | FZoneID => ZoneID r
  | FServiceOfferingID => ServiceOfferingID r
  | FTemplateID => TemplateID r
  | FSSHKeyName => SSHKeyName r
  | FProjectID => ProjectID r
  end.

Definition overrideOfString (f : stringField) (e : extraSpecs) : option string :=
  match f with
  | FZoneID => eZoneID e
  | FServiceOfferingID => eServiceOfferingID e
  | FTemplateID => eTemplateID e
  | FSSHKeyName => eSSHKeyName e
  | FProjectID => eProjectID e
  end.

Definition specBool (f : boolField) (r : RunnerSpec) : bool :=
  match f with
  | FDisableUpdates => DisableUpdates r
  | FEnableBootDebug => EnableBootDebug r
  end.

Definition overrideOfBool (f : boolField) (e : extraSpecs) : option bool :=
  match f with
  | FDisableUpdates => eDisableUpdates e
  | FEnableBootDebug => eEnableBootDebug e
  end.

(** A base spec and an override document for the examples. *)
Definition sampleBootstrap : params.BootstrapInstance :=
  {| params.Name := "runner-name"; params.Tools := [];
     params.BOSType := params.Linux; params.BOSArch := "amd64";
     params.PoolID := "p1"; params.ExtraSpecs := [];
     params.UserDataOpts :=
       {| params.DisableUpdatesOnBoot := false; params.UDExtraPackages := [];
          params.UDEnableBootDebug := false |} |}.

Definition sampleSpec (templateID : string) (disableUpdates : bool) : RunnerSpec :=
  {| ZoneID := "zone-default"; ServiceOfferingID := "service-offering-id";
     TemplateID := templateID; NetworkIDs := []; SSHKeyName := "";
     ProjectID := ""; DisableUpdates := disableUpdates; EnableBootDebug := false;
     ExtraPackages := []; Tools := ""; BootstrapParams := sampleBootstrap;
     ControllerID := "controller-id" |}.

Definition withTemplateID (v : string) : extraSpecs :=
  {| eZoneID := None; eServiceOfferingID := None; eTemplateID := Some v;
     eNetworkIDs := []; eSSHKeyName := None; eProjectID := None;
     eDisableUpdates := None; eEnableBootDebug := None;
     eExtraPackages := []; eCloudConfigSpec := [] |}.

Definition withDisableUpdates (v : bool) : extraSpecs :=
  {| eZoneID := None; eServiceOfferingID := None; eTemplateID := None;
     eNetworkIDs := []; eSSHKeyName := None; eProjectID := None;
     eDisableUpdates := Some v; eEnableBootDebug := None;
     eExtraPackages := []; eCloudConfigSpec := [] |}.

(** The configured default of a string field. *)
Definition configString (f : stringField) (cfg : config.Config) : string :=
  match f with
  | FZoneID => config.ZoneID cfg
  | FServiceOfferingID => config.ServiceOfferingID cfg
  | FTemplateID => config.TemplateID cfg
  | FSSHKeyName => config.SSHKeyName cfg
  | FProjectID => config.ProjectID cfg
  end.

End MergeVocabulary.

Section IdentifierVocabulary.

(** The positions of the separators in the 8-4-4-4-12 form. *)
Definition hyphenPositions : list nat := [8; 13; 18; 23].

Definition isHyphenPosition (i : nat) : bool := existsb (Nat.eqb i) hyphenPositions.

Definition isHyphenAt (s : string) (i : nat) : bool :=
  match String.get i s with
  | Some c => (c =? "-")%char
  | None => false
  end.

(** Length 36 and exactly four hyphens, at positions 8, 13, 18 and 23. *)
Definition separatorsInPlace (s : string) : bool :=
  ((String.length s =? 36)%nat &&
   forallb (fun i => Bool.eqb (isHyphenAt s i) (isHyphenPosition i)) (seq 0 36))%bool.

(** A hexadecimal digit, in either letter case. *)
Definition isHexDigit (c : ascii) : bool :=
  ((("0" <=? c)%char && (c <=? "9")%char) ||
   (("a" <=? c)%char && (c <=? "f")%char) ||
   (("A" <=? c)%char && (c <=? "F")%char))%bool.

(** The items a pattern stands for, one per character. *)
Definition expand (re : config.Regexp) : list config.item :=
  flat_map (fun p => repeat (fst p) (snd p)) re.

(** Separators in place, but no hexadecimal digit anywhere. *)
Definition notHex : string := "gggggggg-gggg-gggg-gggg-gggggggggggg".

End IdentifierVocabulary.

Section StateVocabulary.

(** The raw states that mean a running instance, and a stopped one. *)
Definition runningStates : list string :=
  ["running"; "starting"; "migrating"; "restoring"; "stopping"].

Definition stoppedStates : list string :=
  ["stopped"; "shutdown"; "destroyed"; "expunging"].

Definition isLowerLetter (d : ascii) : bool :=
  (("a" <=? d)%char && (d <=? "z")%char)%bool.

(** The capital of a small letter. *)
Definition upperOf (d : ascii) : ascii :=
  if isLowerLetter d then ascii_of_N (N_of_ascii d - 32) else d.

(** [anyCase s word]: [s] is [word] with each letter in either case. *)
Fixpoint anyCase (s word : string) : bool :=
  match s, word with
  | EmptyString, EmptyString => true
  | String c s', String d word' =>
      (((c =? d)%char || (c =? upperOf d)%char) && anyCase s' word')%bool
  | _, _ => false
  end.

Definition lowerWord (w : string) : bool :=
  forallb isLowerLetter (list_ascii_of_string w).

Definition allAscii : list ascii := map ascii_of_nat (seq 0 256).

(** For a small letter [d]: [c] is [d] in either case exactly when [c] is an
    ASCII byte that [strings.ToLower] sends to [d]. *)
Definition caseCheck (c d : ascii) : bool :=
  implb (isLowerLetter d)
    (Bool.eqb ((c =? d)%char || (c =? upperOf d)%char)
       ((N_of_ascii c <? 128)%N && (gostd.lowerByte c =? d)%char)).

(** [s] contains [substr]. *)
Definition substringOf (substr s : string) : Prop :=
  exists before after : string, s = (before ++ substr ++ after)%string.

End StateVocabulary.

Section SampleData.

(** A runtime for the examples: strings are ASCII, so the Unicode paths are
    never taken. *)
Definition sampleRuntime : gostd.Runtime :=
  {| gostd.MapToLower := fun s => s;
     gostd.TrimFuncIsSpace := fun s => s;
     gostd.Quote := fun s => String "034" (s ++ String "034" EmptyString);
     gostd.ErrNotFoundText := "not found";
     gostd.AsyncTimeoutErrText := "Timeout while waiting for async job to finish" |}.

(** The VM of the first case of [TestCloudStackInstanceToParamsInstance]. *)
Definition taggedVM : cs.VirtualMachine :=
  {| cs.Id := "vm-id"; cs.Displayname := "vm-name"; cs.State := "Running";
     cs.VMTags := [ {| cs.Key := "Name"; cs.Value := "tag-name" |};
                    {| cs.Key := "OSType"; cs.Value := "linux" |};
                    {| cs.Key := "OSArch"; cs.Value := "amd64" |} ] |}.

End SampleData.

Section SamplePlatform.

(** A provider configuration with its identifiers resolved, no project. *)
Definition sampleConfig : config.Config :=
  {| config.APIURL := "https://cloudstack.example.com/client/api";
     config.APIKey := "api-key"; config.Secret := "secret";
     config.VerifySSL := true; config.Zone := "us-west-1";
     config.ServiceOffering := "2-4096"; config.Template := "gha-runner";
     config.Project := ""; config.SSHKeyName := ""; config.Expunge := false;
     config.resolved :=
       {| config.rZoneID := "zone-default";
          config.rServiceOfferingID := "service-offering-id";
          config.rTemplateID := "template-id";
          config.rProjectID := "" |} |}.

(** A platform that answers every list request with [vms] and every start,
    stop or destroy request with [answer]. *)
Definition samplePlatform (vms : list (option cs.VirtualMachine))
  (answer : gostd.result unit) : cs.CloudStackClient :=
  {| cs.IsID := config.isUUID;
     cs.ListVirtualMachines := fun _ =>
       gostd.Ok {| cs.Count := Z.of_nat (List.length vms);
                   cs.VirtualMachines := vms |};
     cs.StartVirtualMachine := fun _ => answer;
     cs.StopVirtualMachine := fun _ _ => answer;
     cs.DestroyVirtualMachine := fun _ => answer;
     cs.DeployVirtualMachine := fun _ => gostd.Ok "new-vm-id";
     cs.CreateTags := fun _ _ _ => gostd.Ok tt |}.

Definition sampleCli (vms : list (option cs.VirtualMachine))
  (answer : gostd.result unit) : client.CloudStackCli :=
  {| client.cfg := sampleConfig; client.client := samplePlatform vms answer |}.

Definition sampleProvider (vms : list (option cs.VirtualMachine))
  (answer : gostd.result unit) : provider.CloudStackProvider :=
  {| provider.controllerID := "c1"; provider.cli := sampleCli vms answer |}.

(** A second VM with the display name of [taggedVM]. *)
Definition twinVM : cs.VirtualMachine :=
  {| cs.Id := "vm-id-2"; cs.Displayname := "vm-name"; cs.State := "Stopped";
     cs.VMTags := [] |}.

(** The by-name request of [FindOneInstance] when no controller ID is given. *)
Definition byNameRequest (c : client.CloudStackCli) (identifier : string)
  : cs.ListVirtualMachinesParams :=
  client.scopeToProject c
    (cs.SetListall (cs.SetName cs.NewListVirtualMachinesParams identifier) true).


(** The error of a lookup that found nothing. *)
Definition noSuchInstance (R : gostd.Runtime) (identifier : string) : gostd.error :=
  gostd.Errorf_w R ("no such instance " ++ identifier ++ ": ") gostd.ErrNotFound.

End SamplePlatform.

Section ResolutionVocabulary.

(** The by-name requests of [resolveNames]. *)
Definition projectRequest (c : config.Config) : config.ListProjectsParams :=
  {| config.lpName := Some (config.Project c); config.lpListall := Some true |}.

Definition templateRequest (c : config.Config) (zoneID projectID : string)
  : config.ListTemplatesParams :=
  {| config.ltTemplatefilter := "executable";
     config.ltName := Some (config.Template c);
     config.ltZoneid := Some zoneID;
     config.ltProjectid :=
       if (projectID =? "")%string then None else Some projectID |}.

(** A platform on which every name resolves, projects and templates to the
    given matches. *)
Definition sampleResolver (projects templates : list string) : config.Client :=
  {| config.GetZoneByName := fun _ => gostd.Ok "zone-id";
     config.GetServiceOfferingByName := fun _ => gostd.Ok "offering-id";
     config.ListProjects := fun _ =>
       gostd.Ok {| config.pCount := Z.of_nat (List.length projects);
                   config.Projects := projects |};
     config.ListTemplates := fun _ =>
       gostd.Ok {| config.tCount := Z.of_nat (List.length templates);
                   config.Templates := templates |} |}.

(** A configuration by names, before resolution. *)
Definition namedConfig (project : string) : config.Config :=
  {| config.APIURL := "https://cloudstack.example.com/client/api";
     config.APIKey := "api-key"; config.Secret := "secret";
     config.VerifySSL := true; config.Zone := "us-west-1";
     config.ServiceOffering := "2-4096";
     config.Template := "gha-runner-ubuntu-2404";
     config.Project := project; config.SSHKeyName := ""; config.Expunge := false;
     config.resolved :=
       {| config.rZoneID := ""; config.rServiceOfferingID := "";
          config.rTemplateID := ""; config.rProjectID := "" |} |}.

End ResolutionVocabulary.

Section ProviderVocabulary.

(** The deploy request [CreateRunningInstance] builds for a spec and its
    composed user data. *)
Definition deployRequest (rs : spec.RunnerSpec) (udata : string)
  : cs.DeployVirtualMachineParams :=
  {| cs.dServiceofferingid := spec.ServiceOfferingID rs;
     cs.dTemplateid := spec.TemplateID rs;
     cs.dZoneid := spec.ZoneID rs;
     cs.dName := Some (params.Name (spec.BootstrapParams rs));
     cs.dDisplayname := Some (params.Name (spec.BootstrapParams rs));
     cs.dUserdata := Some udata;
     cs.dNetworkids :=
       match spec.NetworkIDs rs with
       | [] => None
       | ids => Some ids
       end;
     cs.dKeypair :=
       if (spec.SSHKeyName rs =? "")%string then None
       else Some (spec.SSHKeyName rs);
     cs.dProjectid :=
       if (spec.ProjectID rs =? "")%string then None
       else Some (spec.ProjectID rs) |}.

End ProviderVocabulary.

Section SampleDependencies.

Fixpoint splitHeader (z : list byte) (n : nat) : option (nat * list byte) :=
  match z with
  | x01 :: rest => splitHeader rest (S n)
  | x00 :: rest => Some (n, rest)
  | _ => None
  end.

(** A store-only stand-in for the two compression packages: the gzip stream
    is the payload behind a two-byte magic number; the archive holds one
    entry, its name behind a unary count of its bytes. *)
Definition sampleLibrary : compress.Library :=
  {| compress.gzipWriter := list byte;
     compress.gzip_NewWriter := [];
     compress.gzip_Write := fun w p => gostd.Ok (w ++ p);
     compress.gzip_Close := fun w => gostd.Ok (x1f :: x8b :: w);
     compress.gunzip := fun z =>
       match z with
       | x1f :: x8b :: p => Some p
       | _ => None
       end;
     compress.zipWriter := option (string * list byte);
     compress.zip_NewWriter := None;
     compress.zip_Create := fun w name =>
       match w with
       | None => gostd.Ok (Some (name, []))
       | Some _ => gostd.Err (gostd.errorString "one entry only")
       end;
     compress.zip_Write := fun w p =>
       match w with
       | Some (name, content) => gostd.Ok (Some (name, content ++ p))
       | None => gostd.Err (gostd.errorString "no entry")
       end;
     compress.zip_Close := fun w =>
       match w with
       | Some (name, content) =>
           gostd.Ok (repeat x01 (String.length name)
                       ++ x00 :: list_byte_of_string name ++ content)
       | None => gostd.Ok []
       end;
     compress.unzip := fun z =>
       match splitHeader z 0 with
       | Some (n, rest) =>
           if (List.length rest <? n)%nat then None
           else Some [(string_of_list_byte (firstn n rest), skipn n rest)]
       | None => None
       end |}.

(** A cloud configuration of 20000 bytes, above the compression threshold. *)
Definition longCloudConfig : string :=
  string_of_list_byte (repeat "a"%byte (N.to_nat 20000)).

Definition sampleDeps : spec.Deps :=
  {| spec.runtime := sampleRuntime;
     spec.zlib := sampleLibrary;
     spec.DefaultToolFetch := fun _ _ _ => gostd.Ok "tools";
     spec.gojsonschema_Validate := fun _ => gostd.Ok (true, "");
     spec.json_Unmarshal := fun _ => gostd.Ok spec.emptyExtraSpecs;
     spec.GetCloudConfig := fun _ _ _ => gostd.Ok longCloudConfig |}.

(** The spec of a Windows runner. *)
Definition windowsSpec : spec.RunnerSpec :=
  {| spec.ZoneID := "zone-default";
     spec.ServiceOfferingID := "service-offering-id";
     spec.TemplateID := "template-id"; spec.NetworkIDs := [];
     spec.SSHKeyName := ""; spec.ProjectID := "";
     spec.DisableUpdates := false; spec.EnableBootDebug := false;
     spec.ExtraPackages := []; spec.Tools := "tools";
     spec.BootstrapParams :=
       {| params.Name := "runner-name"; params.Tools := [];
          params.BOSType := params.Windows; params.BOSArch := "amd64";
          params.PoolID := "p1"; params.ExtraSpecs := [];
          params.UserDataOpts :=
            {| params.DisableUpdatesOnBoot := false;
               params.UDExtraPackages := [];
               params.UDEnableBootDebug := false |} |};
     spec.ControllerID := "controller-id" |}.

End SampleDependencies.

Section UserDataVocabulary.

(** What [windowsSpec] renders with [sampleDeps]. *)
Definition windowsPayload : list byte :=
  list_byte_of_string ("<powershell>" ++ longCloudConfig ++ "</powershell>").

(** What the instance finds once it has undone the compression, if any, of
    the decoded user data [stored]. *)
Definition recovered (L : compress.Library) (targetOS : params.OSType)
  (compressed : bool) (stored : list byte) : option (list byte) :=
  if compressed then
    if (targetOS =? params.Windows)%string then
      match compress.unzip L stored with
      | Some [(name, content)] =>
          if (name =? "udata")%string then Some content else None
      | _ => None
      end
    else compress.gunzip L stored
  else Some stored.

End UserDataVocabulary.

Section RepositoryTestData.

(** The override document of [TestGetRunnerSpecFromBootstrapParams], as
    [json.Unmarshal] decodes it. *)
Definition testOverrides : spec.extraSpecs :=
  {| spec.eZoneID := Some "zone-override"; spec.eServiceOfferingID := None;
     spec.eTemplateID := None; spec.eNetworkIDs := [];
     spec.eSSHKeyName := None; spec.eProjectID := None;
     spec.eDisableUpdates := Some true; spec.eEnableBootDebug := Some true;
     spec.eExtraPackages := ["pkg1"]; spec.eCloudConfigSpec := [] |}.

Definition testBootstrap : params.BootstrapInstance :=
  {| params.Name := "runner-name"; params.Tools := [];
     params.BOSType := params.Linux; params.BOSArch := "amd64";
     params.PoolID := ""; params.ExtraSpecs := list_byte_of_string "{...}";
     params.UserDataOpts :=
       {| params.DisableUpdatesOnBoot := false; params.UDExtraPackages := [];
          params.UDEnableBootDebug := false |} |}.

Definition testDeps : spec.Deps :=
  {| spec.runtime := sampleRuntime;
     spec.zlib := sampleLibrary;
     spec.DefaultToolFetch := fun _ _ _ => gostd.Ok "tools";
     spec.gojsonschema_Validate := fun _ => gostd.Ok (true, "");
     spec.json_Unmarshal := fun _ => gostd.Ok testOverrides;
     spec.GetCloudConfig := fun _ _ _ => gostd.Ok "#cloud-config" |}.

End RepositoryTestData.

Section FurtherSamples.

(** A configuration by identifiers, with no project. *)
Definition uuidConfig : config.Config :=
  {| config.APIURL := "https://cloudstack.example.com/client/api";
     config.APIKey := "api-key"; config.Secret := "secret";
     config.VerifySSL := true;
     config.Zone := "d9a16f24-9e15-43a7-afd0-baa96a7e5ef3";
     config.ServiceOffering := "0b4f1a52-7c1e-4a8e-9d53-1f2e3a4b5c6d";
     config.Template := "A1B2C3D4-0000-1111-2222-333344445555";
     config.Project := ""; config.SSHKeyName := ""; config.Expunge := false;
     config.resolved :=
       {| config.rZoneID := ""; config.rServiceOfferingID := "";
          config.rTemplateID := ""; config.rProjectID := "" |} |}.

End FurtherSamples.

Section SpecVocabulary.

(** The spec [GetRunnerSpecFromBootstrapParams] starts from, before the
    overrides are merged. *)
Definition baseSpec (cfg : config.Config) (data : params.BootstrapInstance)
  (controllerID : string) (tools : params.RunnerApplicationDownload)
  (extraPackages : list string) : spec.RunnerSpec :=
  {| spec.ZoneID := config.ZoneID cfg;
     spec.ServiceOfferingID := config.ServiceOfferingID cfg;
     spec.TemplateID := config.TemplateID cfg;
     spec.NetworkIDs := [];
     spec.SSHKeyName := config.SSHKeyName cfg;
     spec.ProjectID := config.ProjectID cfg;
     spec.DisableUpdates := false;
     spec.EnableBootDebug := false;
     spec.ExtraPackages := extraPackages;
     spec.Tools := tools;
     spec.BootstrapParams := data;
     spec.ControllerID := controllerID |}.

(** A spec whose bootstrap request carries other user-data options. *)
Definition withUserDataOpts (r : spec.RunnerSpec) (opts : params.UserDataOptions)
  : spec.RunnerSpec :=
  {| spec.ZoneID := spec.ZoneID r;
     spec.ServiceOfferingID := spec.ServiceOfferingID r;
     spec.TemplateID := spec.TemplateID r;
     spec.NetworkIDs := spec.NetworkIDs r;
     spec.SSHKeyName := spec.SSHKeyName r;
     spec.ProjectID := spec.ProjectID r;
     spec.DisableUpdates := spec.DisableUpdates r;
     spec.EnableBootDebug := spec.EnableBootDebug r;
     spec.ExtraPackages := spec.ExtraPackages r;
     spec.Tools := spec.Tools r;
     spec.BootstrapParams :=
       {| params.Name := params.Name (spec.BootstrapParams r);
          params.Tools := params.Tools (spec.BootstrapParams r);
          params.BOSType := params.BOSType (spec.BootstrapParams r);
          params.BOSArch := params.BOSArch (spec.BootstrapParams r);
          params.PoolID := params.PoolID (spec.BootstrapParams r);
          params.ExtraSpecs := params.ExtraSpecs (spec.BootstrapParams r);
          params.UserDataOpts := opts |};
     spec.ControllerID := spec.ControllerID r |}.

(** The spec of a runner for an OS the provider has no user data for. *)
Definition freebsdSpec : spec.RunnerSpec :=
  {| spec.ZoneID := "zone-default";
     spec.ServiceOfferingID := "service-offering-id";
     spec.TemplateID := "template-id"; spec.NetworkIDs := [];
     spec.SSHKeyName := EmptyString; spec.ProjectID := EmptyString;
     spec.DisableUpdates := false; spec.EnableBootDebug := false;
     spec.ExtraPackages := []; spec.Tools := "tools";
     spec.BootstrapParams :=
       {| params.Name := "runner-name"; params.Tools := [];
          params.BOSType := "freebsd"; params.BOSArch := "amd64";
          params.PoolID := "p1"; params.ExtraSpecs := [];
          params.UserDataOpts :=
            {| params.DisableUpdatesOnBoot := false;
               params.UDExtraPackages := [];
               params.UDEnableBootDebug := false |} |};
     spec.ControllerID := "controller-id" |}.

(** A character of the padded base64 alphabet. *)
Definition isBase64Char (c : ascii) : Prop :=
  In c (list_ascii_of_string base64.encodeStd) \/ c = base64.StdPadding.

(** Dependencies whose tool lookup finds nothing. *)
Definition noToolsDeps : spec.Deps :=
  {| spec.runtime := sampleRuntime;
     spec.zlib := sampleLibrary;
     spec.DefaultToolFetch := fun _ _ _ => gostd.Err gostd.ErrNotFound;
     spec.gojsonschema_Validate := fun _ => gostd.Ok (true, EmptyString);
     spec.json_Unmarshal := fun _ => gostd.Ok spec.emptyExtraSpecs;
     spec.GetCloudConfig := fun _ _ _ => gostd.Ok "#cloud-config" |}.

End SpecVocabulary.

Section TagVocabulary.

(** The value of the first [Name] tag that has one. *)
Fixpoint firstNameTag (tags : list cs.Tags) : string :=
  match tags with
  | [] => EmptyString
  | tag :: rest =>
      if ((cs.Key tag =? "Name")%string && negb (cs.Value tag =? "")%string)%bool
      then cs.Value tag
      else firstNameTag rest
  end.

(** The value of the last tag with the given key, [default] if there is none. *)
Fixpoint lastTagValue (key : string) (tags : list cs.Tags) (default : string)
  : string :=
  match tags with
  | [] => default
  | tag :: rest =>
      lastTagValue key rest
        (if (cs.Key tag =? key)%string then cs.Value tag else default)
  end.

(** A VM with no display name, two [Name] tags and two [OSType] tags. *)
Definition retaggedVM : cs.VirtualMachine :=
  {| cs.Id := "vm-7"; cs.Displayname := EmptyString; cs.State := "Starting";
     cs.VMTags := [ {| cs.Key := "Name"; cs.Value := EmptyString |};
                    {| cs.Key := "OSType"; cs.Value := "windows" |};
                    {| cs.Key := "Name"; cs.Value := "first" |};
                    {| cs.Key := "Name"; cs.Value := "second" |};
                    {| cs.Key := "OSType"; cs.Value := "linux" |} ] |}.

End TagVocabulary.

Section LifecycleVocabulary.

(** A request that only reads. *)
Definition isListRequest (rq : cs.request) : bool :=
  match rq with
  | cs.ReqListVirtualMachines _ => true
  | _ => false
  end.

(** Only ASCII white space (or nothing at all). *)
Definition isBlank (s : string) : bool :=
  forallb gostd.asciiSpace (list_ascii_of_string s).

(** The by-name request of [FindOneInstance] for a controller. *)
Definition byNameTaggedRequest (c : client.CloudStackCli)
  (controllerID identifier : string) : cs.ListVirtualMachinesParams :=
  cs.SetTags (byNameRequest c identifier) [("GARM_CONTROLLER_ID", controllerID)].

(** The request of [ListInstancesByPool]. *)
Definition poolRequest (c : client.CloudStackCli) (controllerID poolID : string)
  : cs.ListVirtualMachinesParams :=
  client.scopeToProject c
    (cs.SetTags (cs.SetListall cs.NewListVirtualMachinesParams true)
       [("GARM_CONTROLLER_ID", controllerID); ("GARM_POOL_ID", poolID)]).

(** The tags [CreateRunningInstance] puts on a new VM. *)
Definition creationTags (rs : spec.RunnerSpec) : list (string * string) :=
  [("GARM_CONTROLLER_ID", spec.ControllerID rs);
   ("GARM_POOL_ID", params.PoolID (spec.BootstrapParams rs));
   ("Name", params.Name (spec.BootstrapParams rs));
   ("OSType", params.BOSType (spec.BootstrapParams rs));
   ("OSArch", params.BOSArch (spec.BootstrapParams rs))].

(** The action request each operation sends once its lookup has found [vm]. *)
Definition actionAfter (action : string -> cs.request)
  (found : gostd.result (option cs.VirtualMachine)) : list cs.request :=
  match found with
  | gostd.Ok (Some vm) => [action (cs.Id vm)]
  | _ => []
  end.

(** A platform that deploys [vmid] and answers the tagging with [tagging]. *)
Definition deployingPlatform (vmid : string) (tagging : gostd.result unit)
  : cs.CloudStackClient :=
  {| cs.IsID := config.isUUID;
     cs.ListVirtualMachines := fun _ =>
       gostd.Ok {| cs.Count := 0; cs.VirtualMachines := [] |};
     cs.StartVirtualMachine := fun _ => gostd.Ok tt;
     cs.StopVirtualMachine := fun _ _ => gostd.Ok tt;
     cs.DestroyVirtualMachine := fun _ => gostd.Ok tt;
     cs.DeployVirtualMachine := fun _ => gostd.Ok vmid;
     cs.CreateTags := fun _ _ _ => tagging |}.

Definition deployingCli (vmid : string) (tagging : gostd.result unit)
  : client.CloudStackCli :=
  {| client.cfg := sampleConfig; client.client := deployingPlatform vmid tagging |}.

(** A VM record without an ID. *)
Definition namelessVM : cs.VirtualMachine :=
  {| cs.Id := EmptyString; cs.Displayname := "ghost"; cs.State := "Running";
     cs.VMTags := [] |}.

(** A destroyed VM. *)
Definition destroyedVM : cs.VirtualMachine :=
  {| cs.Id := "vm-9"; cs.Displayname := "gone"; cs.State := "Destroyed";
     cs.VMTags := [] |}.

End LifecycleVocabulary.

(** * Properties *)

(** ** Properties of the base64 model *)

Section Base64Facts.

Import base64.

Lemma byteZ_range (b : byte) : (0 <= byteZ b < 256)%Z.
Proof.
  unfold byteZ. pose proof (Byte.to_N_bounded b) as H.
  split; [apply N2Z.is_nonneg | lia].
Qed.

Lemma toByte_byteZ (b : byte) : toByte (byteZ b) = b.
Proof.
  unfold toByte. change 255%Z with (Z.ones 8).
  rewrite Z.land_ones by lia.
  rewrite Z.mod_small by (pose proof (byteZ_range b); simpl; lia).
  unfold byteZ. rewrite N2Z.id, Byte.of_to_N. reflexivity.
Qed.

(** Joining a high part and a low part that do not overlap is an addition. *)
Lemma lor_shiftl_add (hi lo k : Z) :
  (0 <= k)%Z -> (0 <= lo < 2 ^ k)%Z ->
  Z.lor (Z.shiftl hi k) lo = (hi * 2 ^ k + lo)%Z.
Proof.
  intros Hk Hlo.
  assert (Hdisj : Z.land (Z.shiftl hi k) lo = 0%Z).
  { apply Z.bits_inj'. intros n Hn.
    rewrite Z.land_spec, Z.bits_0.
    destruct (Z.lt_ge_cases n k) as [Hlt | Hge].
    - rewrite Z.shiftl_spec_low by assumption. reflexivity.
    - assert (Hhigh : Z.testbit lo n = false).
      { apply Z.testbit_false; [assumption|].
        rewrite Z.div_small; [reflexivity|].
        split; [lia|]. apply Z.lt_le_trans with (2 ^ k)%Z; [lia|].
        apply Z.pow_le_mono_r; lia. }
      rewrite Hhigh. apply andb_false_r. }
  rewrite <- Z.lxor_lor by assumption.
  rewrite <- Z.add_nocarry_lxor by assumption.
  rewrite Z.shiftl_mul_pow2 by assumption. reflexivity.
Qed.

Lemma sextet_div_mod (v k : Z) :
  (0 <= k)%Z -> sextet v k = ((v / 2 ^ k) mod 64)%Z.
Proof.
  intros Hk. unfold sextet. change 63%Z with (Z.ones 6).
  rewrite Z.land_ones by lia. rewrite Z.shiftr_div_pow2 by assumption.
  reflexivity.
Qed.

Lemma land63_mod (v : Z) : Z.land v 63 = (v mod 64)%Z.
Proof. change 63%Z with (Z.ones 6). rewrite Z.land_ones by lia. reflexivity. Qed.

Lemma toByte_shiftr (v k : Z) (b : byte) :
  (0 <= k)%Z -> ((v / 2 ^ k) mod 256)%Z = byteZ b -> toByte (Z.shiftr v k) = b.
Proof.
  intros Hk H. rewrite <- (toByte_byteZ b), <- H.
  unfold toByte. change 255%Z with (Z.ones 8).
  rewrite !Z.land_ones by lia. rewrite Z.shiftr_div_pow2 by assumption.
  change (2 ^ 8)%Z with 256%Z. rewrite Z.mod_mod by lia. reflexivity.
Qed.

Lemma lor_mul_add (h lo k : Z) :
  (0 <= k)%Z -> (0 <= lo < 2 ^ k)%Z ->
  Z.lor (h * 2 ^ k) lo = (h * 2 ^ k + lo)%Z.
Proof.
  intros Hk Hlo. rewrite <- Z.shiftl_mul_pow2 by assumption.
  rewrite lor_shiftl_add by assumption.
  rewrite Z.shiftl_mul_pow2 by assumption. reflexivity.
Qed.

Lemma quantum_add (s0 s1 s2 s3 : Z) :
  (0 <= s1 < 64)%Z -> (0 <= s2 < 64)%Z -> (0 <= s3 < 64)%Z ->
  quantum s0 s1 s2 s3 = (s0 * 262144 + s1 * 4096 + s2 * 64 + s3)%Z.
Proof.
  intros H1 H2 H3. unfold quantum.
  rewrite !Z.shiftl_mul_pow2 by lia.
  rewrite (lor_mul_add s0 (s1 * 2 ^ 12) 18) by (simpl; lia).
  replace (s0 * 2 ^ 18 + s1 * 2 ^ 12)%Z with ((s0 * 64 + s1) * 2 ^ 12)%Z
    by (simpl; lia).
  rewrite (lor_mul_add _ (s2 * 2 ^ 6) 12) by (simpl; lia).
  replace ((s0 * 64 + s1) * 2 ^ 12 + s2 * 2 ^ 6)%Z
    with ((s0 * 4096 + s1 * 64 + s2) * 2 ^ 6)%Z by (simpl; lia).
  rewrite (lor_mul_add _ s3 6) by (simpl; lia).
  simpl; lia.
Qed.

(** The 24-bit value [EncodeToString] builds from three bytes. *)
Lemma val_add (a b c : byte) :
  Z.lor (Z.lor (Z.shiftl (byteZ a) 16) (Z.shiftl (byteZ b) 8)) (byteZ c)
  = (byteZ a * 65536 + byteZ b * 256 + byteZ c)%Z.
Proof.
  pose proof (byteZ_range a). pose proof (byteZ_range b).
  pose proof (byteZ_range c).
  rewrite !Z.shiftl_mul_pow2 by lia.
  rewrite (lor_mul_add (byteZ a) (byteZ b * 2 ^ 8) 16) by (simpl; lia).
  replace (byteZ a * 2 ^ 16 + byteZ b * 2 ^ 8)%Z
    with ((byteZ a * 256 + byteZ b) * 2 ^ 8)%Z by (simpl; lia).
  rewrite (lor_mul_add _ (byteZ c) 8) by (simpl; lia).
  simpl; lia.
Qed.

Definition sextets : list Z := map Z.of_nat (seq 0 64).

Lemma sextets_complete (v : Z) : (0 <= v < 64)%Z -> In v sextets.
Proof.
  intros Hv. unfold sextets. apply in_map_iff.
  exists (Z.to_nat v). split; [lia|]. apply in_seq. lia.
Qed.

Lemma alphabet_inverse (v : Z) :
  (0 <= v < 64)%Z ->
  decodeMap (encode v) = Some v /\ (encode v =? StdPadding)%char = false.
Proof.
  intros Hv.
  assert (Hall : forallb (fun v =>
            match decodeMap (encode v) with
            | Some w => (w =? v)%Z
            | None => false
            end && negb (encode v =? StdPadding)%char) sextets = true)
    by (vm_compute; reflexivity).
  rewrite forallb_forall in Hall.
  specialize (Hall v (sextets_complete v Hv)).
  apply andb_true_iff in Hall. destruct Hall as [Hd Hp].
  split.
  - destruct (decodeMap (encode v)) as [w|]; [|discriminate].
    apply Z.eqb_eq in Hd. subst. reflexivity.
  - apply negb_true_iff in Hp. exact Hp.
Qed.

Lemma sextet_range (v k : Z) : (0 <= k)%Z -> (0 <= sextet v k < 64)%Z.
Proof. intros Hk. rewrite sextet_div_mod by assumption. apply Z.mod_pos_bound. lia. Qed.

Lemma land63_range (v : Z) : (0 <= Z.land v 63 < 64)%Z.
Proof. rewrite land63_mod. apply Z.mod_pos_bound. lia. Qed.

(** Induction over a list three elements at a time. *)
Lemma list_ind3 {A : Type} (P : list A -> Prop) :
  P [] -> (forall a, P [a]) -> (forall a b, P [a; b]) ->
  (forall a b c l, P l -> P (a :: b :: c :: l)) ->
  forall l, P l.
Proof.
  intros H0 H1 H2 H3.
  assert (Hall : forall l, P l /\ (forall a, P (a :: l)) /\ (forall a b, P (a :: b :: l))).
  { induction l as [|x l [IH0 [IH1 IH2]]].
    - auto.
    - split; [apply IH1|]. split; [intros a; apply IH2|].
      intros a b. apply H3. exact IH0. }
  intros l. apply Hall.
Qed.

Lemma DecodeString_EncodeToString (src : list byte) :
  DecodeString (EncodeToString src) = Some src.
Proof.
  induction src as [| a | a b | a b c rest IH] using list_ind3.
  - reflexivity.
  - pose proof (byteZ_range a) as Ha.
    cbn [EncodeToString DecodeString].
    set (val := Z.shiftl (byteZ a) 16).
    assert (Hval : val = (byteZ a * 65536)%Z)
      by (unfold val; rewrite Z.shiftl_mul_pow2 by lia; reflexivity).
    destruct (alphabet_inverse (sextet val 18)) as [-> _]; [apply sextet_range; lia|].
    destruct (alphabet_inverse (sextet val 12)) as [-> _]; [apply sextet_range; lia|].
    rewrite Ascii.eqb_refl.
    f_equal. f_equal.
    apply toByte_shiftr; [lia|].
    rewrite quantum_add by (try apply sextet_range; lia).
    rewrite !sextet_div_mod by lia. rewrite Hval.
    change (2 ^ 18)%Z with 262144%Z. change (2 ^ 12)%Z with 4096%Z.
    change (2 ^ 16)%Z with 65536%Z.
    Z.div_mod_to_equations. lia.
  - pose proof (byteZ_range a) as Ha. pose proof (byteZ_range b) as Hb.
    cbn [EncodeToString DecodeString].
    set (val := Z.lor (Z.shiftl (byteZ a) 16) (Z.shiftl (byteZ b) 8)).
    assert (Hval : val = (byteZ a * 65536 + byteZ b * 256)%Z).
    { unfold val. rewrite !Z.shiftl_mul_pow2 by lia.
      rewrite lor_mul_add by (simpl; lia). simpl; lia. }
    destruct (alphabet_inverse (sextet val 18)) as [-> _]; [apply sextet_range; lia|].
    destruct (alphabet_inverse (sextet val 12)) as [-> _]; [apply sextet_range; lia|].
    destruct (alphabet_inverse (sextet val 6)) as [-> ->]; [apply sextet_range; lia|].
    rewrite Ascii.eqb_refl.
    f_equal.
    assert (Hq : quantum (sextet val 18) (sextet val 12) (sextet val 6) 0 = val).
    { rewrite quantum_add by (try apply sextet_range; lia).
      rewrite !sextet_div_mod by lia. rewrite Hval.
      change (2 ^ 18)%Z with 262144%Z. change (2 ^ 12)%Z with 4096%Z.
      change (2 ^ 6)%Z with 64%Z.
      Z.div_mod_to_equations. lia. }
    rewrite Hq.
    f_equal; [|f_equal]; (apply toByte_shiftr; [lia|]); rewrite Hval;
      [change (2 ^ 16)%Z with 65536%Z | change (2 ^ 8)%Z with 256%Z];
      Z.div_mod_to_equations; lia.
  - pose proof (byteZ_range a) as Ha. pose proof (byteZ_range b) as Hb.
    pose proof (byteZ_range c) as Hc.
    cbn [EncodeToString DecodeString].
    set (val := Z.lor (Z.lor (Z.shiftl (byteZ a) 16) (Z.shiftl (byteZ b) 8)) (byteZ c)).
    assert (Hval : val = (byteZ a * 65536 + byteZ b * 256 + byteZ c)%Z)
      by apply val_add.
    destruct (alphabet_inverse (sextet val 18)) as [-> _]; [apply sextet_range; lia|].
    destruct (alphabet_inverse (sextet val 12)) as [-> _]; [apply sextet_range; lia|].
    destruct (alphabet_inverse (sextet val 6)) as [-> ->]; [apply sextet_range; lia|].
    destruct (alphabet_inverse (Z.land val 63)) as [-> ->]; [apply land63_range|].
    rewrite IH.
    assert (Hq : quantum (sextet val 18) (sextet val 12) (sextet val 6) (Z.land val 63) = val).
    { rewrite quantum_add by (try apply sextet_range; try apply land63_range; lia).
      rewrite !sextet_div_mod by lia. rewrite land63_mod. rewrite Hval.
      change (2 ^ 18)%Z with 262144%Z. change (2 ^ 12)%Z with 4096%Z.
      change (2 ^ 6)%Z with 64%Z.
      Z.div_mod_to_equations. lia. }
    rewrite Hq.
    f_equal. f_equal; [|f_equal; [|f_equal]].
    + apply toByte_shiftr; [lia|]. rewrite Hval. change (2 ^ 16)%Z with 65536%Z.
      Z.div_mod_to_equations. lia.
    + apply toByte_shiftr; [lia|]. rewrite Hval. change (2 ^ 8)%Z with 256%Z.
      Z.div_mod_to_equations. lia.
    + rewrite <- (Z.shiftr_0_r val). apply toByte_shiftr; [lia|]. rewrite Hval.
      change (2 ^ 0)%Z with 1%Z. Z.div_mod_to_equations. lia.
Qed.

(** The test vectors of RFC 4648, section 10. *)
Example rfc4648_vectors :
  EncodeToString (list_byte_of_string "f") = "Zg==" /\
  EncodeToString (list_byte_of_string "fo") = "Zm8=" /\
  EncodeToString (list_byte_of_string "foo") = "Zm9v" /\
  EncodeToString (list_byte_of_string "foob") = "Zm9vYg==" /\
  EncodeToString (list_byte_of_string "fooba") = "Zm9vYmE=" /\
  EncodeToString (list_byte_of_string "foobar") = "Zm9vYmFy" /\
  DecodeString "Zm9vYmE=" = Some (list_byte_of_string "fooba").
Proof. repeat split. Qed.

End Base64Facts.

(** ** Merging the per-request overrides *)

Section Merge.

Import spec.

Lemma specString_merge (f : stringField) (r : RunnerSpec) (extra : extraSpecs) :
  specString f (MergeExtraSpecs r (Some extra))
  = overrideString (specString f r) (overrideOfString f extra).
Proof. destruct f; reflexivity. Qed.

Lemma specBool_merge (f : boolField) (r : RunnerSpec) (extra : extraSpecs) :
  specBool f (MergeExtraSpecs r (Some extra))
  = overrideBool (specBool f r) (overrideOfBool f extra).
Proof. destruct f; reflexivity. Qed.

(** C1.  For each of zone_id, service_offering_id, template_id, ssh_key_name
    and project_id: an override that is present but empty leaves the field
    of the merged spec at its base value, and an override that is present
    and not empty becomes the value of the field. *)
Theorem merge_present_string_override
  (f : stringField) (r : RunnerSpec) (extra : extraSpecs) :
  (overrideOfString f extra = Some "" ->
   specString f (MergeExtraSpecs r (Some extra)) = specString f r) /\
  (forall v : string, v <> "" -> overrideOfString f extra = Some v ->
   specString f (MergeExtraSpecs r (Some extra)) = v).
Proof.
  rewrite specString_merge. split.
  - intros ->. reflexivity.
  - intros v Hv ->. unfold overrideString.
    destruct (String.eqb_spec v ""); [contradiction | reflexivity].
Qed.

Lemma merge_present_string_override_witness :
  TemplateID (MergeExtraSpecs (sampleSpec "T" false) (Some (withTemplateID ""))) = "T" /\
  TemplateID (MergeExtraSpecs (sampleSpec "T" false) (Some (withTemplateID "T2"))) = "T2".
Proof.
  split.
  - apply (proj1 (merge_present_string_override FTemplateID
                    (sampleSpec "T" false) (withTemplateID ""))).
    reflexivity.
  - apply (proj2 (merge_present_string_override FTemplateID
                    (sampleSpec "T" false) (withTemplateID "T2")) "T2").
    + discriminate.
    + reflexivity.
Defined.

(** The same through [GetRunnerSpecFromBootstrapParams]: when the request
    resolves to a spec, a string field whose override is present but empty
    holds the value configured for the provider. *)
Lemma runner_spec_keeps_configured_default
  (D : Deps) (cfg : config.Config) (data : params.BootstrapInstance)
  (controllerID : string) (extra : extraSpecs) (rs : RunnerSpec) (f : stringField) :
  newExtraSpecsFromBootstrapData D data = gostd.Ok extra ->
  GetRunnerSpecFromBootstrapParams D cfg data controllerID = gostd.Ok rs ->
  overrideOfString f extra = Some "" ->
  specString f rs = configString f cfg.
Proof.
  intros Hextra Hrs Hf. unfold GetRunnerSpecFromBootstrapParams in Hrs.
  destruct (DefaultToolFetch D _ _ _) as [tools | |]; try discriminate.
  rewrite Hextra in Hrs. cbn [gostd.onError gostd.bind] in Hrs.
  destruct (Validate _); try discriminate.
  injection Hrs as <-.
  destruct f; cbn in Hf |- *; rewrite Hf; reflexivity.
Qed.

(** [TestGetRunnerSpecFromBootstrapParams]. *)
Example runner_spec_test_case :
  GetRunnerSpecFromBootstrapParams testDeps sampleConfig testBootstrap "controller-id"
  = gostd.Ok {| ZoneID := "zone-override";
                ServiceOfferingID := "service-offering-id";
                TemplateID := "template-id";
                NetworkIDs := [];
                SSHKeyName := "";
                ProjectID := "";
                DisableUpdates := true;
                EnableBootDebug := true;
                ExtraPackages := ["pkg1"];
                Tools := "tools";
                BootstrapParams := testBootstrap;
                ControllerID := "controller-id" |}.
Proof. reflexivity. Qed.

(** C2, as stated, fails: a boolean toggle that is present with the value
    false is applied, so a base spec with updates disabled has them enabled
    again by [disable_updates = false]. *)
Lemma merge_present_false_toggle_overrides :
  overrideOfBool FDisableUpdates (withDisableUpdates false) = Some false /\
  specBool FDisableUpdates
    (MergeExtraSpecs (sampleSpec "T" true) (Some (withDisableUpdates false)))
  <> specBool FDisableUpdates (sampleSpec "T" true).
Proof. split; [reflexivity | discriminate]. Qed.

(** C2, amended.  A string override applies only when it is present and not
    empty: absent or empty, the base value stays.  A boolean toggle applies
    whenever it is present, with the value true or false; absent, the base
    value stays. *)
Theorem merge_scalar_overrides (r : RunnerSpec) (extra : extraSpecs) :
  (forall f : stringField,
     match overrideOfString f extra with
     | None => specString f (MergeExtraSpecs r (Some extra)) = specString f r
     | Some v =>
         (v = "" -> specString f (MergeExtraSpecs r (Some extra)) = specString f r) /\
         (v <> "" -> specString f (MergeExtraSpecs r (Some extra)) = v)
     end) /\
  (forall f : boolField,
     match overrideOfBool f extra with
     | None => specBool f (MergeExtraSpecs r (Some extra)) = specBool f r
     | Some b => specBool f (MergeExtraSpecs r (Some extra)) = b
     end).
Proof.
  split.
  - intros f. rewrite specString_merge.
    destruct (overrideOfString f extra) as [v|]; [|reflexivity].
    unfold overrideString. destruct (String.eqb_spec v ""); split; intros H;
      try reflexivity; contradiction.
  - intros f. rewrite specBool_merge.
    destruct (overrideOfBool f extra); reflexivity.
Qed.

Lemma merge_scalar_overrides_witness :
  TemplateID (MergeExtraSpecs (sampleSpec "T" true) (Some (withTemplateID ""))) = "T" /\
  DisableUpdates (MergeExtraSpecs (sampleSpec "T" true) (Some (withDisableUpdates false)))
  = false /\
  DisableUpdates (MergeExtraSpecs (sampleSpec "T" true) (Some (withTemplateID "")))
  = true.
Proof.
  destruct (merge_scalar_overrides (sampleSpec "T" true) (withTemplateID ""))
    as [Hstrings Hbools].
  destruct (merge_scalar_overrides (sampleSpec "T" true) (withDisableUpdates false))
    as [_ Htoggle].
  split; [exact (proj1 (Hstrings FTemplateID) eq_refl)|].
  split; [exact (Htoggle FDisableUpdates) | exact (Hbools FDisableUpdates)].
Defined.

End Merge.

(** ** Identifier detection *)

Section Identifier.

Import config.

Lemma get_nth_error (s : string) (i : nat) :
  String.get i s = nth_error (list_ascii_of_string s) i.
Proof.
  revert i. induction s as [|c s IH]; intros [|i]; simpl; auto.
Qed.

Lemma length_list_ascii (s : string) :
  List.length (list_ascii_of_string s) = String.length s.
Proof. induction s; simpl; congruence. Qed.

Lemma matchCount_spec (it : item) (n : nat) (s rest : string) :
  matchCount it n s = Some rest <->
  exists front, s = (front ++ rest)%string /\ String.length front = n /\
                Forall (fun c => matchItem it c = true) (list_ascii_of_string front).
Proof.
  revert s. induction n as [|n IH]; intros s; simpl.
  - split.
    + intros [= ->]. exists EmptyString. repeat split. constructor.
    + intros [front [-> [Hlen _]]]. destruct front; [reflexivity | discriminate].
  - destruct s as [|c s].
    + split; [discriminate|].
      intros [front [Heq [Hlen _]]]. destruct front; discriminate.
    + destruct (matchItem it c) eqn:Hc.
      * rewrite IH. split.
        -- intros [front [-> [Hlen Hall]]]. exists (String c front).
           repeat split; simpl; [congruence|]. constructor; assumption.
        -- intros [front [Heq [Hlen Hall]]].
           destruct front as [|d front]; [discriminate|].
           simpl in Heq, Hlen, Hall. injection Heq as <- ->.
           exists front. repeat split; [congruence|]. inversion Hall; assumption.
      * split; [discriminate|].
        intros [front [Heq [Hlen Hall]]].
        destruct front as [|d front]; [discriminate|].
        simpl in Heq, Hall. injection Heq as <- ->.
        inversion Hall; congruence.
Qed.

Lemma list_ascii_app (s t : string) :
  list_ascii_of_string (s ++ t) = list_ascii_of_string s ++ list_ascii_of_string t.
Proof. induction s; simpl; congruence. Qed.

Lemma Forall2_repeat_app {A B : Type} (P : A -> B -> Prop) (a : A) (n : nat)
  (xs : list A) (front rest : list B) :
  List.length front = n -> Forall (P a) front -> Forall2 P xs rest ->
  Forall2 P (repeat a n ++ xs) (front ++ rest).
Proof.
  intros Hlen Hall Hrest. subst n.
  induction Hall; simpl; [assumption | constructor; assumption].
Qed.

Lemma Forall2_repeat_split {A B : Type} (P : A -> B -> Prop) (a : A) (n : nat)
  (xs : list A) (l : list B) :
  Forall2 P (repeat a n ++ xs) l ->
  exists front rest, l = front ++ rest /\ List.length front = n /\
                     Forall (P a) front /\ Forall2 P xs rest.
Proof.
  revert l. induction n as [|n IH]; intros l H; simpl in H.
  - exists [], l. repeat split; [constructor | assumption].
  - inversion H as [|a' c xs' l' Hc Hrest]; subst.
    destruct (IH _ Hrest) as [front [rest [-> [Hlen [Hall Hxs]]]]].
    exists (c :: front), rest. repeat split; simpl; [congruence | | assumption].
    constructor; assumption.
Qed.

Lemma app_same_length {A : Type} (xs ys xs' ys' : list A) :
  xs ++ ys = xs' ++ ys' -> List.length xs = List.length xs' ->
  xs = xs' /\ ys = ys'.
Proof.
  revert xs'. induction xs as [|x xs IH]; intros [|x' xs'] Heq Hlen;
    try discriminate.
  - split; [reflexivity | exact Heq].
  - simpl in Heq, Hlen. injection Heq as -> Heq. injection Hlen as Hlen.
    destruct (IH _ Heq Hlen) as [-> ->]. split; reflexivity.
Qed.

(** A pattern matches a string exactly when each character matches the item
    at its position. *)
Lemma MatchString_pointwise (re : Regexp) (s : string) :
  MatchString re s = true <->
  Forall2 (fun it c => matchItem it c = true) (expand re) (list_ascii_of_string s).
Proof.
  revert s. induction re as [|[it n] re IH]; intros s.
  - simpl. destruct s; split; intros H; try discriminate; try constructor.
    inversion H.
  - cbn [MatchString expand flat_map fst snd].
    destruct (matchCount it n s) as [rest|] eqn:Hm.
    + apply matchCount_spec in Hm. destruct Hm as [front [-> [Hlen Hall]]].
      rewrite IH, list_ascii_app. split.
      * intros H. apply Forall2_repeat_app; try assumption.
        rewrite length_list_ascii. exact Hlen.
      * intros H. apply Forall2_repeat_split in H.
        destruct H as [front' [rest' [Heq [Hlen' [_ Hrest]]]]].
        destruct (app_same_length _ _ _ _ Heq) as [<- <-];
          [rewrite length_list_ascii; congruence | exact Hrest].
    + split; [discriminate|]. intros H. exfalso.
      apply Forall2_repeat_split in H.
      destruct H as [front [rest [Heq [Hlen [Hall Hrest]]]]].
      assert (Hsome : matchCount it n s
                      = Some (string_of_list_ascii rest)).
      { apply matchCount_spec. exists (string_of_list_ascii front).
        repeat split.
        - rewrite <- (string_of_list_ascii_of_string s), Heq.
          clear. induction front; simpl; congruence.
        - rewrite <- length_list_ascii, list_ascii_of_string_of_list_ascii.
          exact Hlen.
        - rewrite list_ascii_of_string_of_list_ascii. exact Hall. }
      congruence.
Qed.

Lemma uuid_item (i : nat) :
  i < 36 ->
  nth_error (expand uuidRegex) i
  = Some (if isHyphenPosition i then Literal "-" else hex).
Proof.
  intros Hi. do 36 (destruct i as [|i]; [reflexivity|]). lia.
Qed.

Lemma matchItem_hex (c : ascii) : matchItem hex c = isHexDigit c.
Proof.
  unfold isHexDigit. simpl. rewrite orb_false_r, orb_assoc. reflexivity.
Qed.

Lemma hex_is_not_hyphen (c : ascii) : isHexDigit c = true -> (c =? "-")%char = false.
Proof.
  destruct c as [[] [] [] [] [] [] [] []]; vm_compute; congruence.
Qed.

Lemma Forall2_nth {A B : Type} (P : A -> B -> Prop) (xs : list A) (ys : list B) :
  Forall2 P xs ys <->
  List.length ys = List.length xs /\
  forall i x y, nth_error xs i = Some x -> nth_error ys i = Some y -> P x y.
Proof.
  split.
  - intros H. induction H as [|x y xs ys Hxy H [IHlen IH]].
    + split; [reflexivity|]. intros [|i]; discriminate.
    + split; [simpl; congruence|].
      intros [|i] x' y'; simpl.
      * intros [= <-] [= <-]. exact Hxy.
      * apply IH.
  - revert ys. induction xs as [|x xs IH]; intros [|y ys] [Hlen H];
      try discriminate; constructor.
    + apply (H 0); reflexivity.
    + apply IH. split; [simpl in Hlen; congruence|].
      intros i. apply (H (S i)).
Qed.

(** The characters of an identifier, position by position. *)
Lemma isUUID_pointwise (s : string) :
  isUUID s = true <->
  String.length s = 36 /\
  forall i c, String.get i s = Some c ->
              if isHyphenPosition i then c = "-"%char else isHexDigit c = true.
Proof.
  unfold isUUID. rewrite MatchString_pointwise, Forall2_nth.
  rewrite length_list_ascii.
  change (List.length (expand uuidRegex)) with 36.
  split; intros [Hlen H]; split; try assumption.
  - intros i c Hget. rewrite get_nth_error in Hget.
    assert (Hi : i < 36).
    { rewrite <- Hlen, <- length_list_ascii. apply nth_error_Some. congruence. }
    specialize (H i _ c (uuid_item i Hi) Hget).
    destruct (isHyphenPosition i).
    + apply Ascii.eqb_eq. exact H.
    + rewrite <- matchItem_hex. exact H.
  - intros i it c Hit Hc.
    assert (Hi : i < 36).
    { rewrite <- Hlen, <- length_list_ascii. apply nth_error_Some. congruence. }
    rewrite uuid_item in Hit by assumption. injection Hit as <-.
    rewrite <- get_nth_error in Hc. specialize (H i c Hc).
    destruct (isHyphenPosition i).
    + apply Ascii.eqb_eq. exact H.
    + rewrite matchItem_hex. exact H.
Qed.

(** The cases of [TestIsUUID]. *)
Example isUUID_test_cases :
  isUUID "d9a16f24-9e15-43a7-afd0-baa96a7e5ef3" = true /\
  isUUID "D9A16F24-9E15-43A7-AFD0-BAA96A7E5EF3" = true /\
  isUUID "us-west-1" = false /\
  isUUID "g1.SONiC-builds" = false /\
  isUUID EmptyString = false /\
  isUUID "not-a-uuid" = false /\
  isUUID "d9a16f24-9e15-43a7-afd0-baa96a7e5ef" = false /\
  isUUID "d9a16f24-9e15-43a7-afd0-baa96a7e5ef3a" = false.
Proof. repeat split. Qed.

(** C5, as stated, fails: a string of length 36 with its four hyphens in
    place and no other hyphen is not an identifier when a character between
    them is not a hexadecimal digit. *)
Lemma separators_alone_do_not_make_a_uuid :
  separatorsInPlace notHex = true /\ isUUID notHex = false.
Proof. split; vm_compute; reflexivity. Qed.

(** C5, amended.  [isUUID] returns true exactly for the strings of length 36
    that have a hyphen at each of the positions 8, 13, 18 and 23, no hyphen
    elsewhere, and a hexadecimal digit of either letter case at every other
    position; so any deviation in length or separators gives false. *)
Theorem isUUID_canonical_form (s : string) :
  isUUID s = true <->
  separatorsInPlace s = true /\
  (forall i c, String.get i s = Some c -> isHyphenPosition i = false ->
               isHexDigit c = true).
Proof.
  rewrite isUUID_pointwise. unfold separatorsInPlace.
  rewrite andb_true_iff, Nat.eqb_eq, forallb_forall.
  split.
  - intros [Hlen H]. split; [split; [assumption|]|].
    + intros i Hi. apply in_seq in Hi. unfold isHyphenAt.
      destruct (String.get i s) as [c|] eqn:Hget.
      * specialize (H i c Hget). destruct (isHyphenPosition i).
        -- subst c. reflexivity.
        -- rewrite (hex_is_not_hyphen c H). reflexivity.
      * exfalso. rewrite get_nth_error in Hget.
        apply nth_error_None in Hget. rewrite length_list_ascii in Hget. lia.
    + intros i c Hget Hpos. specialize (H i c Hget). rewrite Hpos in H. exact H.
  - intros [[Hlen Hsep] Hhex]. split; [assumption|].
    intros i c Hget.
    assert (Hi : i < 36).
    { rewrite <- Hlen, <- length_list_ascii. apply nth_error_Some.
      rewrite <- get_nth_error. congruence. }
    destruct (isHyphenPosition i) eqn:Hpos.
    + assert (Hin : In i (seq 0 36)) by (apply in_seq; lia).
      specialize (Hsep i Hin). unfold isHyphenAt in Hsep.
      rewrite Hget, Hpos in Hsep. apply Ascii.eqb_eq.
      destruct (c =? "-")%char; [reflexivity | discriminate].
    + apply Hhex with i; assumption.
Qed.

Lemma isUUID_canonical_form_witness :
  separatorsInPlace "d9a16f24-9e15-43a7-afd0-baa96a7e5ef3" = true /\
  isUUID "D9A16F24-9E15-43A7-AFD0-BAA96A7E5EF3" = true.
Proof.
  split.
  - apply (proj1 (isUUID_canonical_form "d9a16f24-9e15-43a7-afd0-baa96a7e5ef3")).
    reflexivity.
  - apply (proj2 (isUUID_canonical_form "D9A16F24-9E15-43A7-AFD0-BAA96A7E5EF3")).
    split; [reflexivity|].
    intros i c Hget Hpos.
    do 36 (destruct i as [|i];
           [first [discriminate Hpos | injection Hget as <-; reflexivity]|]).
    discriminate Hget.
Defined.

End Identifier.

(** ** Classification of the platform state *)

Section StateClassification.

Import gostd.

Lemma allAscii_complete (c : ascii) : In c allAscii.
Proof.
  unfold allAscii. apply in_map_iff. exists (nat_of_ascii c).
  split; [apply ascii_nat_embedding|].
  apply in_seq. pose proof (nat_ascii_bounded c). lia.
Qed.

Lemma caseCheck_holds (c d : ascii) : caseCheck c d = true.
Proof.
  assert (Hall : forallb (fun c => forallb (caseCheck c) allAscii) allAscii = true)
    by (vm_compute; reflexivity).
  rewrite forallb_forall in Hall.
  specialize (Hall c (allAscii_complete c)).
  rewrite forallb_forall in Hall. apply Hall, allAscii_complete.
Qed.

Lemma anyCase_ToLower_ascii (s w : string) :
  lowerWord w = true ->
  anyCase s w = (isASCII s && (mapBytes lowerByte s =? w)%string)%bool.
Proof.
  unfold lowerWord, isASCII. revert w.
  induction s as [|c s IH]; intros [|d w] Hw; simpl; try reflexivity.
  - symmetry. apply andb_false_r.
  - simpl in Hw. apply andb_true_iff in Hw. destruct Hw as [Hd Hw].
    rewrite (IH w Hw).
    pose proof (caseCheck_holds c d) as Hc. unfold caseCheck in Hc.
    rewrite Hd in Hc. simpl in Hc. apply eqb_prop in Hc. rewrite Hc.
    destruct (N_of_ascii c <? 128)%N; simpl; [|reflexivity].
    destruct (lowerByte c =? d)%char; simpl; [reflexivity|].
    symmetry. apply andb_false_r.
Qed.

Lemma inCases_In (s : string) (cases : list string) :
  util.inCases s cases = true <-> In s cases.
Proof.
  unfold util.inCases. rewrite existsb_exists. split.
  - intros [w [Hin Heq]]. apply String.eqb_eq in Heq. subst. exact Hin.
  - intros Hin. exists s. split; [exact Hin | apply String.eqb_refl].
Qed.

Lemma states_are_lower_words (w : string) :
  In w (runningStates ++ stoppedStates) -> lowerWord w = true.
Proof.
  intros Hin. simpl in Hin.
  repeat (destruct Hin as [<- | Hin]; [reflexivity|]). contradiction.
Qed.

Lemma stopped_is_not_running (s : string) :
  In s stoppedStates -> util.inCases s runningStates = false.
Proof.
  intros Hin. simpl in Hin.
  repeat (destruct Hin as [<- | Hin]; [reflexivity|]). contradiction.
Qed.

Lemma statusOfLowered_spec (s : string) :
  (util.statusOfLowered s = params.InstanceRunning <-> In s runningStates) /\
  (util.statusOfLowered s = params.InstanceStopped <-> In s stoppedStates) /\
  (util.statusOfLowered s = params.InstanceStatusUnknown <->
   ~ In s (runningStates ++ stoppedStates)).
Proof.
  unfold util.statusOfLowered.
  fold runningStates. fold stoppedStates.
  destruct (util.inCases s runningStates) eqn:Hr;
    [| destruct (util.inCases s stoppedStates) eqn:Hs].
  - apply inCases_In in Hr. repeat split; intros H; try discriminate; try assumption.
    + apply stopped_is_not_running in H. apply inCases_In in Hr. congruence.
    + exfalso. apply H, in_or_app. left. exact Hr.
  - apply inCases_In in Hs. repeat split; intros H; try discriminate; try assumption.
    + apply inCases_In in H. congruence.
    + exfalso. apply H, in_or_app. right. exact Hs.
  - repeat split; intros H; try discriminate.
    + apply inCases_In in H. congruence.
    + apply inCases_In in H. congruence.
    + intros Hin. apply in_app_or in Hin.
      destruct Hin as [Hin | Hin]; apply inCases_In in Hin; congruence.
Qed.

Lemma applyTag_keeps_id (inst : params.ProviderInstance) (tag : cs.Tags) :
  params.ProviderID (util.applyTag inst tag) = params.ProviderID inst.
Proof.
  unfold util.applyTag.
  destruct (cs.Key tag =? "Name")%string;
    [destruct (params.IName inst =? "")%string; reflexivity|].
  destruct (cs.Key tag =? "OSType")%string; [reflexivity|].
  destruct (cs.Key tag =? "OSArch")%string; reflexivity.
Qed.

Lemma tags_keep_id (tags : list cs.Tags) (inst : params.ProviderInstance) :
  params.ProviderID (fold_left util.applyTag tags inst) = params.ProviderID inst.
Proof.
  revert inst. induction tags as [|tag tags IH]; intros inst; simpl;
    [reflexivity|].
  rewrite IH. apply applyTag_keeps_id.
Qed.

Lemma status_of_converted (R : Runtime) (vm : cs.VirtualMachine) :
  cs.Id vm <> "" ->
  exists inst,
    util.CloudStackInstanceToParamsInstance R (Some vm) = Ok inst /\
    params.ProviderID inst = cs.Id vm /\
    params.Status inst = util.statusOfLowered (ToLower R (cs.State vm)).
Proof.
  intros Hid. unfold util.CloudStackInstanceToParamsInstance.
  destruct (String.eqb_spec (cs.Id vm) ""); [contradiction|].
  eexists. split; [reflexivity|]. split; [|reflexivity].
  cbn [params.setStatus params.ProviderID]. rewrite tags_keep_id.
  destruct (cs.Displayname vm =? "")%string; reflexivity.
Qed.

(** C4.  For a VM record with a non-empty ID the conversion succeeds and the
    status depends on the lower-cased raw state only: Running exactly for
    running, starting, migrating, restoring, stopping; Stopped exactly for
    stopped, shutdown, destroyed, expunging; Unknown exactly for every other
    string.  Each of the nine words is recognised in any letter case, and an
    ASCII state is recognised only if it is one of them up to letter case. *)
Theorem status_classification (R : Runtime) (vm : cs.VirtualMachine) :
  cs.Id vm <> "" ->
  exists inst,
    util.CloudStackInstanceToParamsInstance R (Some vm) = Ok inst /\
    (params.Status inst = params.InstanceRunning <->
     In (ToLower R (cs.State vm)) runningStates) /\
    (params.Status inst = params.InstanceStopped <->
     In (ToLower R (cs.State vm)) stoppedStates) /\
    (params.Status inst = params.InstanceStatusUnknown <->
     ~ In (ToLower R (cs.State vm)) (runningStates ++ stoppedStates)) /\
    (forall w, In w (runningStates ++ stoppedStates) ->
               anyCase (cs.State vm) w = true -> ToLower R (cs.State vm) = w) /\
    (isASCII (cs.State vm) = true ->
     forall w, In w (runningStates ++ stoppedStates) ->
               ToLower R (cs.State vm) = w -> anyCase (cs.State vm) w = true).
Proof.
  intros Hid. destruct (status_of_converted R vm Hid) as [inst [Hconv [_ Hst]]].
  exists inst. split; [exact Hconv|]. rewrite Hst.
  destruct (statusOfLowered_spec (ToLower R (cs.State vm))) as [Hr [Hs Hu]].
  repeat split; try apply Hr; try apply Hs; try apply Hu.
  - intros w Hw Hany.
    rewrite (anyCase_ToLower_ascii _ _ (states_are_lower_words w Hw)) in Hany.
    apply andb_true_iff in Hany. destruct Hany as [Hascii Heq].
    unfold ToLower. rewrite Hascii. apply String.eqb_eq. exact Heq.
  - intros Hascii w Hw Heq.
    rewrite (anyCase_ToLower_ascii _ _ (states_are_lower_words w Hw)).
    unfold ToLower in Heq. rewrite Hascii in Heq |- *. simpl.
    apply String.eqb_eq. exact Heq.
Qed.

Lemma status_classification_witness :
  exists inst,
    util.CloudStackInstanceToParamsInstance sampleRuntime (Some taggedVM) = Ok inst /\
    params.Status inst = params.InstanceRunning.
Proof.
  destruct (status_classification sampleRuntime taggedVM) as [inst [Hconv [Hrun _]]].
  - discriminate.
  - exists inst. split; [exact Hconv|]. apply Hrun. vm_compute. auto.
Defined.

(** The first and fourth cases of [TestCloudStackInstanceToParamsInstance]. *)
Example converts_tagged_vm :
  util.CloudStackInstanceToParamsInstance sampleRuntime (Some taggedVM)
  = Ok {| params.ProviderID := "vm-id"; params.IName := "vm-name";
          params.IOSType := "linux"; params.IOSArch := "amd64";
          params.Status := params.InstanceRunning |}.
Proof. reflexivity. Qed.

Example converts_stopped_vm :
  util.CloudStackInstanceToParamsInstance sampleRuntime
    (Some {| cs.Id := "vm-id"; cs.Displayname := "name"; cs.State := "Stopped";
             cs.VMTags := [] |})
  = Ok {| params.ProviderID := "vm-id"; params.IName := "name";
          params.IOSType := ""; params.IOSArch := "";
          params.Status := params.InstanceStopped |}.
Proof. reflexivity. Qed.

End StateClassification.

(** ** The calls to the platform *)

Section ClientFacts.

Import gostd.

Variable R : Runtime.

Lemma prefix_iff (p s : string) :
  String.prefix p s = true <-> exists rest, s = (p ++ rest)%string.
Proof.
  revert s. induction p as [|a p IH]; intros s; simpl.
  - destruct s; split; intros _; try reflexivity; eexists; reflexivity.
  - destruct s as [|b s]; simpl.
    + split; [discriminate | intros [rest H]; discriminate].
    + destruct (ascii_dec a b) as [-> | Hne].
      * rewrite IH. split; intros [rest H]; exists rest; congruence.
      * split; [discriminate|]. intros [rest H]. congruence.
Qed.

(** [strings.Contains] decides containment. *)
Lemma Contains_iff (s substr : string) :
  Contains s substr = true <-> substringOf substr s.
Proof.
  unfold substringOf. induction s as [|c s IH]; cbn [Contains].
  - rewrite orb_false_r, prefix_iff. split.
    + intros [rest H]. exists EmptyString, rest. exact H.
    + intros [[|b before] [after H]]; [exists after; exact H | discriminate].
  - rewrite orb_true_iff, prefix_iff, IH. split.
    + intros [[rest H] | [before [after H]]].
      * exists EmptyString, rest. exact H.
      * exists (String c before), after. simpl. congruence.
    + intros [[|b before] [after H]].
      * left. exists after. exact H.
      * right. exists before, after. simpl in H. congruence.
Qed.

(** What [StartInstance] does, by the outcome of the lookup. *)
Lemma StartInstance_cases (c : client.CloudStackCli) (identifier : string) :
  client.StartInstance R c identifier
  = let find := client.FindOneInstance R c "" identifier in
    match snd find with
    | Err err => (fst find, Err err)
    | Panic => (fst find, Panic)
    | Ok None => (fst find, Panic)
    | Ok (Some vm) =>
        (fst find ++ [cs.ReqStartVirtualMachine (cs.Id vm)],
         match cs.StartVirtualMachine (client.client c) (cs.Id vm) with
         | Ok _ => Ok tt
         | Err err => Err (Errorf_w R "failed to start instance: " err)
         | Panic => Panic
         end)
    end.
Proof.
  unfold client.StartInstance, cs.andThen, cs.orElse, cs.ret, cs.send.
  destruct (client.FindOneInstance R c "" identifier) as [log [[vm|] | err |]];
    simpl; try rewrite app_nil_r; try reflexivity.
  destruct (cs.StartVirtualMachine (client.client c) (cs.Id vm)) as [[] | |];
    reflexivity.
Qed.

(** What [StopInstance] does, by the outcome of the lookup. *)
Lemma StopInstance_cases (c : client.CloudStackCli) (identifier : string) (force : bool) :
  client.StopInstance R c identifier force
  = let find := client.FindOneInstance R c "" identifier in
    match snd find with
    | Err err =>
        (fst find, if errors_Is err IsErrNotFound then Ok tt else Err err)
    | Panic => (fst find, Panic)
    | Ok None => (fst find, Panic)
    | Ok (Some vm) =>
        (fst find ++ [cs.ReqStopVirtualMachine (cs.Id vm) force],
         match cs.StopVirtualMachine (client.client c) (cs.Id vm) force with
         | Ok _ => Ok tt
         | Err err =>
             if util.IsCloudStackNotFoundErr R (Some err) then Ok tt
             else Err (Errorf_w R "failed to stop instance: " err)
         | Panic => Panic
         end)
    end.
Proof.
  unfold client.StopInstance, cs.andThen, cs.orElse, cs.ret, cs.send,
    client.absorbNotFound.
  destruct (client.FindOneInstance R c "" identifier) as [log [[vm|] | err |]];
    simpl; try rewrite !app_nil_r; try reflexivity.
  - destruct (cs.StopVirtualMachine (client.client c) (cs.Id vm) force) as [[] | |];
      reflexivity.
  - destruct (errors_Is err IsErrNotFound); simpl; try rewrite app_nil_r;
      reflexivity.
Qed.

(** What [DestroyInstance] does, by the outcome of the lookup. *)
Lemma DestroyInstance_cases (c : client.CloudStackCli) (identifier : string) :
  client.DestroyInstance R c identifier
  = let find := client.FindOneInstance R c "" identifier in
    match snd find with
    | Err err =>
        (fst find, if errors_Is err IsErrNotFound then Ok tt else Err err)
    | Panic => (fst find, Panic)
    | Ok None => (fst find, Panic)
    | Ok (Some vm) =>
        (fst find ++ [cs.ReqDestroyVirtualMachine (cs.Id vm)],
         match cs.DestroyVirtualMachine (client.client c) (cs.Id vm) with
         | Ok _ => Ok tt
         | Err err =>
             if util.IsCloudStackNotFoundErr R (Some err) then Ok tt
             else Err (Errorf_w R "failed to destroy instance: " err)
         | Panic => Panic
         end)
    end.
Proof.
  unfold client.DestroyInstance, cs.andThen, cs.orElse, cs.ret, cs.send,
    client.absorbNotFound.
  destruct (client.FindOneInstance R c "" identifier) as [log [[vm|] | err |]];
    simpl; try rewrite !app_nil_r; try reflexivity.
  - destruct (cs.DestroyVirtualMachine (client.client c) (cs.Id vm)) as [[] | |];
      reflexivity.
  - destruct (errors_Is err IsErrNotFound); simpl; try rewrite app_nil_r;
      reflexivity.
Qed.



Lemma noSuchInstance_is_not_found (identifier : string) :
  errors_Is (noSuchInstance R identifier) IsErrNotFound = true.
Proof. reflexivity. Qed.

End ClientFacts.

(** ** Idempotent stop and destroy *)

Section Idempotence.

Import gostd.

(** C6.  When the lookup reports not-found, [StopInstance] and
    [DestroyInstance] return the nil error and send nothing further, while
    [StartInstance] returns the lookup error as it is.  When the lookup
    finds the machine and the stop or destroy call itself fails with an
    error that [IsCloudStackNotFoundErr] recognises, the nil error is
    returned as well. *)
Theorem stop_destroy_absorb_not_found
  (R : Runtime) (c : client.CloudStackCli) (identifier : string) :
  (forall err : error,
     snd (client.FindOneInstance R c "" identifier) = Err err ->
     errors_Is err IsErrNotFound = true ->
     (forall force : bool,
        client.StopInstance R c identifier force
        = (fst (client.FindOneInstance R c "" identifier), Ok tt)) /\
     client.DestroyInstance R c identifier
     = (fst (client.FindOneInstance R c "" identifier), Ok tt) /\
     client.StartInstance R c identifier
     = (fst (client.FindOneInstance R c "" identifier), Err err)) /\
  (forall (vm : cs.VirtualMachine) (err : error),
     snd (client.FindOneInstance R c "" identifier) = Ok (Some vm) ->
     util.IsCloudStackNotFoundErr R (Some err) = true ->
     (forall force : bool,
        cs.StopVirtualMachine (client.client c) (cs.Id vm) force = Err err ->
        snd (client.StopInstance R c identifier force) = Ok tt) /\
     (cs.DestroyVirtualMachine (client.client c) (cs.Id vm) = Err err ->
      snd (client.DestroyInstance R c identifier) = Ok tt)).
Proof.
  split.
  - intros err Hfind Hnf. repeat split; [intros force | |].
    + rewrite StopInstance_cases. cbv zeta. rewrite Hfind, Hnf. reflexivity.
    + rewrite DestroyInstance_cases. cbv zeta. rewrite Hfind, Hnf. reflexivity.
    + rewrite StartInstance_cases. cbv zeta. rewrite Hfind. reflexivity.
  - intros vm err Hfind Hnf. split; [intros force Hcall | intros Hcall].
    + rewrite StopInstance_cases. cbv zeta. rewrite Hfind. cbn [snd].
      rewrite Hcall, Hnf. reflexivity.
    + rewrite DestroyInstance_cases. cbv zeta. rewrite Hfind. cbn [snd].
      rewrite Hcall, Hnf. reflexivity.
Qed.

Lemma stop_destroy_absorb_not_found_witness :
  (client.StopInstance sampleRuntime (sampleCli [] (Ok tt)) "missing-vm" true
   = ([cs.ReqListVirtualMachines (byNameRequest (sampleCli [] (Ok tt)) "missing-vm")],
      Ok tt)) /\
  (snd (client.DestroyInstance sampleRuntime
          (sampleCli [Some taggedVM] (Err (errorString "No match found for virtualmachine")))
          "vm-name") = Ok tt).
Proof.
  split.
  - apply (proj1 (stop_destroy_absorb_not_found sampleRuntime
                    (sampleCli [] (Ok tt)) "missing-vm")
             (noSuchInstance sampleRuntime "missing-vm")); reflexivity.
  - apply (proj2 (stop_destroy_absorb_not_found sampleRuntime
                    (sampleCli [Some taggedVM]
                       (Err (errorString "No match found for virtualmachine")))
                    "vm-name")
             taggedVM (errorString "No match found for virtualmachine"));
      reflexivity.
Defined.



(** C10.  [IsCloudStackNotFoundErr] is false for nil and for every error
    that is the async timeout; for any other error it is true exactly when
    the lower-cased message contains one of the two phrases.  So a stop or
    destroy call that times out on a machine that was found is returned as
    an error. *)
Theorem not_found_predicate (R : Runtime) :
  util.IsCloudStackNotFoundErr R None = false /\
  (forall err : error,
     errors_Is err IsAsyncTimeoutErr = true ->
     util.IsCloudStackNotFoundErr R (Some err) = false) /\
  (forall err : error,
     errors_Is err IsAsyncTimeoutErr = false ->
     (util.IsCloudStackNotFoundErr R (Some err) = true <->
      substringOf "no match found for" (ToLower R (Error R err)) \/
      substringOf "entity does not exist" (ToLower R (Error R err)))) /\
  (forall (c : client.CloudStackCli) (identifier : string)
          (vm : cs.VirtualMachine) (err : error),
     snd (client.FindOneInstance R c "" identifier) = Ok (Some vm) ->
     errors_Is err IsAsyncTimeoutErr = true ->
     (forall force : bool,
        cs.StopVirtualMachine (client.client c) (cs.Id vm) force = Err err ->
        snd (client.StopInstance R c identifier force)
        = Err (Errorf_w R "failed to stop instance: " err)) /\
     (cs.DestroyVirtualMachine (client.client c) (cs.Id vm) = Err err ->
      snd (client.DestroyInstance R c identifier)
      = Err (Errorf_w R "failed to destroy instance: " err))).
Proof.
  split; [reflexivity|]. split; [|split].
  - intros err Ht. unfold util.IsCloudStackNotFoundErr. rewrite Ht. reflexivity.
  - intros err Ht. unfold util.IsCloudStackNotFoundErr. rewrite Ht.
    rewrite orb_true_iff, !Contains_iff. reflexivity.
  - intros c identifier vm err Hfind Ht.
    assert (Hnf : util.IsCloudStackNotFoundErr R (Some err) = false)
      by (unfold util.IsCloudStackNotFoundErr; rewrite Ht; reflexivity).
    split; [intros force Hcall | intros Hcall].
    + rewrite StopInstance_cases. cbv zeta. rewrite Hfind. cbn [snd].
      rewrite Hcall, Hnf. reflexivity.
    + rewrite DestroyInstance_cases. cbv zeta. rewrite Hfind. cbn [snd].
      rewrite Hcall, Hnf. reflexivity.
Qed.

Lemma not_found_predicate_witness :
  util.IsCloudStackNotFoundErr sampleRuntime (Some AsyncTimeoutErr) = false /\
  snd (client.DestroyInstance sampleRuntime
         (sampleCli [Some taggedVM] (Err AsyncTimeoutErr)) "vm-name")
  = Err (Errorf_w sampleRuntime "failed to destroy instance: " AsyncTimeoutErr).
Proof.
  destruct (not_found_predicate sampleRuntime) as [_ [Htimeout [_ Hcalls]]].
  split.
  - apply Htimeout. reflexivity.
  - apply (proj2 (Hcalls (sampleCli [Some taggedVM] (Err AsyncTimeoutErr))
                    "vm-name" taggedVM AsyncTimeoutErr eq_refl eq_refl)).
    reflexivity.
Defined.

(** The cases of [TestIsCloudStackNotFoundErr]. *)
Example not_found_test_cases :
  util.IsCloudStackNotFoundErr sampleRuntime None = false /\
  util.IsCloudStackNotFoundErr sampleRuntime (Some AsyncTimeoutErr) = false /\
  util.IsCloudStackNotFoundErr sampleRuntime
    (Some (errorString "No match found for virtualmachine")) = true /\
  util.IsCloudStackNotFoundErr sampleRuntime
    (Some (errorString "Unable to execute API command listvirtualmachines due to invalid value. Invalid parameter id value=abc due to incorrect long value format, or entity does not exist")) = true /\
  util.IsCloudStackNotFoundErr sampleRuntime
    (Some (errorString "some other error")) = false.
Proof. repeat split; vm_compute; reflexivity. Qed.

End Idempotence.

(** ** Name resolution *)

Section NameResolution.

Import gostd.

(** C8.  Once the zone and the service offering are resolved: a project
    lookup by name with more than one match fails with the error of the
    multiple projects, and with no match with the error of the project not
    found; a template lookup by name with more than one match succeeds with
    the first template of the response, and with no match fails with the
    error of the template not found. *)
Theorem project_ambiguity_fails_template_takes_first
  (R : Runtime) (cl : config.Client) (c : config.Config)
  (zoneID offeringID : string) :
  config.resolveZone R cl c = Ok zoneID ->
  config.resolveServiceOffering R cl c = Ok offeringID ->
  (config.Project c <> "" -> config.isUUID (config.Project c) = false ->
   forall resp,
     config.ListProjects cl (projectRequest c) = Ok resp ->
     ((config.pCount resp > 1)%Z ->
      config.resolveNames R cl c
      = Err (errorString ("multiple projects found matching "
                            ++ Quote R (config.Project c)))) /\
     (config.pCount resp = 0%Z ->
      config.resolveNames R cl c
      = Err (errorString ("project " ++ Quote R (config.Project c) ++ " not found")))) /\
  (forall projectID,
     config.resolveProject R cl c (config.ProjectID c) = Ok projectID ->
     config.isUUID (config.Template c) = false ->
     forall resp,
       config.ListTemplates cl (templateRequest c zoneID projectID) = Ok resp ->
       (forall first rest,
          (config.tCount resp > 1)%Z -> config.Templates resp = first :: rest ->
          exists c', config.resolveNames R cl c = Ok c' /\
                     config.TemplateID c' = first) /\
       (config.tCount resp = 0%Z ->
        config.resolveNames R cl c
        = Err (errorString ("template " ++ Quote R (config.Template c) ++ " not found")))).
Proof.
  intros Hzone Hoff. unfold config.resolveNames. rewrite Hzone, Hoff.
  cbn [bind]. split.
  - intros Hset Hname resp Hlist.
    unfold config.resolveProject.
    destruct (String.eqb_spec (config.Project c) ""); [contradiction|].
    rewrite Hname. fold (projectRequest c). rewrite Hlist. cbn [onError bind].
    split; intros Hcount.
    + assert (H0 : (config.pCount resp =? 0)%Z = false) by (apply Z.eqb_neq; lia).
      assert (H1 : (config.pCount resp >? 1)%Z = true) by (apply Z.gtb_lt; lia).
      rewrite H0, H1. reflexivity.
    + rewrite Hcount. reflexivity.
  - intros projectID Hproj Htmpl resp Hlist. rewrite Hproj. cbn [bind].
    unfold config.resolveTemplate. rewrite Htmpl.
    fold (templateRequest c zoneID projectID). rewrite Hlist. cbn [onError bind].
    split.
    + intros t rest Hcount Hfirst.
      assert (H0 : (config.tCount resp =? 0)%Z = false) by (apply Z.eqb_neq; lia).
      rewrite H0, Hfirst. cbn [first bind]. eexists. split; reflexivity.
    + intros Hcount. rewrite Hcount. reflexivity.
Qed.

Lemma project_ambiguity_fails_template_takes_first_witness :
  config.resolveNames sampleRuntime (sampleResolver ["p-1"; "p-2"] ["t-1"])
    (namedConfig "sw_infra")
  = Err (errorString ("multiple projects found matching "
                        ++ Quote sampleRuntime "sw_infra")) /\
  exists c', config.resolveNames sampleRuntime (sampleResolver [] ["t-1"; "t-2"])
               (namedConfig "") = Ok c' /\
             config.TemplateID c' = "t-1".
Proof.
  split.
  - apply (proj1 (proj1 (project_ambiguity_fails_template_takes_first sampleRuntime
                           (sampleResolver ["p-1"; "p-2"] ["t-1"])
                           (namedConfig "sw_infra") "zone-id" "offering-id"
                           eq_refl eq_refl)
                    ltac:(discriminate) eq_refl
                    {| config.pCount := 2; config.Projects := ["p-1"; "p-2"] |}
                    eq_refl)).
    reflexivity.
  - apply (proj1 (proj2 (project_ambiguity_fails_template_takes_first sampleRuntime
                           (sampleResolver [] ["t-1"; "t-2"])
                           (namedConfig "") "zone-id" "offering-id"
                           eq_refl eq_refl)
                    "" eq_refl eq_refl
                    {| config.tCount := 2; config.Templates := ["t-1"; "t-2"] |}
                    eq_refl) "t-1" ["t-2"]); reflexivity.
Defined.

(** When every configured value is already an identifier, resolution asks
    the platform nothing and returns the values as they are. *)
Lemma identifiers_resolve_to_themselves
  (R : Runtime) (cl : config.Client) (c : config.Config) :
  config.isUUID (config.Zone c) = true ->
  config.isUUID (config.ServiceOffering c) = true ->
  config.isUUID (config.Project c) = true ->
  config.isUUID (config.Template c) = true ->
  config.resolveNames R cl c
  = Ok (config.SetResolvedIDs c (config.Zone c) (config.ServiceOffering c)
          (config.Template c) (config.Project c)).
Proof.
  intros Hz Ho Hp Ht.
  unfold config.resolveNames, config.resolveZone, config.resolveServiceOffering,
    config.resolveProject, config.resolveTemplate.
  rewrite Hz, Ho, Hp, Ht. cbn [bind].
  destruct (String.eqb_spec (config.Project c) "") as [Hempty|]; [|reflexivity].
  rewrite Hempty in Hp. discriminate.
Qed.

End NameResolution.

(** ** Which operations absorb a not-found condition *)

Section ProviderOperations.

Import gostd.

(** C9, as stated, fails: [GetInstance] does not return the not-found error
    of its lookup; it returns the empty instance and the nil error. *)
Lemma get_instance_absorbs_not_found :
  snd (client.FindOneInstance sampleRuntime (sampleCli [] (Ok tt)) "c1" "missing-vm")
  = Err (noSuchInstance sampleRuntime "missing-vm") /\
  errors_Is (noSuchInstance sampleRuntime "missing-vm") IsErrNotFound = true /\
  snd (provider.GetInstance sampleRuntime (sampleProvider [] (Ok tt)) "missing-vm")
  = Ok params.emptyInstance.
Proof. repeat split. Qed.

(** C9, amended.  A lookup that reports not-found is turned into success by
    [Stop], [DeleteInstance] and [GetInstance], the last returning the empty
    instance; [Start] returns it to the caller as an error, still a
    not-found one.  The other failures are returned too: of the start call,
    of the list call of [ListInstances], of the deploy call and of
    [CreateRunningInstance] as a whole in [CreateInstance]. *)
Theorem not_found_absorbed_by_stop_delete_get
  (R : Runtime) (D : spec.Deps) (p : provider.CloudStackProvider) (instance : string) :
  (forall err : error,
     snd (client.FindOneInstance R (provider.cli p) "" instance) = Err err ->
     errors_Is err IsErrNotFound = true ->
     (forall force : bool, snd (provider.Stop R p instance force) = Ok tt) /\
     snd (provider.DeleteInstance R p instance) = Ok tt /\
     snd (provider.Start R p instance)
     = Err (Errorf_w R "failed to start instance: " err) /\
     errors_Is (Errorf_w R "failed to start instance: " err) IsErrNotFound = true) /\
  (forall err : error,
     snd (client.FindOneInstance R (provider.cli p) (provider.controllerID p) instance)
     = Err err ->
     errors_Is err IsErrNotFound = true ->
     snd (provider.GetInstance R p instance) = Ok params.emptyInstance) /\
  (forall (vm : cs.VirtualMachine) (err : error),
     snd (client.FindOneInstance R (provider.cli p) "" instance) = Ok (Some vm) ->
     cs.StartVirtualMachine (client.client (provider.cli p)) (cs.Id vm) = Err err ->
     snd (provider.Start R p instance)
     = Err (Errorf_w R "failed to start instance: "
              (Errorf_w R "failed to start instance: " err))) /\
  (forall (poolID : string) (err : error),
     snd (client.ListInstancesByPool R (provider.cli p) (provider.controllerID p) poolID)
     = Err err ->
     snd (provider.ListInstances R p poolID)
     = Err (Errorf_w R "failed to list instances: " err)) /\
  (forall (rs : spec.RunnerSpec) (udata : string) (err : error),
     spec.ComposeUserData D rs = Ok udata ->
     cs.DeployVirtualMachine (client.client (provider.cli p)) (deployRequest rs udata)
     = Err err ->
     snd (client.CreateRunningInstance D (provider.cli p) (Some rs))
     = Err (Errorf_w (spec.runtime D) "failed to deploy virtual machine: " err)) /\
  (forall (bootstrapParams : params.BootstrapInstance) (rs : spec.RunnerSpec)
          (err : error),
     spec.GetRunnerSpecFromBootstrapParams D (client.Config (provider.cli p))
       bootstrapParams (provider.controllerID p) = Ok rs ->
     snd (client.CreateRunningInstance D (provider.cli p) (Some rs)) = Err err ->
     snd (provider.CreateInstance D p bootstrapParams)
     = Err (Errorf_w (spec.runtime D) "failed to create instance: " err)).
Proof.
  split; [|split; [|split; [|split; [|split]]]].
  - intros err Hfind Hnf. split; [|split; [|split]].
    + intros force. unfold provider.Stop. rewrite StopInstance_cases. cbv zeta.
      rewrite Hfind, Hnf. reflexivity.
    + unfold provider.DeleteInstance. rewrite DestroyInstance_cases. cbv zeta.
      rewrite Hfind, Hnf. reflexivity.
    + unfold provider.Start. rewrite StartInstance_cases. cbv zeta.
      rewrite Hfind. reflexivity.
    + exact Hnf.
  - intros err Hfind Hnf. unfold provider.GetInstance, cs.andThen, cs.orElse, cs.ret.
    destruct (client.FindOneInstance R (provider.cli p) (provider.controllerID p) instance)
      as [log r].
    cbn [snd] in Hfind. subst r. cbn [fst snd]. rewrite Hnf. reflexivity.
  - intros vm err Hfind Hcall. unfold provider.Start.
    rewrite StartInstance_cases. cbv zeta. rewrite Hfind, Hcall. reflexivity.
  - intros poolID err Hlist. unfold provider.ListInstances, cs.andThen, cs.orElse.
    rewrite Hlist. reflexivity.
  - intros rs udata err Hudata Hdeploy.
    unfold client.CreateRunningInstance, cs.andThen, cs.orElse, cs.ret, cs.send.
    rewrite Hudata. cbn [onError fst snd]. fold (deployRequest rs udata).
    rewrite Hdeploy. reflexivity.
  - intros bootstrapParams rs err Hspec Hcreate.
    unfold provider.CreateInstance, cs.andThen, cs.orElse, cs.ret.
    rewrite Hspec. cbn [onError fst snd]. rewrite Hcreate. reflexivity.
Qed.

Lemma not_found_absorbed_by_stop_delete_get_witness :
  snd (provider.DeleteInstance sampleRuntime (sampleProvider [] (Ok tt)) "missing-vm")
  = Ok tt /\
  snd (provider.GetInstance sampleRuntime (sampleProvider [] (Ok tt)) "missing-vm")
  = Ok params.emptyInstance /\
  snd (provider.Start sampleRuntime (sampleProvider [] (Ok tt)) "missing-vm")
  = Err (Errorf_w sampleRuntime "failed to start instance: "
           (noSuchInstance sampleRuntime "missing-vm")).
Proof.
  destruct (not_found_absorbed_by_stop_delete_get sampleRuntime sampleDeps
              (sampleProvider [] (Ok tt)) "missing-vm") as [Hact [Hget _]].
  destruct (Hact (noSuchInstance sampleRuntime "missing-vm") eq_refl eq_refl)
    as [_ [Hdelete [Hstart _]]].
  split; [exact Hdelete|]. split; [|exact Hstart].
  apply (Hget (noSuchInstance sampleRuntime "missing-vm")); reflexivity.
Defined.

End ProviderOperations.

(** ** The boot payload *)

Section UserData.

Import gostd.

Lemma splitHeader_count (name content : list byte) (k n : nat) :
  splitHeader (repeat x01 k ++ x00 :: name ++ content) n
  = Some (n + k, name ++ content).
Proof.
  revert n. induction k as [|k IH]; intros n; simpl.
  - rewrite Nat.add_0_r. reflexivity.
  - rewrite IH. f_equal. f_equal. lia.
Qed.

Lemma length_list_byte (s : string) :
  List.length (list_byte_of_string s) = String.length s.
Proof.
  unfold list_byte_of_string. rewrite length_map. apply length_list_ascii.
Qed.

Lemma sampleLibrary_lawful : compress.Lawful sampleLibrary.
Proof.
  split.
  - intros p. exists p, (x1f :: x8b :: p). repeat split.
  - intros name p _.
    exists (Some (name, [])), (Some (name, p)),
      (repeat x01 (String.length name) ++ x00 :: list_byte_of_string name ++ p).
    repeat split. cbn [compress.unzip sampleLibrary].
    rewrite splitHeader_count. cbn [Nat.add].
    assert (Hlen : (List.length (list_byte_of_string name ++ p) <? String.length name)%nat
                   = false).
    { apply Nat.ltb_ge. rewrite length_app, length_list_byte. lia. }
    rewrite Hlen.
    rewrite <- (length_list_byte name) at 1 2.
    rewrite firstn_app, Nat.sub_diag, firstn_all, firstn_O, app_nil_r.
    rewrite skipn_app, Nat.sub_diag, skipn_all. cbn [skipn app].
    rewrite string_of_list_byte_of_string. reflexivity.
Qed.

(** Below the threshold the payload is kept as it is; from the threshold on
    it is the single entry [udata] of a zip archive for Windows and a gzip
    stream for any other target. *)
Lemma maybeCompressUserdata_spec
  (D : spec.Deps) (payload : list byte) (targetOS : params.OSType) :
  compress.Lawful (spec.zlib D) ->
  exists stored,
    spec.maybeCompressUserdata D payload targetOS = Ok stored /\
    ((Z.of_nat (List.length payload) < 16384)%Z -> stored = payload) /\
    ((16384 <= Z.of_nat (List.length payload))%Z ->
     if (targetOS =? params.Windows)%string
     then compress.unzip (spec.zlib D) stored = Some [("udata", payload)]
     else compress.gunzip (spec.zlib D) stored = Some payload).
Proof.
  intros [Hgzip Hzip]. unfold spec.maybeCompressUserdata.
  change spec.compressThreshold with 16384%Z.
  destruct (Z.ltb_spec (Z.of_nat (List.length payload)) 16384) as [Hlt | Hge].
  - exists payload. repeat split. intros Hge. lia.
  - destruct (targetOS =? params.Windows)%string.
    + destruct (Hzip "udata" payload) as [w1 [w2 [z [Hc [Hw [Hcl Hun]]]]]];
        [simpl; lia|].
      exists z. rewrite Hc. cbn [bind]. rewrite Hw. cbn [onError bind].
      repeat split; [exact Hcl | lia | intros _; exact Hun].
    + destruct (Hgzip payload) as [w [z [Hw [Hcl Hun]]]].
      exists z. rewrite Hw. cbn [onError bind].
      repeat split; [exact Hcl | lia | intros _; exact Hun].
Qed.

(** C3.  The user data is the base64 encoding of what
    [maybeCompressUserdata] returns for the rendered payload, and decoding
    it gives those bytes back.  For a payload shorter than 16384 bytes they
    are the payload itself; for a payload of 16384 bytes or more they are a
    zip archive whose only entry is named [udata] and holds the payload when
    the target is Windows, and a gzip stream of the payload for any other
    target: undoing the compression of the target recovers the payload. *)
Theorem user_data_round_trip (D : spec.Deps) :
  compress.Lawful (spec.zlib D) ->
  (forall (payload : list byte) (targetOS : params.OSType),
     exists stored,
       spec.maybeCompressUserdata D payload targetOS = Ok stored /\
       base64.DecodeString (base64.EncodeToString stored) = Some stored /\
       ((Z.of_nat (List.length payload) < 16384)%Z ->
        stored = payload /\
        recovered (spec.zlib D) targetOS false stored = Some payload) /\
       ((16384 <= Z.of_nat (List.length payload))%Z ->
        (if (targetOS =? params.Windows)%string
         then compress.unzip (spec.zlib D) stored = Some [("udata", payload)]
         else compress.gunzip (spec.zlib D) stored = Some payload) /\
        recovered (spec.zlib D) targetOS true stored = Some payload)) /\
  (forall (r : spec.RunnerSpec) (payload : list byte),
     spec.renderUserData D r (spec.userDataParams r) = Ok payload ->
     exists stored,
       spec.maybeCompressUserdata D payload (params.BOSType (spec.BootstrapParams r))
       = Ok stored /\
       spec.ComposeUserData D r = Ok (base64.EncodeToString stored)).
Proof.
  intros HL. split.
  - intros payload targetOS.
    destruct (maybeCompressUserdata_spec D payload targetOS HL)
      as [stored [Hstored [Hsmall Hlarge]]].
    exists stored. split; [exact Hstored|].
    split; [apply DecodeString_EncodeToString|]. split.
    + intros Hlt. rewrite (Hsmall Hlt). split; reflexivity.
    + intros Hge. specialize (Hlarge Hge). split; [exact Hlarge|].
      unfold recovered. destruct (targetOS =? params.Windows)%string.
      * rewrite Hlarge. reflexivity.
      * exact Hlarge.
  - intros r payload Hrender.
    destruct (maybeCompressUserdata_spec D payload
                (params.BOSType (spec.BootstrapParams r)) HL)
      as [stored [Hstored _]].
    exists stored. split; [exact Hstored|].
    unfold spec.ComposeUserData. rewrite Hrender. cbn [bind].
    change (params.BOSType (spec.userDataParams r))
      with (params.BOSType (spec.BootstrapParams r)).
    rewrite Hstored. reflexivity.
Qed.

Lemma user_data_round_trip_witness :
  exists stored,
    spec.ComposeUserData sampleDeps windowsSpec = Ok (base64.EncodeToString stored) /\
    base64.DecodeString (base64.EncodeToString stored) = Some stored /\
    compress.unzip sampleLibrary stored = Some [("udata", windowsPayload)].
Proof.
  destruct (user_data_round_trip sampleDeps sampleLibrary_lawful) as [Hbytes Hcompose].
  destruct (Hcompose windowsSpec windowsPayload eq_refl) as [stored [Hstored Hdata]].
  destruct (Hbytes windowsPayload params.Windows) as [stored' [Hstored' [Hdec [_ Hlarge]]]].
  assert (Hsame : stored' = stored).
  { change (params.BOSType (spec.BootstrapParams windowsSpec)) with params.Windows
      in Hstored.
    rewrite Hstored in Hstored'. injection Hstored' as ->. reflexivity. }
  subst stored'. exists stored. split; [exact Hdata|]. split; [exact Hdec|].
  apply Hlarge. vm_compute. discriminate.
Defined.

End UserData.

(** * Further properties of the code *)

(** ** Loading and resolving the configuration *)

Section Configuration.

Import gostd.

Lemma not_empty_iff (s : string) : (s =? "")%string = false <-> s <> "".
Proof. apply String.eqb_neq. Qed.

(** X1.  [Validate] accepts a configuration exactly when its API URL, API
    key, secret, zone, service offering and template are all non-empty; the
    project, the SSH key name and the other settings play no part. *)
Theorem config_validate_required_fields (c : config.Config) :
  config.Validate c = None <->
  config.APIURL c <> "" /\ config.APIKey c <> "" /\ config.Secret c <> "" /\
  config.Zone c <> "" /\ config.ServiceOffering c <> "" /\ config.Template c <> "".
Proof.
  unfold config.Validate.
  destruct (String.eqb_spec (config.APIURL c) "") as [H1|H1].
  { split; [discriminate | intros [H _]; contradiction]. }
  destruct (String.eqb_spec (config.APIKey c) "") as [H2|H2].
  { split; [discriminate | intros [_ [H _]]; contradiction]. }
  destruct (String.eqb_spec (config.Secret c) "") as [H3|H3].
  { split; [discriminate | intros [_ [_ [H _]]]; contradiction]. }
  destruct (String.eqb_spec (config.Zone c) "") as [H4|H4].
  { split; [discriminate | intros [_ [_ [_ [H _]]]]; contradiction]. }
  destruct (String.eqb_spec (config.ServiceOffering c) "") as [H5|H5].
  { split; [discriminate | intros [_ [_ [_ [_ [H _]]]]]; contradiction]. }
  destruct (String.eqb_spec (config.Template c) "") as [H6|H6].
  { split; [discriminate | intros [_ [_ [_ [_ [_ H]]]]]; contradiction]. }
  split; [intros _; repeat split; assumption | reflexivity].
Qed.

(** X2.  A successful [resolveNames] changes nothing but the resolved
    bundle.  In it, a configured value that is an identifier is copied as it
    is; a zone or offering name becomes the platform's answer; an unset
    project leaves the project ID as it was. *)
Theorem resolveNames_fills_resolved_only
  (R : Runtime) (cl : config.Client) (c c' : config.Config) :
  config.resolveNames R cl c = Ok c' ->
  c' = config.SetResolvedIDs c (config.ZoneID c') (config.ServiceOfferingID c')
         (config.TemplateID c') (config.ProjectID c') /\
  config.Validate c' = config.Validate c /\
  (if config.isUUID (config.Zone c) then config.ZoneID c' = config.Zone c
   else config.GetZoneByName cl (config.Zone c) = Ok (config.ZoneID c')) /\
  (if config.isUUID (config.ServiceOffering c)
   then config.ServiceOfferingID c' = config.ServiceOffering c
   else config.GetServiceOfferingByName cl (config.ServiceOffering c)
        = Ok (config.ServiceOfferingID c')) /\
  (config.Project c = "" -> config.ProjectID c' = config.ProjectID c) /\
  (config.isUUID (config.Project c) = true -> config.ProjectID c' = config.Project c) /\
  (config.isUUID (config.Template c) = true -> config.TemplateID c' = config.Template c).
Proof.
  unfold config.resolveNames. intros H.
  destruct (config.resolveZone R cl c) as [z| |] eqn:Hz;
    cbn [bind] in H; try discriminate.
  destruct (config.resolveServiceOffering R cl c) as [o| |] eqn:Ho;
    cbn [bind] in H; try discriminate.
  destruct (config.resolveProject R cl c (config.ProjectID c)) as [p| |] eqn:Hp;
    cbn [bind] in H; try discriminate.
  destruct (config.resolveTemplate R cl c z p) as [t| |] eqn:Ht;
    cbn [bind] in H; try discriminate.
  injection H as <-.
  split; [reflexivity|]. split; [reflexivity|].
  cbn [config.SetResolvedIDs config.setResolved config.ZoneID
         config.ServiceOfferingID config.TemplateID config.ProjectID
         config.resolved config.rZoneID config.rServiceOfferingID
         config.rTemplateID config.rProjectID].
  split; [|split; [|split; [|split]]].
  - unfold config.resolveZone in Hz.
    destruct (config.isUUID (config.Zone c)); [congruence|].
    destruct (config.GetZoneByName cl (config.Zone c)); try discriminate.
    cbn [onError] in Hz. congruence.
  - unfold config.resolveServiceOffering in Ho.
    destruct (config.isUUID (config.ServiceOffering c)); [congruence|].
    destruct (config.GetServiceOfferingByName cl (config.ServiceOffering c));
      try discriminate.
    cbn [onError] in Ho. congruence.
  - intros Hempty. unfold config.resolveProject in Hp.
    rewrite Hempty in Hp. cbn [String.eqb] in Hp. congruence.
  - intros Hid. unfold config.resolveProject in Hp. rewrite Hid in Hp.
    destruct (config.Project c =? "")%string eqn:He.
    + apply String.eqb_eq in He. rewrite He in Hid. discriminate.
    + congruence.
  - intros Hid. unfold config.resolveTemplate in Ht. rewrite Hid in Ht. congruence.
Qed.

Lemma resolveNames_fills_resolved_only_witness :
  config.Validate
    (config.SetResolvedIDs (namedConfig "") "zone-id" "offering-id" "t-1" "")
  = config.Validate (namedConfig "").
Proof.
  exact (proj1 (proj2 (resolveNames_fills_resolved_only sampleRuntime
                         (sampleResolver [] ["t-1"; "t-2"]) (namedConfig "")
                         (config.SetResolvedIDs (namedConfig "")
                            "zone-id" "offering-id" "t-1" "")
                         eq_refl))).
Defined.

(** X3.  Failures are met in the order zone, service offering: a zone name
    the platform cannot resolve ends the resolution with the zone error,
    whatever the other lookups would answer; with the zone resolved, an
    offering name that cannot be resolved ends it with the offering error.
    Both errors wrap the platform's error. *)
Theorem resolveNames_first_failure
  (R : Runtime) (cl : config.Client) (c : config.Config) (err : error) :
  (config.isUUID (config.Zone c) = false ->
   config.GetZoneByName cl (config.Zone c) = Err err ->
   config.resolveNames R cl c
   = Err (Errorf_w R ("failed to resolve zone " ++ Quote R (config.Zone c) ++ ": ") err)) /\
  (forall zoneID,
     config.resolveZone R cl c = Ok zoneID ->
     config.isUUID (config.ServiceOffering c) = false ->
     config.GetServiceOfferingByName cl (config.ServiceOffering c) = Err err ->
     config.resolveNames R cl c
     = Err (Errorf_w R ("failed to resolve service_offering "
                          ++ Quote R (config.ServiceOffering c) ++ ": ") err)) /\
  (forall prefix target, errors_Is (Errorf_w R prefix err) target = errors_Is err target).
Proof.
  split; [|split].
  - intros Hname Hfail. unfold config.resolveNames, config.resolveZone.
    rewrite Hname, Hfail. reflexivity.
  - intros zoneID Hzone Hname Hfail.
    unfold config.resolveNames, config.resolveServiceOffering.
    rewrite Hzone, Hname, Hfail. reflexivity.
  - intros prefix target. destruct target; reflexivity.
Qed.

Lemma resolveNames_first_failure_witness :
  config.resolveNames sampleRuntime
    {| config.GetZoneByName := fun _ => Err (errorString "No match found for zone");
       config.GetServiceOfferingByName := fun _ => Err (errorString "unreachable");
       config.ListProjects := fun _ => Err (errorString "unreachable");
       config.ListTemplates := fun _ => Err (errorString "unreachable") |}
    (namedConfig "sw_infra")
  = Err (Errorf_w sampleRuntime
           ("failed to resolve zone " ++ Quote sampleRuntime "us-west-1" ++ ": ")
           (errorString "No match found for zone")).
Proof.
  apply (proj1 (resolveNames_first_failure sampleRuntime _ (namedConfig "sw_infra")
                  (errorString "No match found for zone"))); reflexivity.
Defined.

(** X4.  When zone, service offering and template are identifiers and the
    project is unset or an identifier, the outcome of [resolveNames] is the
    same for every platform: the values themselves are the resolved
    identifiers, and no answer of the platform is used. *)
Theorem resolveNames_of_identifiers
  (R : Runtime) (cl : config.Client) (c : config.Config) :
  config.isUUID (config.Zone c) = true ->
  config.isUUID (config.ServiceOffering c) = true ->
  config.Project c = "" \/ config.isUUID (config.Project c) = true ->
  config.isUUID (config.Template c) = true ->
  config.resolveNames R cl c
  = Ok (config.SetResolvedIDs c (config.Zone c) (config.ServiceOffering c)
          (config.Template c)
          (if (config.Project c =? "")%string then config.ProjectID c
           else config.Project c)).
Proof.
  intros Hz Ho Hp Ht.
  unfold config.resolveNames, config.resolveZone, config.resolveServiceOffering,
    config.resolveProject, config.resolveTemplate.
  rewrite Hz, Ho, Ht. cbn [bind].
  destruct (String.eqb_spec (config.Project c) "") as [Hempty | Hset];
    [reflexivity|].
  destruct Hp as [Hp | Hp]; [contradiction|]. rewrite Hp. reflexivity.
Qed.

Lemma resolveNames_of_identifiers_witness :
  config.resolveNames sampleRuntime (sampleResolver [] []) uuidConfig
  = Ok (config.SetResolvedIDs uuidConfig
          "d9a16f24-9e15-43a7-afd0-baa96a7e5ef3"
          "0b4f1a52-7c1e-4a8e-9d53-1f2e3a4b5c6d"
          "A1B2C3D4-0000-1111-2222-333344445555" "").
Proof.
  apply (resolveNames_of_identifiers sampleRuntime (sampleResolver [] []) uuidConfig).
  - reflexivity.
  - reflexivity.
  - left. reflexivity.
  - reflexivity.
Defined.

End Configuration.

Section ConfigurationLoading.

Import gostd.

Lemma resolveNames_keeps_settings
  (R : Runtime) (cl : config.Client) (c c' : config.Config) :
  config.resolveNames R cl c = Ok c' ->
  c' = config.SetResolvedIDs c (config.ZoneID c') (config.ServiceOfferingID c')
         (config.TemplateID c') (config.ProjectID c') /\
  config.Validate c' = config.Validate c.
Proof.
  unfold config.resolveNames. intros H.
  destruct (config.resolveZone R cl c); cbn [bind] in H; try discriminate.
  destruct (config.resolveServiceOffering R cl c); cbn [bind] in H;
    try discriminate.
  destruct (config.resolveProject R cl c (config.ProjectID c)); cbn [bind] in H;
    try discriminate.
  destruct (config.resolveTemplate R cl c _ _); cbn [bind] in H;
    try discriminate.
  injection H as <-. split; reflexivity.
Qed.

(** X5.  [NewConfig] validates before it resolves: a decoded configuration
    that fails [Validate] is refused with that error for every platform, and
    a configuration is returned only if it was decoded, passed [Validate]
    and was resolved; it is the decoded one with its resolved bundle filled,
    and still passes [Validate]. *)
Theorem NewConfig_validates_then_resolves
  (R : Runtime) (DecodeFile : string -> result config.Config)
  (NewAsyncClient : string -> string -> string -> bool -> config.Client)
  (path : string) :
  (forall cfg err,
     DecodeFile path = Ok cfg -> config.Validate cfg = Some err ->
     config.NewConfig R DecodeFile NewAsyncClient path
     = Err (Errorf_w R "error validating config: " err)) /\
  (forall c',
     config.NewConfig R DecodeFile NewAsyncClient path = Ok c' ->
     exists cfg,
       DecodeFile path = Ok cfg /\
       config.Validate cfg = None /\
       config.resolveNames R
         (NewAsyncClient (config.APIURL cfg) (config.APIKey cfg)
            (config.Secret cfg) (config.VerifySSL cfg)) cfg = Ok c' /\
       c' = config.SetResolvedIDs cfg (config.ZoneID c') (config.ServiceOfferingID c')
              (config.TemplateID c') (config.ProjectID c') /\
       config.Validate c' = None).
Proof.
  unfold config.NewConfig. split.
  - intros cfg err Hdec Hval. rewrite Hdec. cbn [onError bind].
    rewrite Hval. reflexivity.
  - intros c' H.
    destruct (DecodeFile path) as [cfg| |]; cbn [onError bind] in H;
      try discriminate.
    destruct (config.Validate cfg) eqn:Hval; [discriminate|].
    destruct (config.resolveNames R _ cfg) as [c''| |] eqn:Hres;
      cbn [onError] in H; try discriminate.
    injection H as ->. exists cfg.
    destruct (resolveNames_keeps_settings R _ cfg c' Hres) as [Hc' Hv].
    repeat split; try assumption. rewrite Hv. exact Hval.
Qed.

Lemma NewConfig_validates_then_resolves_witness :
  config.NewConfig sampleRuntime (fun _ => Ok (namedConfig ""))
    (fun _ _ _ _ => sampleResolver [] ["t-1"]) "/etc/garm/cloudstack.toml"
  = Ok (config.SetResolvedIDs (namedConfig "") "zone-id" "offering-id" "t-1" "") /\
  config.Validate
    (config.SetResolvedIDs (namedConfig "") "zone-id" "offering-id" "t-1" "") = None.
Proof.
  split; [reflexivity|].
  destruct (proj2 (NewConfig_validates_then_resolves sampleRuntime
                     (fun _ => Ok (namedConfig ""))
                     (fun _ _ _ _ => sampleResolver [] ["t-1"])
                     "/etc/garm/cloudstack.toml")
              (config.SetResolvedIDs (namedConfig "") "zone-id" "offering-id" "t-1" "")
              eq_refl)
    as [cfg [_ [_ [_ [_ Hvalid]]]]].
  exact Hvalid.
Defined.

End ConfigurationLoading.

(** ** Identifier detection, continued *)

Section IdentifierCase.

Import gostd.
Import config.

Lemma length_mapBytes (f : ascii -> ascii) (s : string) :
  String.length (mapBytes f s) = String.length s.
Proof. induction s; simpl; congruence. Qed.

Lemma get_mapBytes (f : ascii -> ascii) (s : string) (i : nat) :
  String.get i (mapBytes f s) = option_map f (String.get i s).
Proof. revert i. induction s as [|c s IH]; intros [|i]; simpl; auto. Qed.

Lemma lowerByte_hyphen (c : ascii) : lowerByte c = "-"%char <-> c = "-"%char.
Proof.
  destruct c as [[] [] [] [] [] [] [] []]; vm_compute; split; congruence.
Qed.

Lemma lowerByte_hex (c : ascii) : isHexDigit (lowerByte c) = isHexDigit c.
Proof. destruct c as [[] [] [] [] [] [] [] []]; reflexivity. Qed.

Lemma uuid_char_is_ascii (c : ascii) :
  c = "-"%char \/ isHexDigit c = true -> (N_of_ascii c <? 128)%N = true.
Proof.
  destruct c as [[] [] [] [] [] [] [] []]; vm_compute; intros [H | H];
    congruence.
Qed.

(** X6.  Identifier detection does not depend on letter case: a string is
    an identifier exactly when its ASCII lower-casing is one; and every
    identifier is an ASCII string. *)
Theorem isUUID_ignores_letter_case (s : string) :
  isUUID (mapBytes lowerByte s) = isUUID s /\
  (isUUID s = true -> isASCII s = true).
Proof.
  split.
  - apply eq_iff_eq_true. rewrite !isUUID_pointwise, length_mapBytes.
    split; intros [Hlen H]; split; try assumption; intros i c Hget.
    + specialize (H i (lowerByte c)). rewrite get_mapBytes, Hget in H.
      specialize (H eq_refl). destruct (isHyphenPosition i).
      * apply lowerByte_hyphen. exact H.
      * rewrite <- lowerByte_hex. exact H.
    + rewrite get_mapBytes in Hget.
      destruct (String.get i s) as [d|] eqn:Hd; [|discriminate].
      injection Hget as <-. specialize (H i d Hd).
      destruct (isHyphenPosition i).
      * apply lowerByte_hyphen. exact H.
      * rewrite lowerByte_hex. exact H.
  - intros Hid. apply isUUID_pointwise in Hid. destruct Hid as [_ H].
    unfold isASCII. apply forallb_forall. intros c Hin.
    apply In_nth_error in Hin. destruct Hin as [i Hi].
    rewrite <- get_nth_error in Hi. specialize (H i c Hi).
    apply uuid_char_is_ascii. destruct (isHyphenPosition i); auto.
Qed.

Lemma isUUID_ignores_letter_case_witness :
  isASCII "D9A16F24-9E15-43A7-AFD0-BAA96A7E5EF3" = true /\
  isUUID (mapBytes lowerByte "D9A16F24-9E15-43A7-AFD0-BAA96A7E5EF3") = true.
Proof.
  split.
  - apply (proj2 (isUUID_ignores_letter_case "D9A16F24-9E15-43A7-AFD0-BAA96A7E5EF3")).
    reflexivity.
  - rewrite (proj1 (isUUID_ignores_letter_case "D9A16F24-9E15-43A7-AFD0-BAA96A7E5EF3")).
    reflexivity.
Defined.

End IdentifierCase.

(** ** Building the runner spec *)

Section RunnerSpecFacts.

Import gostd.
Import spec.

Lemma spec_validate_iff (r : RunnerSpec) :
  Validate r = None <->
  ZoneID r <> "" /\ ServiceOfferingID r <> "" /\ TemplateID r <> "" /\
  params.Name (BootstrapParams r) <> "".
Proof.
  unfold Validate.
  destruct (String.eqb_spec (ZoneID r) "") as [H1|H1].
  { split; [discriminate | intros [H _]; contradiction]. }
  destruct (String.eqb_spec (ServiceOfferingID r) "") as [H2|H2].
  { split; [discriminate | intros [_ [H _]]; contradiction]. }
  destruct (String.eqb_spec (TemplateID r) "") as [H3|H3].
  { split; [discriminate | intros [_ [_ [H _]]]; contradiction]. }
  destruct (String.eqb_spec (params.Name (BootstrapParams r)) "") as [H4|H4].
  { split; [discriminate | intros [_ [_ [_ H]]]; contradiction]. }
  split; [intros _; repeat split; assumption | reflexivity].
Qed.

Lemma overrideString_keeps_nonempty (base : string) (p : option string) :
  base <> "" -> overrideString base p <> "".
Proof.
  intros Hbase. unfold overrideString. destruct p as [v|]; [|exact Hbase].
  destruct (String.eqb_spec v ""); assumption.
Qed.

Lemma overrideString_twice (base : string) (p : option string) :
  overrideString (overrideString base p) p = overrideString base p.
Proof.
  unfold overrideString. destruct p as [v|]; [|reflexivity].
  destruct (v =? "")%string; reflexivity.
Qed.

(** X7.  Merging overrides never invalidates a spec: if the base spec passes
    [Validate], so does the merged spec, for any override document; the
    zone, offering and template of the merged spec are non-empty. *)
Theorem merge_preserves_validity (r : RunnerSpec) (extra : option extraSpecs) :
  Validate r = None ->
  Validate (MergeExtraSpecs r extra) = None /\
  ZoneID (MergeExtraSpecs r extra) <> "" /\
  ServiceOfferingID (MergeExtraSpecs r extra) <> "" /\
  TemplateID (MergeExtraSpecs r extra) <> "".
Proof.
  intros Hvalid.
  assert (Hmerged : Validate (MergeExtraSpecs r extra) = None).
  { apply spec_validate_iff in Hvalid. destruct Hvalid as [Hz [Ho [Ht Hn]]].
    apply spec_validate_iff. destruct extra as [extra|];
      [|repeat split; assumption].
    cbn [MergeExtraSpecs ZoneID ServiceOfferingID TemplateID BootstrapParams].
    repeat split; try apply overrideString_keeps_nonempty; assumption. }
  split; [exact Hmerged|].
  apply spec_validate_iff in Hmerged. destruct Hmerged as [Hz [Ho [Ht _]]].
  repeat split; assumption.
Qed.

Lemma merge_preserves_validity_witness :
  Validate (MergeExtraSpecs (sampleSpec "T" false) (Some (withTemplateID ""))) = None.
Proof.
  apply (merge_preserves_validity (sampleSpec "T" false) (Some (withTemplateID ""))).
  reflexivity.
Defined.

(** X8.  [MergeExtraSpecs] is an idempotent overlay: with no overrides (a
    nil or an empty document) it returns the spec unchanged; merging the
    same document a second time changes nothing; and it never touches the
    extra packages, the tools, the bootstrap request or the controller ID. *)
Theorem merge_is_idempotent_overlay (r : RunnerSpec) (extra : option extraSpecs) :
  MergeExtraSpecs r None = r /\
  MergeExtraSpecs r (Some emptyExtraSpecs) = r /\
  MergeExtraSpecs (MergeExtraSpecs r extra) extra = MergeExtraSpecs r extra /\
  ExtraPackages (MergeExtraSpecs r extra) = ExtraPackages r /\
  Tools (MergeExtraSpecs r extra) = Tools r /\
  BootstrapParams (MergeExtraSpecs r extra) = BootstrapParams r /\
  ControllerID (MergeExtraSpecs r extra) = ControllerID r.
Proof.
  split; [reflexivity|]. split; [destruct r; reflexivity|].
  split; [|destruct extra; repeat split].
  destruct extra as [extra|]; [|reflexivity].
  unfold MergeExtraSpecs.
  cbn [ZoneID ServiceOfferingID TemplateID NetworkIDs SSHKeyName ProjectID
         DisableUpdates EnableBootDebug ExtraPackages Tools BootstrapParams
         ControllerID].
  rewrite !overrideString_twice.
  destruct (eNetworkIDs extra), (eDisableUpdates extra), (eEnableBootDebug extra);
    reflexivity.
Qed.

(** X9.  A spec returned by [GetRunnerSpecFromBootstrapParams] passes
    [Validate]: its zone, offering, template and bootstrap name are
    non-empty.  It is the base spec of the configuration with the decoded
    overrides merged, carrying the fetched tools, the request and the
    controller ID it was given. *)
Theorem runner_spec_is_valid
  (D : Deps) (cfg : config.Config) (data : params.BootstrapInstance)
  (controllerID : string) (rs : RunnerSpec) :
  GetRunnerSpecFromBootstrapParams D cfg data controllerID = Ok rs ->
  Validate rs = None /\
  ZoneID rs <> "" /\ ServiceOfferingID rs <> "" /\ TemplateID rs <> "" /\
  params.Name data <> "" /\
  exists tools extra,
    DefaultToolFetch D (params.BOSType data) (params.BOSArch data) (params.Tools data)
    = Ok tools /\
    newExtraSpecsFromBootstrapData D data = Ok extra /\
    rs = MergeExtraSpecs
           (baseSpec cfg data controllerID tools (eExtraPackages extra)) (Some extra).
Proof.
  unfold GetRunnerSpecFromBootstrapParams. intros H.
  destruct (DefaultToolFetch D _ _ _) as [tools| |] eqn:Htools;
    cbn [onError bind] in H; try discriminate.
  destruct (newExtraSpecsFromBootstrapData D data) as [extra| |] eqn:Hextra;
    cbn [onError bind] in H; try discriminate.
  fold (baseSpec cfg data controllerID tools (eExtraPackages extra)) in H.
  destruct (Validate _) eqn:Hvalid; [discriminate|].
  injection H as <-.
  split; [exact Hvalid|].
  apply spec_validate_iff in Hvalid. destruct Hvalid as [Hz [Ho [Ht Hn]]].
  repeat split; try assumption.
  exists tools, extra. repeat split.
Qed.

Lemma runner_spec_is_valid_witness :
  Validate
    (MergeExtraSpecs (baseSpec sampleConfig testBootstrap "controller-id" "tools" ["pkg1"])
       (Some testOverrides)) = None.
Proof.
  apply (runner_spec_is_valid testDeps sampleConfig testBootstrap "controller-id").
  reflexivity.
Defined.

(** X10.  An empty override document is a no-op and not an error: the
    schema validator and the JSON decoder are not consulted, and when the
    tools are found the spec is the base spec of the configuration if that
    is valid, and the validation error otherwise. *)
Theorem empty_overrides_give_base_spec
  (D : Deps) (cfg : config.Config) (data : params.BootstrapInstance)
  (controllerID : string) (tools : params.RunnerApplicationDownload) :
  params.ExtraSpecs data = [] ->
  DefaultToolFetch D (params.BOSType data) (params.BOSArch data) (params.Tools data)
  = Ok tools ->
  newExtraSpecsFromBootstrapData D data = Ok emptyExtraSpecs /\
  GetRunnerSpecFromBootstrapParams D cfg data controllerID
  = match Validate (baseSpec cfg data controllerID tools []) with
    | None => Ok (baseSpec cfg data controllerID tools [])
    | Some err => Err (Errorf_w (runtime D) "error validating spec: " err)
    end.
Proof.
  intros Hempty Htools.
  assert (Hextra : newExtraSpecsFromBootstrapData D data = Ok emptyExtraSpecs)
    by (unfold newExtraSpecsFromBootstrapData; rewrite Hempty; reflexivity).
  split; [exact Hextra|].
  unfold GetRunnerSpecFromBootstrapParams. rewrite Htools, Hextra. reflexivity.
Qed.

Lemma empty_overrides_give_base_spec_witness :
  GetRunnerSpecFromBootstrapParams sampleDeps sampleConfig sampleBootstrap "c1"
  = Ok (baseSpec sampleConfig sampleBootstrap "c1" "tools" []).
Proof.
  apply (proj2 (empty_overrides_give_base_spec sampleDeps sampleConfig
                  sampleBootstrap "c1" "tools" eq_refl eq_refl)).
Defined.

(** X11.  A failure to fetch the tools is reported as text only: the
    returned error wraps nothing, so [errors.Is] finds no sentinel in it,
    whatever the fetch error was.  A failure to decode the overrides, by
    contrast, stays visible to [errors.Is] through the two wraps. *)
Theorem tool_fetch_failure_is_flattened
  (D : Deps) (cfg : config.Config) (data : params.BootstrapInstance)
  (controllerID : string) (err : error) :
  (DefaultToolFetch D (params.BOSType data) (params.BOSArch data) (params.Tools data)
   = Err err ->
   GetRunnerSpecFromBootstrapParams D cfg data controllerID
   = Err (errorString ("failed to get tools: " ++ Error (runtime D) err)) /\
   forall target,
     errors_Is (errorString ("failed to get tools: " ++ Error (runtime D) err)) target
     = false) /\
  (forall tools,
     DefaultToolFetch D (params.BOSType data) (params.BOSArch data) (params.Tools data)
     = Ok tools ->
     newExtraSpecsFromBootstrapData D data = Err err ->
     exists e,
       GetRunnerSpecFromBootstrapParams D cfg data controllerID = Err e /\
       forall target, errors_Is e target = errors_Is err target).
Proof.
  split.
  - intros Hfetch. unfold GetRunnerSpecFromBootstrapParams. rewrite Hfetch.
    split; [reflexivity|]. intros []; reflexivity.
  - intros tools Hfetch Hextra. unfold GetRunnerSpecFromBootstrapParams.
    rewrite Hfetch, Hextra. cbn [onError bind]. eexists. split; [reflexivity|].
    intros []; reflexivity.
Qed.

Lemma tool_fetch_failure_is_flattened_witness :
  GetRunnerSpecFromBootstrapParams noToolsDeps sampleConfig sampleBootstrap "c1"
  = Err (errorString "failed to get tools: not found").
Proof.
  exact (proj1 (proj1 (tool_fetch_failure_is_flattened noToolsDeps sampleConfig
                         sampleBootstrap "c1" ErrNotFound) eq_refl)).
Defined.

End RunnerSpecFacts.

(** ** The user data, continued *)

Section UserDataFacts.

Import gostd.
Import spec.

(** X12.  For a bootstrap request whose OS type is neither linux nor windows
    [ComposeUserData] fails with the unsupported-OS error naming that type;
    no cloud configuration is rendered and nothing is compressed, whatever
    the dependencies are. *)
Theorem compose_rejects_other_os (D : Deps) (r : RunnerSpec) :
  params.BOSType (BootstrapParams r) <> params.Linux ->
  params.BOSType (BootstrapParams r) <> params.Windows ->
  ComposeUserData D r
  = Err (errorString ("unsupported OS type for cloud config: "
                        ++ params.BOSType (BootstrapParams r))).
Proof.
  intros Hlinux Hwindows. unfold ComposeUserData, renderUserData.
  change (params.BOSType (userDataParams r))
    with (params.BOSType (BootstrapParams r)).
  apply String.eqb_neq in Hlinux. apply String.eqb_neq in Hwindows.
  rewrite Hlinux, Hwindows. reflexivity.
Qed.

Lemma compose_rejects_other_os_witness :
  ComposeUserData sampleDeps freebsdSpec
  = Err (errorString "unsupported OS type for cloud config: freebsd").
Proof.
  apply (compose_rejects_other_os sampleDeps freebsdSpec); discriminate.
Defined.

(** The user-data options of the bootstrap request are not used: the
    update, boot-debug and extra-package settings given to the renderer are
    those of the spec, so two specs that differ only in the options of their
    request compose the same user data. *)
Theorem compose_ignores_request_options
  (D : Deps) (r : RunnerSpec) (opts : params.UserDataOptions) :
  ComposeUserData D (withUserDataOpts r opts) = ComposeUserData D r /\
  params.UserDataOpts (userDataParams (withUserDataOpts r opts))
  = {| params.DisableUpdatesOnBoot := DisableUpdates r;
       params.UDExtraPackages := ExtraPackages r;
       params.UDEnableBootDebug := EnableBootDebug r |}.
Proof. split; reflexivity. Qed.

Lemma encode_is_base64 (v : Z) : isBase64Char (base64.encode v).
Proof.
  unfold isBase64Char, base64.encode.
  destruct (String.get (Z.to_nat v) base64.encodeStd) as [c|] eqn:Hget;
    [left | right; reflexivity].
  rewrite get_nth_error in Hget. apply nth_error_In in Hget. exact Hget.
Qed.

Lemma EncodeToString_alphabet (src : list byte) :
  Forall isBase64Char (list_ascii_of_string (base64.EncodeToString src)).
Proof.
  induction src as [| a | a b | a b c rest IH] using list_ind3;
    cbn [base64.EncodeToString list_ascii_of_string].
  - apply Forall_nil.
  - repeat (apply Forall_cons;
            [first [apply encode_is_base64 | right; reflexivity]|]).
    apply Forall_nil.
  - repeat (apply Forall_cons;
            [first [apply encode_is_base64 | right; reflexivity]|]).
    apply Forall_nil.
  - do 4 (apply Forall_cons; [apply encode_is_base64|]). exact IH.
Qed.

Lemma EncodeToString_length (src : list byte) :
  String.length (base64.EncodeToString src) = 4 * ((List.length src + 2) / 3).
Proof.
  induction src as [| a | a b | a b c rest IH] using list_ind3;
    try reflexivity.
  cbn [base64.EncodeToString String.length List.length]. rewrite IH.
  replace (S (S (S (List.length rest))) + 2) with (List.length rest + 2 + 1 * 3)
    by lia.
  rewrite Nat.div_add by lia. lia.
Qed.

(** X13.  Whatever [ComposeUserData] returns is padded base64: its length is
    a multiple of four and each character is of the alphabet or the padding.
    A payload under the threshold is encoded as it is, for any compression
    library, into four characters per three bytes, at most 21844 in all. *)
Theorem user_data_is_padded_base64 (D : Deps) (r : RunnerSpec) :
  (forall udata,
     ComposeUserData D r = Ok udata ->
     String.length udata mod 4 = 0 /\
     Forall isBase64Char (list_ascii_of_string udata)) /\
  (forall payload,
     renderUserData D r (userDataParams r) = Ok payload ->
     (Z.of_nat (List.length payload) < 16384)%Z ->
     ComposeUserData D r = Ok (base64.EncodeToString payload) /\
     String.length (base64.EncodeToString payload)
     = 4 * ((List.length payload + 2) / 3) /\
     (Z.of_nat (String.length (base64.EncodeToString payload)) <= 21844)%Z).
Proof.
  split.
  - intros udata H. unfold ComposeUserData in H.
    destruct (renderUserData D r (userDataParams r)) as [payload| |];
      cbn [bind] in H; try discriminate.
    destruct (maybeCompressUserdata D payload _) as [stored| |];
      cbn [bind] in H; try discriminate.
    injection H as <-. split; [|apply EncodeToString_alphabet].
    rewrite EncodeToString_length, Nat.mul_comm. apply Nat.Div0.mod_mul.
  - intros payload Hrender Hsmall. split; [|split].
    + unfold ComposeUserData, maybeCompressUserdata. rewrite Hrender.
      cbn [bind]. change compressThreshold with 16384%Z.
      apply Z.ltb_lt in Hsmall. rewrite Hsmall. reflexivity.
    + apply EncodeToString_length.
    + rewrite EncodeToString_length.
      rewrite Nat2Z.inj_mul, Nat2Z.inj_div, Nat2Z.inj_add.
      change (Z.of_nat 4) with 4%Z. change (Z.of_nat 3) with 3%Z.
      change (Z.of_nat 2) with 2%Z.
      Z.div_mod_to_equations. lia.
Qed.

Lemma user_data_is_padded_base64_witness :
  ComposeUserData testDeps (sampleSpec "T" false)
  = Ok (base64.EncodeToString (list_byte_of_string "#cloud-config")) /\
  String.length (base64.EncodeToString (list_byte_of_string "#cloud-config")) = 20.
Proof.
  destruct (proj2 (user_data_is_padded_base64 testDeps (sampleSpec "T" false))
              (list_byte_of_string "#cloud-config") eq_refl)
    as [Hcompose [Hlength _]].
  - reflexivity.
  - split; [exact Hcompose | exact Hlength].
Defined.

End UserDataFacts.

(** ** Converting a VM record *)

Section Conversion.

Import gostd.

Variable R : Runtime.

Lemma tags_set_name (tags : list cs.Tags) (inst : params.ProviderInstance) :
  params.IName (fold_left util.applyTag tags inst)
  = if (params.IName inst =? "")%string then firstNameTag tags
    else params.IName inst.
Proof.
  revert inst. induction tags as [|tag tags IH]; intros inst;
    cbn [fold_left firstNameTag].
  - destruct (String.eqb_spec (params.IName inst) ""); congruence.
  - rewrite IH. unfold util.applyTag.
    destruct (String.eqb_spec (cs.Key tag) "Name") as [Hkey | Hkey].
    + destruct (String.eqb_spec (params.IName inst) "") as [Hname | Hname].
      * cbn [params.setName params.IName andb].
        destruct (String.eqb_spec (cs.Value tag) ""); reflexivity.
      * apply String.eqb_neq in Hname. rewrite Hname. reflexivity.
    + cbn [andb].
      assert (Hsame : params.IName
                (if (cs.Key tag =? "OSType")%string
                 then params.setOSType inst (cs.Value tag)
                 else if (cs.Key tag =? "OSArch")%string
                      then params.setOSArch inst (cs.Value tag) else inst)
              = params.IName inst).
      { destruct (cs.Key tag =? "OSType")%string; [reflexivity|].
        destruct (cs.Key tag =? "OSArch")%string; reflexivity. }
      rewrite Hsame. reflexivity.
Qed.

Lemma tags_set_os (tags : list cs.Tags) (inst : params.ProviderInstance) :
  params.IOSType (fold_left util.applyTag tags inst)
  = lastTagValue "OSType" tags (params.IOSType inst) /\
  params.IOSArch (fold_left util.applyTag tags inst)
  = lastTagValue "OSArch" tags (params.IOSArch inst).
Proof.
  revert inst. induction tags as [|tag tags IH]; intros inst;
    cbn [fold_left lastTagValue]; [split; reflexivity|].
  destruct (IH (util.applyTag inst tag)) as [-> ->].
  unfold util.applyTag.
  destruct (String.eqb_spec (cs.Key tag) "Name") as [Hkey | Hkey].
  - rewrite Hkey. cbn [String.eqb Ascii.eqb Bool.eqb].
    destruct (params.IName inst =? "")%string; split; reflexivity.
  - destruct (String.eqb_spec (cs.Key tag) "OSType") as [Htype | Htype].
    + rewrite Htype. split; reflexivity.
    + destruct (String.eqb_spec (cs.Key tag) "OSArch"); split; reflexivity.
Qed.

(** X14.  The conversion needs a VM with an ID: a nil VM and a VM whose ID
    is empty are refused, each with its own error; every other VM is
    converted, whatever its state and tags, and the provider ID of the
    instance is the ID of the VM. *)
Theorem conversion_needs_an_id :
  util.CloudStackInstanceToParamsInstance R None
  = Err (errorString "nil virtual machine") /\
  forall vm : cs.VirtualMachine,
    (cs.Id vm = "" ->
     util.CloudStackInstanceToParamsInstance R (Some vm)
     = Err (errorString "virtual machine has empty id")) /\
    (cs.Id vm <> "" ->
     exists inst,
       util.CloudStackInstanceToParamsInstance R (Some vm) = Ok inst /\
       params.ProviderID inst = cs.Id vm).
Proof.
  split; [reflexivity|]. intros vm. split.
  - intros Hid. unfold util.CloudStackInstanceToParamsInstance.
    rewrite Hid. reflexivity.
  - intros Hid. destruct (status_of_converted R vm Hid) as [inst [Hconv [Hpid _]]].
    exists inst. split; assumption.
Qed.

(** X15.  The name of the instance is the display name of the VM when it has
    one; otherwise it is the value of the first [Name] tag whose value is
    not empty, and empty when there is no such tag. *)
Theorem instance_name_precedence (vm : cs.VirtualMachine)
  (inst : params.ProviderInstance) :
  util.CloudStackInstanceToParamsInstance R (Some vm) = Ok inst ->
  params.IName inst
  = if (cs.Displayname vm =? "")%string then firstNameTag (cs.VMTags vm)
    else cs.Displayname vm.
Proof.
  unfold util.CloudStackInstanceToParamsInstance. intros H.
  destruct (cs.Id vm =? "")%string; [discriminate|].
  injection H as <-. cbn [params.setStatus params.IName].
  rewrite tags_set_name.
  destruct (String.eqb_spec (cs.Displayname vm) "") as [Hd | Hd].
  - reflexivity.
  - cbn [params.setName params.IName]. apply String.eqb_neq in Hd.
    rewrite Hd. reflexivity.
Qed.

(** X16.  The OS type and the OS architecture of the instance are the values
    of the last [OSType] and the last [OSArch] tag of the VM, and empty when
    the VM has no such tag; the display name and the other tags play no
    part. *)
Theorem instance_os_from_last_tag (vm : cs.VirtualMachine)
  (inst : params.ProviderInstance) :
  util.CloudStackInstanceToParamsInstance R (Some vm) = Ok inst ->
  params.IOSType inst = lastTagValue "OSType" (cs.VMTags vm) "" /\
  params.IOSArch inst = lastTagValue "OSArch" (cs.VMTags vm) "".
Proof.
  unfold util.CloudStackInstanceToParamsInstance. intros H.
  destruct (cs.Id vm =? "")%string; [discriminate|].
  injection H as <-. cbn [params.setStatus params.IOSType params.IOSArch].
  destruct (tags_set_os (cs.VMTags vm)
              (if (cs.Displayname vm =? "")%string
               then {| params.ProviderID := cs.Id vm; params.IName := "";
                       params.IOSType := ""; params.IOSArch := "";
                       params.Status := "" |}
               else params.setName
                      {| params.ProviderID := cs.Id vm; params.IName := "";
                         params.IOSType := ""; params.IOSArch := "";
                         params.Status := "" |} (cs.Displayname vm)))
    as [-> ->].
  destruct (cs.Displayname vm =? "")%string; split; reflexivity.
Qed.

End Conversion.

Section ConversionExamples.

Import gostd.

Lemma conversion_needs_an_id_witness :
  exists inst,
    util.CloudStackInstanceToParamsInstance sampleRuntime (Some retaggedVM) = Ok inst /\
    params.ProviderID inst = "vm-7".
Proof.
  apply (proj2 (proj2 (conversion_needs_an_id sampleRuntime) retaggedVM)).
  discriminate.
Defined.

Lemma instance_name_precedence_witness :
  exists inst,
    util.CloudStackInstanceToParamsInstance sampleRuntime (Some retaggedVM) = Ok inst /\
    params.IName inst = "first".
Proof.
  eexists. split; [reflexivity|].
  apply (instance_name_precedence sampleRuntime retaggedVM). reflexivity.
Defined.

Lemma instance_os_from_last_tag_witness :
  exists inst,
    util.CloudStackInstanceToParamsInstance sampleRuntime (Some retaggedVM) = Ok inst /\
    params.IOSType inst = "linux" /\ params.IOSArch inst = EmptyString.
Proof.
  eexists. split; [reflexivity|].
  apply (instance_os_from_last_tag sampleRuntime retaggedVM). reflexivity.
Defined.

End ConversionExamples.

(** ** The not-found predicate under wrapping *)

Section WrappedErrors.

Import gostd.

Variable R : Runtime.

Lemma append_assoc (a b c : string) : ((a ++ b) ++ c = a ++ (b ++ c))%string.
Proof. induction a; simpl; congruence. Qed.

Lemma mapBytes_app (f : ascii -> ascii) (a b : string) :
  mapBytes f (a ++ b) = (mapBytes f a ++ mapBytes f b)%string.
Proof. induction a; simpl; congruence. Qed.

Lemma isASCII_app (a b : string) :
  isASCII (a ++ b) = (isASCII a && isASCII b)%bool.
Proof. unfold isASCII. rewrite list_ascii_app. apply forallb_app. Qed.

Lemma Contains_after_prefix (a s substr : string) :
  Contains s substr = true -> Contains (a ++ s) substr = true.
Proof.
  rewrite !Contains_iff. intros [before [after ->]].
  exists (a ++ before)%string, after. symmetry. apply append_assoc.
Qed.

(** X17.  Wrapping does not change the verdict of [IsCloudStackNotFoundErr]
    on these errors: an error with an ASCII message that it recognises is
    still recognised after [fmt.Errorf] has put an ASCII prefix before it
    with [%w]; and an error that is the async timeout is still refused after
    any wrap, even one whose prefix contains a not-found phrase. *)
Theorem wrapping_keeps_not_found_verdict (prefix : string) (err : error) :
  (isASCII prefix = true -> isASCII (Error R err) = true ->
   util.IsCloudStackNotFoundErr R (Some err) = true ->
   util.IsCloudStackNotFoundErr R (Some (Errorf_w R prefix err)) = true) /\
  (errors_Is err IsAsyncTimeoutErr = true ->
   util.IsCloudStackNotFoundErr R (Some (Errorf_w R prefix err)) = false).
Proof.
  split.
  - intros Hp Hm Hnf. unfold util.IsCloudStackNotFoundErr in *.
    cbn [Errorf_w errors_Is Error].
    destruct (errors_Is err IsAsyncTimeoutErr); [discriminate|].
    unfold ToLower in *. rewrite isASCII_app, Hp, Hm. rewrite Hm in Hnf.
    cbn [andb]. rewrite mapBytes_app.
    apply orb_true_iff in Hnf. apply orb_true_iff.
    destruct Hnf as [H | H]; [left | right]; apply Contains_after_prefix; exact H.
  - intros Ht. unfold util.IsCloudStackNotFoundErr. cbn [Errorf_w errors_Is].
    rewrite Ht. reflexivity.
Qed.

End WrappedErrors.

Section WrappedErrorsExamples.

Import gostd.

Lemma wrapping_keeps_not_found_verdict_witness :
  util.IsCloudStackNotFoundErr sampleRuntime
    (Some (Errorf_w sampleRuntime "failed to stop instance: "
             (errorString "No match found for virtualmachine"))) = true /\
  util.IsCloudStackNotFoundErr sampleRuntime
    (Some (Errorf_w sampleRuntime "no match found for job: " AsyncTimeoutErr)) = false.
Proof.
  split.
  - apply (proj1 (wrapping_keeps_not_found_verdict sampleRuntime
                    "failed to stop instance: "
                    (errorString "No match found for virtualmachine")));
      reflexivity.
  - apply (proj2 (wrapping_keeps_not_found_verdict sampleRuntime
                    "no match found for job: " AsyncTimeoutErr)).
    reflexivity.
Defined.

End WrappedErrorsExamples.

(** ** Looking instances up *)

Section Lookup.

Import gostd.

Variable R : Runtime.

Lemma trimLeft_blank (s : string) : isBlank s = true -> trimLeft s = EmptyString.
Proof.
  unfold isBlank. induction s as [|c s IH]; simpl; [reflexivity|].
  intros H. apply andb_true_iff in H. destruct H as [Hc Hs].
  rewrite Hc. apply IH. exact Hs.
Qed.

Lemma TrimSpace_blank (s : string) :
  isASCII s = true -> isBlank s = true -> TrimSpace R s = EmptyString.
Proof.
  intros Ha Hb. unfold TrimSpace. rewrite Ha, (trimLeft_blank s Hb). reflexivity.
Qed.

Lemma FindOneInstance_blank (c : client.CloudStackCli) (controllerID identifier : string) :
  TrimSpace R identifier = "" ->
  client.FindOneInstance R c controllerID identifier
  = ([], Err (errorString "empty identifier")).
Proof.
  intros H. unfold client.FindOneInstance. rewrite H. reflexivity.
Qed.

(** X18.  An identifier that is empty or made of ASCII white space only is
    refused before the platform is asked anything: the lookup, and with it
    start, stop, destroy and get-instance, return the empty-identifier
    error and send no request.  Stop and destroy do not take it for a
    missing instance. *)
Theorem blank_identifier_is_refused
  (p : provider.CloudStackProvider) (identifier : string) :
  isASCII identifier = true -> isBlank identifier = true ->
  (forall controllerID,
     client.FindOneInstance R (provider.cli p) controllerID identifier
     = ([], Err (errorString "empty identifier"))) /\
  client.StartInstance R (provider.cli p) identifier
  = ([], Err (errorString "empty identifier")) /\
  (forall force,
     client.StopInstance R (provider.cli p) identifier force
     = ([], Err (errorString "empty identifier"))) /\
  client.DestroyInstance R (provider.cli p) identifier
  = ([], Err (errorString "empty identifier")) /\
  provider.DeleteInstance R p identifier
  = ([], Err (Errorf_w R "failed to delete instance: "
                (errorString "empty identifier"))) /\
  provider.GetInstance R p identifier
  = ([], Err (Errorf_w R "failed to get VM details: "
                (errorString "empty identifier"))).
Proof.
  intros Ha Hb. pose proof (TrimSpace_blank identifier Ha Hb) as Hblank.
  split; [intros cid; apply FindOneInstance_blank; exact Hblank|].
  split; [rewrite StartInstance_cases; cbv zeta;
          rewrite FindOneInstance_blank by exact Hblank; reflexivity|].
  split; [intros force; rewrite StopInstance_cases; cbv zeta;
          rewrite FindOneInstance_blank by exact Hblank; reflexivity|].
  split; [rewrite DestroyInstance_cases; cbv zeta;
          rewrite FindOneInstance_blank by exact Hblank; reflexivity|].
  split.
  - unfold provider.DeleteInstance. rewrite DestroyInstance_cases. cbv zeta.
    rewrite FindOneInstance_blank by exact Hblank. reflexivity.
  - unfold provider.GetInstance.
    rewrite FindOneInstance_blank by exact Hblank. reflexivity.
Qed.

(** X19.  A lookup by ID does not depend on the controller: for an
    identifier that is an ID, [FindOneInstance] does the same for every
    controller ID as for none.  A lookup by name for a controller sends the
    by-name request with the controller tag as its only tag filter. *)
Theorem lookup_by_id_ignores_controller
  (c : client.CloudStackCli) (controllerID identifier : string) :
  (cs.IsID (client.client c) identifier = true ->
   client.FindOneInstance R c controllerID identifier
   = client.FindOneInstance R c "" identifier) /\
  (cs.IsID (client.client c) identifier = false ->
   TrimSpace R identifier <> "" -> controllerID <> "" ->
   fst (client.FindOneInstance R c controllerID identifier)
   = [cs.ReqListVirtualMachines (byNameTaggedRequest c controllerID identifier)] /\
   cs.lvTags (byNameTaggedRequest c controllerID identifier)
   = Some [("GARM_CONTROLLER_ID", controllerID)]).
Proof.
  split.
  - intros Hid. unfold client.FindOneInstance. rewrite Hid. reflexivity.
  - intros Hname Hblank Hcid. split; [|reflexivity].
    unfold client.FindOneInstance.
    destruct (String.eqb_spec (TrimSpace R identifier) ""); [contradiction|].
    rewrite Hname. apply String.eqb_neq in Hcid. rewrite Hcid.
    fold (byNameRequest c identifier).
    fold (byNameTaggedRequest c controllerID identifier).
    unfold client.listVirtualMachines, cs.andThen, cs.orElse, cs.ret, cs.send.
    cbn [fst snd].
    destruct (cs.ListVirtualMachines (client.client c) _) as [resp| |];
      cbn [fst snd app]; try reflexivity.
    destruct (cs.Count resp =? 0)%Z; [reflexivity|].
    destruct (cs.Count resp >? 1)%Z; reflexivity.
Qed.

Lemma FindOneInstance_requests (c : client.CloudStackCli)
  (controllerID identifier : string) :
  fst (client.FindOneInstance R c controllerID identifier) = [] \/
  exists p, fst (client.FindOneInstance R c controllerID identifier)
            = [cs.ReqListVirtualMachines p].
Proof.
  unfold client.FindOneInstance.
  destruct (TrimSpace R identifier =? "")%string; [left; reflexivity|].
  right. unfold client.listVirtualMachines, cs.andThen, cs.orElse, cs.ret, cs.send.
  destruct (cs.IsID (client.client c) identifier); cbn [fst snd];
    eexists;
    (destruct (cs.ListVirtualMachines (client.client c) _) as [resp| |];
     cbn [fst snd app]; try reflexivity;
     destruct (cs.Count resp =? 0)%Z; [reflexivity|];
     try (destruct (cs.Count resp >? 1)%Z); reflexivity).
Qed.

Lemma ListInstancesByPool_cases (c : client.CloudStackCli) (controllerID poolID : string) :
  client.ListInstancesByPool R c controllerID poolID
  = ([cs.ReqListVirtualMachines (poolRequest c controllerID poolID)],
     match cs.ListVirtualMachines (client.client c) (poolRequest c controllerID poolID) with
     | Ok resp => Ok (filter (client.keepListed R) (cs.VirtualMachines resp))
     | Err err => Err (Errorf_w R "failed to list instances: " err)
     | Panic => Panic
     end).
Proof.
  unfold client.ListInstancesByPool. fold (poolRequest c controllerID poolID).
  unfold client.listVirtualMachines, cs.andThen, cs.orElse, cs.ret, cs.send.
  cbn [fst snd].
  destruct (cs.ListVirtualMachines (client.client c) _); reflexivity.
Qed.

(** X20.  The read operations only read: the lookup, the listing by pool,
    get-instance and list-instances each send at most one request, and it is
    a list request. *)
Theorem read_operations_only_list
  (p : provider.CloudStackProvider) (controllerID identifier poolID : string) :
  let logs :=
    [fst (client.FindOneInstance R (provider.cli p) controllerID identifier);
     fst (client.ListInstancesByPool R (provider.cli p) controllerID poolID);
     fst (provider.GetInstance R p identifier);
     fst (provider.ListInstances R p poolID)] in
  forall log, In log logs ->
    List.length log <= 1 /\ forallb isListRequest log = true.
Proof.
  assert (Hfind : forall cid,
            List.length (fst (client.FindOneInstance R (provider.cli p) cid identifier)) <= 1 /\
            forallb isListRequest
              (fst (client.FindOneInstance R (provider.cli p) cid identifier)) = true).
  { intros cid.
    destruct (FindOneInstance_requests (provider.cli p) cid identifier)
      as [-> | [q ->]]; split; simpl; auto. }
  cbv zeta. intros log [<- | [<- | [<- | [<- | []]]]].
  - apply Hfind.
  - rewrite ListInstancesByPool_cases. split; simpl; auto.
  - unfold provider.GetInstance, cs.andThen, cs.orElse, cs.ret.
    specialize (Hfind (provider.controllerID p)).
    destruct (client.FindOneInstance R (provider.cli p) (provider.controllerID p)
                identifier) as [log [vm | err |]]; cbn [fst snd] in *.
    + rewrite !app_nil_r. exact Hfind.
    + destruct (errors_Is err IsErrNotFound); cbn [fst snd];
        rewrite ?app_nil_r; exact Hfind.
    + exact Hfind.
  - unfold provider.ListInstances, cs.andThen, cs.orElse, cs.ret.
    rewrite ListInstancesByPool_cases. cbn [fst snd].
    destruct (cs.ListVirtualMachines (client.client (provider.cli p)) _);
      cbn [fst snd app]; split; simpl; auto.
Qed.

(** X21.  Start, stop and destroy act only on a machine their lookup found,
    and on that machine: after the requests of the lookup they send one
    request, carrying the ID of the VM found, and when the lookup found
    nothing or failed they send none. *)
Theorem actions_target_the_found_vm
  (c : client.CloudStackCli) (identifier : string) (force : bool) :
  let find := client.FindOneInstance R c "" identifier in
  fst (client.StartInstance R c identifier)
  = fst find ++ actionAfter cs.ReqStartVirtualMachine (snd find) /\
  fst (client.StopInstance R c identifier force)
  = fst find ++ actionAfter (fun id => cs.ReqStopVirtualMachine id force) (snd find) /\
  fst (client.DestroyInstance R c identifier)
  = fst find ++ actionAfter cs.ReqDestroyVirtualMachine (snd find).
Proof.
  cbv zeta. rewrite StartInstance_cases, StopInstance_cases, DestroyInstance_cases.
  cbv zeta.
  destruct (client.FindOneInstance R c "" identifier) as [log [[vm|] | err |]];
    cbn [fst snd actionAfter]; rewrite ?app_nil_r; repeat split; reflexivity.
Qed.

End Lookup.

Section LookupExamples.

Import gostd.

Lemma blank_identifier_is_refused_witness :
  provider.DeleteInstance sampleRuntime (sampleProvider [Some taggedVM] (Ok tt)) "  "
  = ([], Err (Errorf_w sampleRuntime "failed to delete instance: "
                (errorString "empty identifier"))).
Proof.
  apply (blank_identifier_is_refused sampleRuntime
           (sampleProvider [Some taggedVM] (Ok tt)) "  "); reflexivity.
Defined.

Lemma lookup_by_id_ignores_controller_witness :
  client.FindOneInstance sampleRuntime (sampleCli [Some taggedVM] (Ok tt)) "c1"
    "d9a16f24-9e15-43a7-afd0-baa96a7e5ef3"
  = client.FindOneInstance sampleRuntime (sampleCli [Some taggedVM] (Ok tt)) ""
      "d9a16f24-9e15-43a7-afd0-baa96a7e5ef3" /\
  fst (client.FindOneInstance sampleRuntime (sampleCli [Some taggedVM] (Ok tt)) "c1"
         "vm-name")
  = [cs.ReqListVirtualMachines
       (byNameTaggedRequest (sampleCli [Some taggedVM] (Ok tt)) "c1" "vm-name")].
Proof.
  split.
  - apply (proj1 (lookup_by_id_ignores_controller sampleRuntime
                    (sampleCli [Some taggedVM] (Ok tt)) "c1"
                    "d9a16f24-9e15-43a7-afd0-baa96a7e5ef3")).
    reflexivity.
  - apply (proj2 (lookup_by_id_ignores_controller sampleRuntime
                    (sampleCli [Some taggedVM] (Ok tt)) "c1" "vm-name"));
      [reflexivity | discriminate | discriminate].
Defined.

Lemma read_operations_only_list_witness :
  List.length
    (fst (provider.GetInstance sampleRuntime
            (sampleProvider [Some taggedVM] (Ok tt)) "vm-name")) <= 1 /\
  forallb isListRequest
    (fst (provider.GetInstance sampleRuntime
            (sampleProvider [Some taggedVM] (Ok tt)) "vm-name")) = true.
Proof.
  apply (read_operations_only_list sampleRuntime
           (sampleProvider [Some taggedVM] (Ok tt)) "c1" "vm-name" "p1").
  right. right. left. reflexivity.
Defined.

End LookupExamples.

(** ** Listing the instances of a pool *)

Section Listing.

Import gostd.

Variable R : Runtime.

Lemma convertAll_converts (vms : list (option cs.VirtualMachine))
  (insts : list params.ProviderInstance) :
  provider.convertAll R vms = Ok insts ->
  Forall2 (fun vmo inst => util.CloudStackInstanceToParamsInstance R vmo = Ok inst)
    vms insts.
Proof.
  revert insts. induction vms as [|vmo vms IH]; intros insts H;
    cbn [provider.convertAll] in H.
  - injection H as <-. constructor.
  - destruct (util.CloudStackInstanceToParamsInstance R vmo) as [inst| |] eqn:Hc;
      cbn [onError bind] in H; try discriminate.
    destruct (provider.convertAll R vms) as [rest| |]; cbn [bind] in H;
      try discriminate.
    injection H as <-. constructor; [exact Hc | apply IH; reflexivity].
Qed.

Lemma conversion_does_not_panic (vmo : option cs.VirtualMachine) :
  util.CloudStackInstanceToParamsInstance R vmo <> Panic.
Proof.
  unfold util.CloudStackInstanceToParamsInstance.
  destruct vmo as [vm|]; [|discriminate].
  destruct (cs.Id vm =? "")%string; discriminate.
Qed.

Lemma convertAll_fails (vms : list (option cs.VirtualMachine))
  (vmo : option cs.VirtualMachine) (err : error) :
  In vmo vms ->
  util.CloudStackInstanceToParamsInstance R vmo = Err err ->
  exists err', provider.convertAll R vms = Err err'.
Proof.
  intros Hin Hc. induction vms as [|v vms IH]; [contradiction|].
  cbn [provider.convertAll].
  destruct (util.CloudStackInstanceToParamsInstance R v) as [inst | e |] eqn:Hv;
    cbn [onError bind].
  - destruct Hin as [-> | Hin]; [congruence|].
    destruct (IH Hin) as [err' ->]. cbn [bind]. eexists. reflexivity.
  - eexists. reflexivity.
  - exfalso. exact (conversion_does_not_panic v Hv).
Qed.

Lemma converted_has_id (vmo : option cs.VirtualMachine)
  (inst : params.ProviderInstance) :
  util.CloudStackInstanceToParamsInstance R vmo = Ok inst ->
  exists vm, vmo = Some vm /\ cs.Id vm <> "" /\ params.ProviderID inst = cs.Id vm.
Proof.
  intros H. destruct vmo as [vm|]; [|discriminate]. exists vm.
  destruct (String.eqb_spec (cs.Id vm) "") as [Hid | Hid].
  - unfold util.CloudStackInstanceToParamsInstance in H. rewrite Hid in H.
    discriminate.
  - destruct (status_of_converted R vm Hid) as [inst' [Hconv [Hpid _]]].
    rewrite Hconv in H. injection H as <-. repeat split; assumption.
Qed.

Lemma poolRequest_filters (c : client.CloudStackCli) (controllerID poolID : string) :
  cs.lvTags (poolRequest c controllerID poolID)
  = Some [("GARM_CONTROLLER_ID", controllerID); ("GARM_POOL_ID", poolID)] /\
  cs.lvListall (poolRequest c controllerID poolID) = Some true /\
  cs.lvId (poolRequest c controllerID poolID) = None /\
  cs.lvName (poolRequest c controllerID poolID) = None.
Proof.
  unfold poolRequest, client.scopeToProject.
  destruct (config.ProjectID (client.cfg c) =? "")%string; repeat split.
Qed.

(** X22.  [ListInstancesByPool] sends one list request, filtered by the
    controller tag and the pool tag and by nothing else but the project.
    Of the machines the platform lists it returns, in their order, those
    that are not nil and whose lower-cased state is neither destroyed nor
    expunging; so none of the returned machines is in one of these two
    states, in any letter case. *)
Theorem pool_listing_skips_destroyed
  (c : client.CloudStackCli) (controllerID poolID : string) :
  fst (client.ListInstancesByPool R c controllerID poolID)
  = [cs.ReqListVirtualMachines (poolRequest c controllerID poolID)] /\
  cs.lvTags (poolRequest c controllerID poolID)
  = Some [("GARM_CONTROLLER_ID", controllerID); ("GARM_POOL_ID", poolID)] /\
  cs.lvId (poolRequest c controllerID poolID) = None /\
  cs.lvName (poolRequest c controllerID poolID) = None /\
  forall resp,
    cs.ListVirtualMachines (client.client c) (poolRequest c controllerID poolID)
    = Ok resp ->
    snd (client.ListInstancesByPool R c controllerID poolID)
    = Ok (filter (client.keepListed R) (cs.VirtualMachines resp)) /\
    (forall vmo,
       In vmo (filter (client.keepListed R) (cs.VirtualMachines resp)) <->
       In vmo (cs.VirtualMachines resp) /\
       exists vm, vmo = Some vm /\
                  ToLower R (cs.State vm) <> "destroyed" /\
                  ToLower R (cs.State vm) <> "expunging") /\
    (forall vm,
       In (Some vm) (filter (client.keepListed R) (cs.VirtualMachines resp)) ->
       anyCase (cs.State vm) "destroyed" = false /\
       anyCase (cs.State vm) "expunging" = false).
Proof.
  destruct (poolRequest_filters c controllerID poolID) as [Htags [_ [Hid Hname]]].
  rewrite ListInstancesByPool_cases. cbn [fst snd].
  split; [reflexivity|]. split; [exact Htags|]. split; [exact Hid|].
  split; [exact Hname|].
  intros resp Hlist. rewrite Hlist. split; [reflexivity|].
  assert (Hkeep : forall vmo,
            client.keepListed R vmo = true <->
            exists vm, vmo = Some vm /\
                       ToLower R (cs.State vm) <> "destroyed" /\
                       ToLower R (cs.State vm) <> "expunging").
  { intros [vm|]; cbn [client.keepListed].
    - rewrite negb_true_iff, orb_false_iff, !String.eqb_neq. split.
      + intros [H1 H2]. exists vm. repeat split; assumption.
      + intros [vm' [[= <-] [H1 H2]]]. split; assumption.
    - split; [discriminate | intros [vm [Hvm _]]; discriminate]. }
  split.
  - intros vmo. rewrite filter_In, Hkeep. reflexivity.
  - intros vm Hin. apply filter_In in Hin. destruct Hin as [_ Hk].
    apply Hkeep in Hk. destruct Hk as [vm' [[= <-] [H1 H2]]].
    split.
    + destruct (anyCase (cs.State vm) "destroyed") eqn:Hany; [|reflexivity].
      exfalso. apply H1.
      rewrite anyCase_ToLower_ascii in Hany by reflexivity.
      apply andb_true_iff in Hany. destruct Hany as [Ha He].
      unfold ToLower. rewrite Ha. apply String.eqb_eq. exact He.
    + destruct (anyCase (cs.State vm) "expunging") eqn:Hany; [|reflexivity].
      exfalso. apply H2.
      rewrite anyCase_ToLower_ascii in Hany by reflexivity.
      apply andb_true_iff in Hany. destruct Hany as [Ha He].
      unfold ToLower. rewrite Ha. apply String.eqb_eq. exact He.
Qed.

(** X23.  [ListInstances] converts all the machines of the pool or none:
    when it succeeds, its instances are the conversions of the listed
    machines, one for one and in order, each with the ID of its machine;
    and a single listed machine with an empty ID makes the whole listing
    fail. *)
Theorem list_instances_all_or_nothing
  (p : provider.CloudStackProvider) (poolID : string) :
  (forall insts,
     snd (provider.ListInstances R p poolID) = Ok insts ->
     exists vms,
       snd (client.ListInstancesByPool R (provider.cli p) (provider.controllerID p)
              poolID) = Ok vms /\
       Forall2 (fun vmo inst =>
                  exists vm, vmo = Some vm /\ cs.Id vm <> "" /\
                             util.CloudStackInstanceToParamsInstance R vmo = Ok inst /\
                             params.ProviderID inst = cs.Id vm)
         vms insts) /\
  (forall vms vm,
     snd (client.ListInstancesByPool R (provider.cli p) (provider.controllerID p)
            poolID) = Ok vms ->
     In (Some vm) vms -> cs.Id vm = "" ->
     exists err, snd (provider.ListInstances R p poolID) = Err err).
Proof.
  unfold provider.ListInstances, cs.andThen, cs.orElse, cs.ret.
  destruct (client.ListInstancesByPool R (provider.cli p) (provider.controllerID p)
              poolID) as [log [vms | err |]]; cbn [fst snd]; split.
  - intros insts H. exists vms. split; [reflexivity|].
    apply convertAll_converts in H.
    induction H as [|vmo inst vms' insts' Hc _ IH]; constructor; [|exact IH].
    destruct (converted_has_id vmo inst Hc) as [vm [Hvm [Hid Hpid]]].
    exists vm. repeat split; assumption.
  - intros vms' vm [= <-] Hin Hid.
    apply (convertAll_fails vms (Some vm)
             (errorString "virtual machine has empty id") Hin).
    unfold util.CloudStackInstanceToParamsInstance. rewrite Hid. reflexivity.
  - discriminate.
  - discriminate.
  - discriminate.
  - discriminate.
Qed.

End Listing.

Section ListingExamples.

Import gostd.

Lemma pool_listing_skips_destroyed_witness :
  snd (client.ListInstancesByPool sampleRuntime
         (sampleCli [Some taggedVM; None; Some destroyedVM; Some twinVM] (Ok tt))
         "c1" "p1")
  = Ok [Some taggedVM; Some twinVM].
Proof.
  apply (proj2 (proj2 (proj2 (proj2
           (pool_listing_skips_destroyed sampleRuntime
              (sampleCli [Some taggedVM; None; Some destroyedVM; Some twinVM] (Ok tt))
              "c1" "p1"))))
           {| cs.Count := 4;
              cs.VirtualMachines :=
                [Some taggedVM; None; Some destroyedVM; Some twinVM] |}).
  reflexivity.
Defined.

Lemma list_instances_all_or_nothing_witness :
  exists err,
    snd (provider.ListInstances sampleRuntime
           (sampleProvider [Some taggedVM; Some namelessVM] (Ok tt)) "p1")
    = Err err.
Proof.
  apply (proj2 (list_instances_all_or_nothing sampleRuntime
                  (sampleProvider [Some taggedVM; Some namelessVM] (Ok tt)) "p1")
           [Some taggedVM; Some namelessVM] namelessVM).
  - reflexivity.
  - right. left. reflexivity.
  - reflexivity.
Defined.

End ListingExamples.

(** ** Creating an instance *)

Section Creation.

Import gostd.

Variable D : spec.Deps.

(** What [CreateRunningInstance] does once the user data is composed, by the
    answers of the platform. *)
Lemma CreateRunningInstance_cases (c : client.CloudStackCli) (rs : spec.RunnerSpec)
  (udata : string) :
  spec.ComposeUserData D rs = Ok udata ->
  client.CreateRunningInstance D c (Some rs)
  = match cs.DeployVirtualMachine (client.client c) (deployRequest rs udata) with
    | Err err =>
        ([cs.ReqDeployVirtualMachine (deployRequest rs udata)],
         Err (Errorf_w (spec.runtime D) "failed to deploy virtual machine: " err))
    | Panic => ([cs.ReqDeployVirtualMachine (deployRequest rs udata)], Panic)
    | Ok id =>
        if (id =? "")%string then
          ([cs.ReqDeployVirtualMachine (deployRequest rs udata)],
           Err (errorString "empty VM id in deploy response"))
        else
          ([cs.ReqDeployVirtualMachine (deployRequest rs udata);
            cs.ReqCreateTags [id] "UserVm" (creationTags rs)],
           match cs.CreateTags (client.client c) [id] "UserVm" (creationTags rs) with
           | Ok _ => Ok id
           | Err err => Err (Errorf_w (spec.runtime D) "failed to tag VM: " err)
           | Panic => Panic
           end)
    end.
Proof.
  intros Hudata.
  unfold client.CreateRunningInstance, cs.andThen, cs.orElse, cs.ret, cs.send.
  rewrite Hudata. cbn [onError fst snd app]. fold (deployRequest rs udata).
  destruct (cs.DeployVirtualMachine (client.client c) (deployRequest rs udata))
    as [id | err |]; cbn [fst snd]; try reflexivity.
  destruct (id =? "")%string; cbn [fst snd app]; [reflexivity|].
  fold (creationTags rs).
  destruct (cs.CreateTags (client.client c) [id] "UserVm" (creationTags rs))
    as [[] | err |]; reflexivity.
Qed.

(** X24.  [CreateRunningInstance] sends nothing for a nil spec or when the
    user data cannot be composed.  A deploy answer with an empty ID is an
    error and no tags are requested.  When the tagging of a deployed VM
    fails, the error is returned and the deploy and the tag request are the
    only requests sent: the VM is not destroyed. *)
Theorem create_failure_modes (c : client.CloudStackCli) (rs : spec.RunnerSpec) :
  client.CreateRunningInstance D c None
  = ([], Err (errorString "invalid nil runner spec")) /\
  (forall err,
     spec.ComposeUserData D rs = Err err ->
     client.CreateRunningInstance D c (Some rs)
     = ([], Err (Errorf_w (spec.runtime D) "failed to compose user data: " err))) /\
  (forall udata,
     spec.ComposeUserData D rs = Ok udata ->
     cs.DeployVirtualMachine (client.client c) (deployRequest rs udata) = Ok "" ->
     client.CreateRunningInstance D c (Some rs)
     = ([cs.ReqDeployVirtualMachine (deployRequest rs udata)],
        Err (errorString "empty VM id in deploy response"))) /\
  (forall udata id err,
     spec.ComposeUserData D rs = Ok udata ->
     cs.DeployVirtualMachine (client.client c) (deployRequest rs udata) = Ok id ->
     id <> "" ->
     cs.CreateTags (client.client c) [id] "UserVm" (creationTags rs) = Err err ->
     client.CreateRunningInstance D c (Some rs)
     = ([cs.ReqDeployVirtualMachine (deployRequest rs udata);
         cs.ReqCreateTags [id] "UserVm" (creationTags rs)],
        Err (Errorf_w (spec.runtime D) "failed to tag VM: " err))).
Proof.
  split; [reflexivity|]. split; [|split].
  - intros err Hudata.
    unfold client.CreateRunningInstance, cs.andThen, cs.ret.
    rewrite Hudata. reflexivity.
  - intros udata Hudata Hdeploy.
    rewrite (CreateRunningInstance_cases c rs udata Hudata), Hdeploy. reflexivity.
  - intros udata id err Hudata Hdeploy Hid Htags.
    rewrite (CreateRunningInstance_cases c rs udata Hudata), Hdeploy.
    apply String.eqb_neq in Hid. rewrite Hid, Htags. reflexivity.
Qed.

(** X25.  An ID returned by [CreateRunningInstance] is the non-empty ID the
    platform gave to the deploy request, and the VM has been tagged: the
    requests sent are the deploy request, carrying the composed user data,
    and one tag request for that ID, among whose tags are the controller ID
    and the pool ID. *)
Theorem created_instance_is_tagged
  (c : client.CloudStackCli) (rs : spec.RunnerSpec) (id : string) :
  snd (client.CreateRunningInstance D c (Some rs)) = Ok id ->
  id <> "" /\
  exists udata,
    spec.ComposeUserData D rs = Ok udata /\
    cs.dUserdata (deployRequest rs udata) = Some udata /\
    cs.DeployVirtualMachine (client.client c) (deployRequest rs udata) = Ok id /\
    cs.CreateTags (client.client c) [id] "UserVm" (creationTags rs) = Ok tt /\
    fst (client.CreateRunningInstance D c (Some rs))
    = [cs.ReqDeployVirtualMachine (deployRequest rs udata);
       cs.ReqCreateTags [id] "UserVm" (creationTags rs)] /\
    In ("GARM_CONTROLLER_ID", spec.ControllerID rs) (creationTags rs) /\
    In ("GARM_POOL_ID", params.PoolID (spec.BootstrapParams rs)) (creationTags rs).
Proof.
  intros H.
  destruct (spec.ComposeUserData D rs) as [udata | err |] eqn:Hudata.
  - rewrite (CreateRunningInstance_cases c rs udata Hudata) in H |- *.
    destruct (cs.DeployVirtualMachine (client.client c) (deployRequest rs udata))
      as [id' | err |] eqn:Hdeploy; cbn [snd] in H; try discriminate.
    destruct (String.eqb_spec id' "") as [Hempty | Hset]; cbn [snd] in H;
      [discriminate|].
    destruct (cs.CreateTags (client.client c) [id'] "UserVm" (creationTags rs))
      as [[] | err |] eqn:Htags; try discriminate.
    injection H as <-. split; [exact Hset|].
    exists udata. repeat split; try assumption; simpl; auto.
  - unfold client.CreateRunningInstance, cs.andThen, cs.ret in H.
    rewrite Hudata in H. discriminate.
  - unfold client.CreateRunningInstance, cs.andThen, cs.ret in H.
    rewrite Hudata in H. discriminate.
Qed.

Lemma runner_spec_carries_request
  (cfg : config.Config) (data : params.BootstrapInstance) (controllerID : string)
  (rs : spec.RunnerSpec) :
  spec.GetRunnerSpecFromBootstrapParams D cfg data controllerID = Ok rs ->
  spec.BootstrapParams rs = data /\ spec.ControllerID rs = controllerID.
Proof.
  unfold spec.GetRunnerSpecFromBootstrapParams. intros H.
  destruct (spec.DefaultToolFetch D _ _ _); cbn [onError bind] in H;
    try discriminate.
  destruct (spec.newExtraSpecsFromBootstrapData D data); cbn [onError bind] in H;
    try discriminate.
  destruct (spec.Validate _); [discriminate|].
  injection H as <-. split; reflexivity.
Qed.

(** X26.  An instance returned by [CreateInstance] is reported as running
    under the name, OS type and OS architecture of the bootstrap request,
    with a non-empty provider ID; and the VM with that ID has been tagged
    with the controller ID of the provider and the pool ID of the
    request. *)
Theorem created_instance_record
  (p : provider.CloudStackProvider) (bootstrapParams : params.BootstrapInstance)
  (inst : params.ProviderInstance) :
  snd (provider.CreateInstance D p bootstrapParams) = Ok inst ->
  params.Status inst = params.InstanceRunning /\
  params.IName inst = params.Name bootstrapParams /\
  params.IOSType inst = params.BOSType bootstrapParams /\
  params.IOSArch inst = params.BOSArch bootstrapParams /\
  params.ProviderID inst <> "" /\
  exists tags,
    In (cs.ReqCreateTags [params.ProviderID inst] "UserVm" tags)
      (fst (provider.CreateInstance D p bootstrapParams)) /\
    In ("GARM_CONTROLLER_ID", provider.controllerID p) tags /\
    In ("GARM_POOL_ID", params.PoolID bootstrapParams) tags.
Proof.
  unfold provider.CreateInstance, cs.andThen, cs.orElse, cs.ret.
  destruct (spec.GetRunnerSpecFromBootstrapParams D (client.Config (provider.cli p))
              bootstrapParams (provider.controllerID p)) as [rs | err |] eqn:Hspec;
    cbn [onError fst snd]; try discriminate.
  destruct (runner_spec_carries_request _ _ _ _ Hspec) as [Hbp Hcid].
  destruct (spec.ComposeUserData D rs) as [udata | err |] eqn:Hudata.
  - rewrite (CreateRunningInstance_cases (provider.cli p) rs udata Hudata).
    destruct (cs.DeployVirtualMachine _ (deployRequest rs udata))
      as [id | err |]; cbn [fst snd]; try discriminate.
    destruct (String.eqb_spec id "") as [Hempty | Hset]; cbn [fst snd];
      [discriminate|].
    destruct (cs.CreateTags _ [id] "UserVm" (creationTags rs)) as [[] | err |];
      cbn [fst snd app]; try discriminate.
    intros [= <-]. cbn [params.Status params.IName params.IOSType params.IOSArch
                           params.ProviderID].
    rewrite Hbp. repeat split; try assumption.
    exists (creationTags rs). unfold creationTags. rewrite Hbp, Hcid.
    repeat split; simpl; auto.
  - unfold client.CreateRunningInstance, cs.andThen, cs.ret.
    rewrite Hudata. cbn [onError fst snd]. discriminate.
  - unfold client.CreateRunningInstance, cs.andThen, cs.ret.
    rewrite Hudata. cbn [onError fst snd]. discriminate.
Qed.

End Creation.

Section CreationExamples.

Import gostd.

Lemma create_failure_modes_witness :
  fst (client.CreateRunningInstance testDeps
         (deployingCli "vm-42" (Err (errorString "tagging refused")))
         (Some (sampleSpec "T" false)))
  = [cs.ReqDeployVirtualMachine
       (deployRequest (sampleSpec "T" false)
          (base64.EncodeToString (list_byte_of_string "#cloud-config")));
     cs.ReqCreateTags ["vm-42"] "UserVm" (creationTags (sampleSpec "T" false))] /\
  snd (client.CreateRunningInstance testDeps
         (deployingCli "vm-42" (Err (errorString "tagging refused")))
         (Some (sampleSpec "T" false)))
  = Err (Errorf_w sampleRuntime "failed to tag VM: " (errorString "tagging refused")).
Proof.
  rewrite (proj2 (proj2 (proj2 (create_failure_modes testDeps
             (deployingCli "vm-42" (Err (errorString "tagging refused")))
             (sampleSpec "T" false))))
             (base64.EncodeToString (list_byte_of_string "#cloud-config"))
             "vm-42" (errorString "tagging refused")
             eq_refl eq_refl ltac:(discriminate) eq_refl).
  split; reflexivity.
Defined.

Lemma created_instance_is_tagged_witness :
  fst (client.CreateRunningInstance testDeps (deployingCli "vm-42" (Ok tt))
         (Some (sampleSpec "T" false)))
  = [cs.ReqDeployVirtualMachine
       (deployRequest (sampleSpec "T" false)
          (base64.EncodeToString (list_byte_of_string "#cloud-config")));
     cs.ReqCreateTags ["vm-42"] "UserVm" (creationTags (sampleSpec "T" false))].
Proof.
  destruct (created_instance_is_tagged testDeps (deployingCli "vm-42" (Ok tt))
              (sampleSpec "T" false) "vm-42" eq_refl)
    as [_ [udata [Hudata [_ [_ [_ [Hlog _]]]]]]].
  injection Hudata as <-. exact Hlog.
Defined.

Lemma created_instance_record_witness :
  params.Status
    {| params.ProviderID := "vm-42"; params.IName := "runner-name";
       params.IOSType := params.Linux; params.IOSArch := "amd64";
       params.Status := params.InstanceRunning |} = params.InstanceRunning /\
  snd (provider.CreateInstance testDeps
         {| provider.controllerID := "c1";
            provider.cli := deployingCli "vm-42" (Ok tt) |} testBootstrap)
  = Ok {| params.ProviderID := "vm-42"; params.IName := "runner-name";
          params.IOSType := params.Linux; params.IOSArch := "amd64";
          params.Status := params.InstanceRunning |}.
Proof.
  split; [|reflexivity].
  apply (created_instance_record testDeps
           {| provider.controllerID := "c1";
              provider.cli := deployingCli "vm-42" (Ok tt) |} testBootstrap).
  reflexivity.
Defined.

End CreationExamples.

(** ** A response that lists a nil machine *)

Section NilMachine.

Import gostd.

(** X27.  When the machine the lookup returns is a nil pointer (the first
    entry of the response is nil), get-instance reports an error of the
    conversion, while start, stop and destroy panic on its ID before any
    action request is sent; stop and destroy do not take it for a missing
    instance. *)
Theorem nil_machine_is_not_absorbed
  (R : Runtime) (p : provider.CloudStackProvider) (identifier : string) :
  (snd (client.FindOneInstance R (provider.cli p) (provider.controllerID p) identifier)
   = Ok None ->
   snd (provider.GetInstance R p identifier)
   = Err (Errorf_w R "failed to convert instance: "
            (errorString "nil virtual machine"))) /\
  (snd (client.FindOneInstance R (provider.cli p) "" identifier) = Ok None ->
   client.StartInstance R (provider.cli p) identifier
   = (fst (client.FindOneInstance R (provider.cli p) "" identifier), Panic) /\
   (forall force,
      client.StopInstance R (provider.cli p) identifier force
      = (fst (client.FindOneInstance R (provider.cli p) "" identifier), Panic)) /\
   client.DestroyInstance R (provider.cli p) identifier
   = (fst (client.FindOneInstance R (provider.cli p) "" identifier), Panic)).
Proof.
  split.
  - intros Hfind. unfold provider.GetInstance, cs.andThen, cs.orElse, cs.ret.
    destruct (client.FindOneInstance R (provider.cli p) (provider.controllerID p)
                identifier) as [log r].
    cbn [snd] in Hfind. subst r. reflexivity.
  - intros Hfind. split; [|split; [intros force|]].
    + rewrite StartInstance_cases. cbv zeta. rewrite Hfind. reflexivity.
    + rewrite StopInstance_cases. cbv zeta. rewrite Hfind. reflexivity.
    + rewrite DestroyInstance_cases. cbv zeta. rewrite Hfind. reflexivity.
Qed.

Lemma nil_machine_is_not_absorbed_witness :
  snd (provider.GetInstance sampleRuntime (sampleProvider [None] (Ok tt)) "vm-name")
  = Err (Errorf_w sampleRuntime "failed to convert instance: "
           (errorString "nil virtual machine")) /\
  snd (client.DestroyInstance sampleRuntime (sampleCli [None] (Ok tt)) "vm-name")
  = Panic.
Proof.
  destruct (nil_machine_is_not_absorbed sampleRuntime
              (sampleProvider [None] (Ok tt)) "vm-name") as [Hget Hact].
  split; [apply Hget; reflexivity|].
  destruct (Hact eq_refl) as [_ [_ Hdestroy]].
  change (sampleCli [None] (Ok tt)) with (provider.cli (sampleProvider [None] (Ok tt))).
  rewrite Hdestroy. reflexivity.
Defined.

End NilMachine.
